(** * Order, stock and credit-ledger logic of the supplement back office

    A shallow embedding of the tRPC resolvers of [server/routers/orders.ts],
    [server/routers/organizations.ts] and [server/routers/products.ts], of
    [deductCredits] of [server/routers/users.ts], of the logging helpers
    [lib/userLog.ts] and [lib/productLog.ts], and of the cost calculator and
    the confirmation dialog of the shipping page, followed by the properties
    of the order / credit subsystem.

    Conventions of the embedding:
    - a JavaScript [number] is an IEEE-754 binary64 value, [spec_float] of the
      standard library at precision 53 with the largest exponent 1024: [+],
      [-], [*] and [/] round to the nearest double, ties to even, and NaN,
      the infinities and the two zeros are values like any other;
    - a number that every schema declares [z.number().int()] (an ordered
      quantity, a stock) is an integer; it enters floating-point arithmetic
      through [num], the double nearest to it;
    - a MongoDB collection addressed by [_id] is a finite map from
      identifiers to documents; the append-only collections that are never
      addressed by [_id] here (ledger and logs) are lists in insertion order;
    - every resolver is a function from the database to an outcome and a
      database: an exception keeps the writes made before it, as there is no
      transaction around a resolver;
    - a resolver that checks a document and updates it after a further
      [await] is the sequence of its two phases; another call may run
      between them, and the properties of interleaved calls run it there;
    - [new Date()] is the argument [now] of a resolver, and the identifier
      the driver generates for [insertOne] is the argument [newId];
    - the schema of a resolver that computes with an amount or a cost of its
      input ([addCredits], [adjustCredits], [deductCredits],
      [updateShippingCost]) is part of the resolver; the schemas of the other
      resolvers only remove inputs. *)

From Stdlib Require Import ZArith String Ascii SpecFloat.
From stdpp Require Import gmap strings list sorting.

(** ** Numbers and strings as JavaScript uses them *)

Abbreviation number := spec_float.

Definition prec : Z := 53.
Definition emax : Z := 1024.

(** The double nearest to an integer. *)
Definition num (z : Z) : number := binary_normalize prec emax z 0 false.
Arguments num z%_Z.

Definition num_add : number → number → number := SFadd prec emax.
Definition num_sub : number → number → number := SFsub prec emax.
Definition num_mul : number → number → number := SFmul prec emax.
Definition num_div : number → number → number := SFdiv prec emax.
Definition num_opp : number → number := SFopp.

(** [x < y]; false when either side is NaN. *)
Definition num_ltb : number → number → bool := SFltb.

(** [x <= y]; false when either side is NaN. *)
Definition num_leb : number → number → bool := SFleb.

Declare Scope num_scope.
Delimit Scope num_scope with num.
Bind Scope num_scope with spec_float.

Infix "+" := num_add : num_scope.
Infix "-" := num_sub : num_scope.
Infix "*" := num_mul : num_scope.
Infix "/" := num_div : num_scope.
Notation "- x" := (num_opp x) : num_scope.
Notation "x < y" := (num_ltb x y = true) : num_scope.
Notation "x <= y" := (num_leb x y = true) : num_scope.

(** The decimal literal [n / 10^k]. JavaScript reads a literal as the double
    nearest to it; the division of two doubles is the double nearest to
    their quotient, and [n] and [10^k] are doubles in every use below. *)
Definition dec (n : Z) (k : nat) : number := (num n / num (10 ^ Z.of_nat k))%num.
Arguments dec n%_Z k%_nat.

Definition is_nan (x : number) : bool :=
  match x with S754_nan => true | _ => false end.

(** [Number.isFinite] *)
Definition is_finite (x : number) : bool :=
  match x with S754_zero _ | S754_finite _ _ _ => true | _ => false end.

(** A number is falsy when it is [0], [-0] or NaN. *)
Definition falsy (x : number) : bool :=
  match x with S754_zero _ | S754_nan => true | _ => false end.

(** [x || d] on numbers. *)
Definition num_or (x d : number) : number := if falsy x then d else x.

(** [x || d] where [x] may be [undefined]. *)
Definition onum_or (x : option number) (d : number) : number :=
  match x with Some v => num_or v d | None => d end.

(** [x ?? d]: only [undefined] is replaced. *)
Definition nullish (x : option number) (d : number) : number :=
  match x with Some v => v | None => d end.

(** [x || d] on integers: [0] is falsy. *)
Definition int_or (x d : Z) : Z := if (x =? 0)%Z then d else x.

(** What the schemas accept: [z.number()] refuses NaN, [.positive()] asks
    for [x > 0] and [.nonnegative()] for [x >= 0]. Later versions of the
    validation library refuse the two infinities as well; the properties
    that depend on a schema are stated for finite inputs and for NaN, where
    all versions agree. *)
Definition is_number (x : number) : bool := negb (is_nan x).
Definition is_positive (x : number) : bool := num_ltb (num 0) x.
Definition is_nonnegative (x : number) : bool := num_leb (num 0) x.

(** Truthiness of a string: the empty string is falsy. *)
Definition truthy (s : string) : bool :=
  match s with EmptyString => false | _ => true end.

(** Truthiness of an optional string: [undefined] is falsy too. *)
Definition otruthy (s : option string) : option string :=
  match s with
  | Some v => if truthy v then Some v else None
  | None => None
  end.

(** [s || d] on strings. *)
Definition str_or (s d : string) : string := if truthy s then s else d.

(** [s || d] where [s] may be [undefined]. *)
Definition ostr_or (s : option string) (d : string) : string :=
  match otruthy s with Some v => v | None => d end.

(** ** Object identifiers

    [new ObjectId(s)] of the driver accepts a string of 24 hexadecimal
    digits and throws on every other string (older drivers also took a
    string of exactly 12 characters as raw bytes); two spellings that differ
    in the case of a digit denote the same identifier. *)

Abbreviation ObjectId := string.

Definition is_hex (c : ascii) : bool :=
  let n := nat_of_ascii c in
  ((48 <=? n) && (n <=? 57)) || ((97 <=? n) && (n <=? 102))
  || ((65 <=? n) && (n <=? 70)).

Definition lower_hex (c : ascii) : ascii :=
  let n := nat_of_ascii c in
  if (65 <=? n) && (n <=? 70) then ascii_of_nat (n + 32) else c.

Fixpoint all_hex (s : string) : bool :=
  match s with
  | EmptyString => true
  | String c r => is_hex c && all_hex r
  end.

Fixpoint lower_all (s : string) : string :=
  match s with
  | EmptyString => EmptyString
  | String c r => String (lower_hex c) (lower_all r)
  end.

Definition parse_ObjectId (s : string) : option ObjectId :=
  if (String.length s =? 24)%nat && all_hex s then Some (lower_all s) else None.

(** ** Documents *)

Abbreviation Time := Z.

Inductive OrderStatus :=
  | pending | processing | sent_to_logistic | delivered | cancelled.

Inductive Channel := line | shopee | lazada | other.

Inductive OrderSource := admin | client.

Inductive CreditTransactionType := add | deduct | adjust | refund.

Inductive ProductAction :=
  | act_create | act_update | add_stock | reduce_stock | act_delete.

#[global] Instance OrderStatus_eq_dec : EqDecision OrderStatus.
Proof. solve_decision. Defined.

#[global] Instance CreditTransactionType_eq_dec : EqDecision CreditTransactionType.
Proof. solve_decision. Defined.

Definition OrderStatus_to_string (s : OrderStatus) : string :=
  match s with
  | pending => "pending"
  | processing => "processing"
  | sent_to_logistic => "sent_to_logistic"
  | delivered => "delivered"
  | cancelled => "cancelled"
  end.

Record Product := mkProduct {
  p_organizationId : string;
  p_productCode : string;
  p_productName : string;
  p_price : number;
  stockQuantity : Z;
  isActive : bool;
  p_updatedAt : Time
}.

Record Organization := mkOrganization {
  org_name : string;
  credits : number;
  org_updatedAt : Time
}.

(** A user document; [credits] is the field of the older per-user balance
    and is absent on the users that signup creates. *)
Record User := mkUser {
  user_name : string;
  user_email : string;
  user_credits : option number;
  user_updatedAt : Time
}.

(** An order document. The seven cost fields and their total are optional:
    [OrderSchema] defaults them to [0] for [create], while
    [submitClientOrder] inserts a document without them. *)
Record Order := mkOrder {
  organizationId : string;
  productId : option string;
  productCode : option string;
  productName : string;
  price : number;
  quantity : Z;
  channel : Channel;
  customerName : string;
  customerContact : string;
  shippingAddress : string;
  status : OrderStatus;
  createdBy : string;
  orderSource : OrderSource;
  orderDate : option string;
  pickPackCost : option number;
  bubbleCost : option number;
  paperInsideCost : option number;
  cancelOrderCost : option number;
  codCost : option number;
  boxCost : option number;
  deliveryFeeCost : option number;
  totalShippingCost : option number;
  createdAt : Time;
  updatedAt : Time
}.

(** The [description] of a ledger record is free text, or the template
    [Shipping cost for order ${productName} (${quantity} items)] kept with
    its two arguments. *)
Inductive Description :=
  | DescText (s : string)
  | DescShipping (product : string) (items : Z).

Record CreditTransaction := mkCreditTransaction {
  tx_organizationId : option string;
  tx_organizationName : option string;
  tx_userId : option string;
  tx_userName : option string;
  tx_userEmail : option string;
  tx_type : CreditTransactionType;
  amount : number;
  balanceBefore : number;
  balanceAfter : number;
  description : Description;
  tx_orderId : option string;
  performedBy : option string;
  performedByName : option string;
  tx_createdAt : Time
}.

(** Log documents; their [date] and [time] strings are renderings of
    [createdAt] and are not kept apart from it. *)
Record UserLog := mkUserLog {
  ul_userId : string;
  ul_userName : option string;
  ul_activity : string;
  ul_refId : string;
  ul_organizationId : string;
  ul_createdAt : Time
}.

Record ProductLog := mkProductLog {
  pl_productId : string;
  pl_productCode : string;
  pl_productName : string;
  pl_action : ProductAction;
  pl_quantityChange : option Z;
  pl_previousStock : option Z;
  pl_newStock : option Z;
  pl_userId : string;
  pl_userName : string;
  pl_organizationId : string;
  pl_refId : string;
  pl_notes : string;
  pl_createdAt : Time
}.

(** ** The database *)

Record Db := mkDb {
  orders : gmap ObjectId Order;
  products : gmap ObjectId Product;
  organizations : gmap ObjectId Organization;
  users : gmap ObjectId User;
  credit_transactions : list CreditTransaction;
  user_logs : list UserLog;
  product_logs : list ProductLog
}.

Definition set_orders (f : gmap ObjectId Order → gmap ObjectId Order) (db : Db) : Db :=
  mkDb (f (orders db)) (products db) (organizations db) (users db)
       (credit_transactions db) (user_logs db) (product_logs db).

Definition set_products (f : gmap ObjectId Product → gmap ObjectId Product) (db : Db) : Db :=
  mkDb (orders db) (f (products db)) (organizations db) (users db)
       (credit_transactions db) (user_logs db) (product_logs db).

Definition set_users (f : gmap ObjectId User → gmap ObjectId User) (db : Db) : Db :=
  mkDb (orders db) (products db) (organizations db) (f (users db))
       (credit_transactions db) (user_logs db) (product_logs db).

Definition set_organizations
    (f : gmap ObjectId Organization → gmap ObjectId Organization) (db : Db) : Db :=
  mkDb (orders db) (products db) (f (organizations db)) (users db)
       (credit_transactions db) (user_logs db) (product_logs db).

Definition add_credit_transaction (t : CreditTransaction) (db : Db) : Db :=
  mkDb (orders db) (products db) (organizations db) (users db)
       (credit_transactions db ++ [t]) (user_logs db) (product_logs db).

Definition add_user_log (l : UserLog) (db : Db) : Db :=
  mkDb (orders db) (products db) (organizations db) (users db)
       (credit_transactions db) (user_logs db ++ [l]) (product_logs db).

Definition add_product_log (l : ProductLog) (db : Db) : Db :=
  mkDb (orders db) (products db) (organizations db) (users db)
       (credit_transactions db) (user_logs db) (product_logs db ++ [l]).

(** ** Resolvers as state transformers that may throw *)

(** [BadRequest] is the failure of the input schema; the other errors are
    thrown by the resolvers and the driver. *)
Inductive Error :=
  | BadRequest
  | BSONError
  | OrderNotFound
  | OrganizationNotFound
  | ProductNotFound
  | ProductNotActive
  | ProductNotAvailable
  | UserNotFound
  | InsufficientUserCredits
  | InsufficientStock (available requested : Z)
  | InsufficientCredits (required available : number).

Inductive Outcome (A : Type) :=
  | Returned (a : A)
  | Thrown (e : Error).
Arguments Returned {A} a.
Arguments Thrown {A} e.

Definition M (A : Type) : Type := Db → Outcome A * Db.

#[global] Instance M_ret : MRet M := λ A a db, (Returned a, db).

#[global] Instance M_bind : MBind M := λ A B f m db,
  match m db with
  | (Returned a, db') => f a db'
  | (Thrown e, db') => (Thrown e, db')
  end.

Definition throw {A} (e : Error) : M A := λ db, (Thrown e, db).
Definition gets {A} (f : Db → A) : M A := λ db, (Returned (f db), db).
Definition modify (f : Db → Db) : M unit := λ db, (Returned tt, f db).

(** A computation keeps an observation [f] of the database when no run of
    it, returning or throwing, changes [f]. *)
Definition keeps {A B} (f : Db → A) (m : M B) : Prop :=
  ∀ db, f (m db).2 = f db.

(** [new ObjectId(s)] *)
Definition new_ObjectId (s : string) : M ObjectId :=
  match parse_ObjectId s with
  | Some oid => mret oid
  | None => throw BSONError
  end.

(** ** [lib/userLog.ts] and [lib/productLog.ts] *)

Definition logActivity (now : Time) (userId : string) (userName : option string)
    (activity : string) (refId : option string) (organizationId : string) : M unit :=
  modify (add_user_log
    {| ul_userId := userId;
       ul_userName := userName;
       ul_activity := activity;
       ul_refId := ostr_or refId "";
       ul_organizationId := organizationId;
       ul_createdAt := now |}).

Definition logProductActivity (now : Time) (productId productCode productName : string)
    (action : ProductAction) (previousStock newStock quantityChange : option Z)
    (userId : string) (userName : option string) (organizationId : string)
    (refId notes : option string) : M unit :=
  modify (add_product_log
    {| pl_productId := productId;
       pl_productCode := productCode;
       pl_productName := productName;
       pl_action := action;
       pl_quantityChange :=
         match quantityChange with
         | Some q => if (q =? 0)%Z then None else Some q
         | None => None
         end;
       pl_previousStock := previousStock;
       pl_newStock := newStock;
       pl_userId := userId;
       pl_userName := ostr_or userName "";
       pl_organizationId := organizationId;
       pl_refId := ostr_or refId "";
       pl_notes := ostr_or notes "";
       pl_createdAt := now |}).

(** ** Queries and updates shared by the resolvers *)

(** [db.collection("users").findOne({ _id: new ObjectId(createdBy) })] behind
    the guard [createdBy ? ... : null]. *)
Definition find_creator (createdBy : string) : M (option (ObjectId * User)) :=
  if truthy createdBy
  then uid ← new_ObjectId createdBy; gets (λ db, pair uid <$> users db !! uid)
  else mret None.

(** [$inc: { stockQuantity: d }, $set: { updatedAt: now }] *)
Definition inc_stock (d : Z) (now : Time) (p : Product) : Product :=
  mkProduct (p_organizationId p) (p_productCode p) (p_productName p) (p_price p)
            (stockQuantity p + d)%Z (isActive p) now.

(** [$inc: { credits: d }] *)
Definition inc_credits (d : number) (o : Organization) : Organization :=
  mkOrganization (org_name o) (credits o + d)%num (org_updatedAt o).

(** [$set: { credits: c, updatedAt: now }] *)
Definition set_credits (c : number) (now : Time) (o : Organization) : Organization :=
  mkOrganization (org_name o) c now.

(** [$set: { status: s, updatedAt: now }] *)
Definition set_status (s : OrderStatus) (now : Time) (o : Order) : Order :=
  mkOrder (organizationId o) (productId o) (productCode o) (productName o) (price o)
          (quantity o) (channel o) (customerName o) (customerContact o)
          (shippingAddress o) s (createdBy o) (orderSource o) (orderDate o)
          (pickPackCost o) (bubbleCost o) (paperInsideCost o) (cancelOrderCost o)
          (codCost o) (boxCost o) (deliveryFeeCost o) (totalShippingCost o)
          (createdAt o) now.

(** The seven cost fields, as a resolver input or as computed by the page. *)
Record Costs := mkCosts {
  c_pickPackCost : number;
  c_bubbleCost : number;
  c_paperInsideCost : number;
  c_cancelOrderCost : number;
  c_codCost : number;
  c_boxCost : number;
  c_deliveryFeeCost : number
}.

(** The sum of the seven costs, added from left to right. *)
Definition sum_costs (c : Costs) : number :=
  (c_pickPackCost c + c_bubbleCost c + c_paperInsideCost c + c_cancelOrderCost c
   + c_codCost c + c_boxCost c + c_deliveryFeeCost c)%num.

(** [$set] of the seven costs, their total and [updatedAt]. *)
Definition set_costs (c : Costs) (total : number) (now : Time) (o : Order) : Order :=
  mkOrder (organizationId o) (productId o) (productCode o) (productName o) (price o)
          (quantity o) (channel o) (customerName o) (customerContact o)
          (shippingAddress o) (status o) (createdBy o) (orderSource o) (orderDate o)
          (Some (c_pickPackCost c)) (Some (c_bubbleCost c)) (Some (c_paperInsideCost c))
          (Some (c_cancelOrderCost c)) (Some (c_codCost c)) (Some (c_boxCost c))
          (Some (c_deliveryFeeCost c)) (Some total) (createdAt o) now.

(** ** [ordersRouter] *)

Module ordersRouter.

(** The product of [input.productId] within [input.organizationId]. *)
Definition find_product_of (pid : ObjectId) (org : string) : M (option Product) :=
  gets (λ db,
    match products db !! pid with
    | Some p => if decide (p_organizationId p = org) then Some p else None
    | None => None
    end).

(** The first phase of the reservation that [create] and
    [submitClientOrder] share: [findOne] and the three checks on the
    document it returns; [inactive] is the error each of them throws for an
    inactive product. *)
Definition check_stock (inactive : Error) (pidStr organization : string) (qty : Z)
    : M Product :=
  pid ← new_ObjectId pidStr;
  found ← find_product_of pid organization;
  match found with
  | None => throw ProductNotFound
  | Some product =>
      if negb (isActive product) then throw inactive
      else if (stockQuantity product <? qty)%Z
      then throw (InsufficientStock (stockQuantity product) qty)
      else mret product
  end.

(** The second phase, after a further [await]: [updateOne] with
    [$inc: { stockQuantity: -quantity }]. *)
Definition take_stock (now : Time) (pidStr : string) (qty : Z) : M unit :=
  pid ← new_ObjectId pidStr;
  modify (set_products (alter (inc_stock (- qty) now) pid)).

(** The reservation of a resolver that runs alone. *)
Definition reserve_stock (now : Time) (inactive : Error)
    (pidStr organization : string) (qty : Z) : M Product :=
  product ← check_stock inactive pidStr organization qty;
  take_stock now pidStr qty;;
  mret product.

(** [{ ...input, createdAt: new Date(), updatedAt: new Date() }] after the
    defaults taken from the product. The schema of [create] omits [_id],
    [createdAt] and [updatedAt]: what [input] holds there is not read. *)
Definition created_order (now : Time) (input : Order) (code : option string)
    (name : string) (unitPrice : number) : Order :=
  mkOrder (organizationId input) (productId input) code name unitPrice
          (quantity input) (channel input) (customerName input)
          (customerContact input) (shippingAddress input) (status input)
          (createdBy input) (orderSource input) (orderDate input)
          (pickPackCost input) (bubbleCost input) (paperInsideCost input)
          (cancelOrderCost input) (codCost input) (boxCost input)
          (deliveryFeeCost input) (totalShippingCost input) now now.

Definition create (now : Time) (newId : ObjectId) (input : Order) : M ObjectId :=
  doc ←
    match otruthy (productId input) with
    | Some pidStr =>
        product ← reserve_stock now ProductNotActive pidStr
                    (organizationId input) (quantity input);
        user ← find_creator (createdBy input);
        logProductActivity now pidStr (p_productCode product) (p_productName product)
          reduce_stock (Some (stockQuantity product))
          (Some (stockQuantity product - quantity input)%Z) (Some (- quantity input)%Z)
          (str_or (createdBy input) "system")
          (Some (ostr_or (user_name ∘ snd <$> user) "System"))
          (organizationId input) (Some "")
          (Some ("Stock reduced by order for customer: " +:+ customerName input));;
        mret (created_order now input
                (Some (ostr_or (productCode input) (p_productCode product)))
                (str_or (productName input) (p_productName product))
                (num_or (price input) (p_price product)))
    | None =>
        mret (created_order now input (productCode input) (productName input)
                (price input))
    end;
  modify (set_orders (insert newId doc));;
  user ← find_creator (createdBy input);
  match user with
  | Some (uid, u) =>
      logActivity now uid (Some (user_name u)) "create order"
        (Some newId) (organizationId input)
  | None => mret tt
  end;;
  mret newId.

Record ClientOrderInput := mkClientOrderInput {
  ci_organizationId : string;
  ci_productId : option string;
  ci_productCode : option string;
  ci_productName : string;
  ci_price : number;
  ci_quantity : Z;
  ci_channel : Channel;
  ci_customerName : string;
  ci_customerContact : string;
  ci_shippingAddress : string;
  ci_orderDate : option string
}.

(** The order document of a client submission. *)
Definition client_order (now : Time) (input : ClientOrderInput) : Order :=
  mkOrder (ci_organizationId input) (ci_productId input) (ci_productCode input)
    (ci_productName input) (ci_price input) (ci_quantity input)
    (ci_channel input) (ci_customerName input) (ci_customerContact input)
    (ci_shippingAddress input) pending "client" client (ci_orderDate input)
    None None None None None None None None now now.

Definition submitClientOrder (now : Time) (newId : ObjectId)
    (input : ClientOrderInput) : M ObjectId :=
  match otruthy (ci_productId input) with
  | Some pidStr =>
      reserve_stock now ProductNotAvailable pidStr (ci_organizationId input)
        (ci_quantity input);;
      mret tt
  | None => mret tt
  end;;
  modify (set_orders (insert newId (client_order now input)));;
  logActivity now "client" (Some (ci_customerName input)) "submit client order"
    (Some newId) (ci_organizationId input);;
  mret newId.

(** [submitClientOrder] cut at the [await] between its stock check and its
    first write: what runs up to the check, and what runs from the decrement
    on. *)
Definition submit_checks (input : ClientOrderInput) : M unit :=
  match otruthy (ci_productId input) with
  | Some pidStr =>
      check_stock ProductNotAvailable pidStr (ci_organizationId input)
        (ci_quantity input);;
      mret tt
  | None => mret tt
  end.

Definition submit_writes (now : Time) (newId : ObjectId) (input : ClientOrderInput)
    : M ObjectId :=
  match otruthy (ci_productId input) with
  | Some pidStr => take_stock now pidStr (ci_quantity input)
  | None => mret tt
  end;;
  modify (set_orders (insert newId (client_order now input)));;
  logActivity now "client" (Some (ci_customerName input)) "submit client order"
    (Some newId) (ci_organizationId input);;
  mret newId.

(** The input of [updateShippingCost]: every cost is optional. *)
Record ShippingCostInput := mkShippingCostInput {
  si_id : string;
  si_organizationId : string;
  si_pickPackCost : option number;
  si_bubbleCost : option number;
  si_paperInsideCost : option number;
  si_cancelOrderCost : option number;
  si_codCost : option number;
  si_boxCost : option number;
  si_deliveryFeeCost : option number
}.

Record ShippingCostResult := mkShippingCostResult {
  r_totalShippingCost : number;
  r_newBalance : number
}.

Definition updateStatus (now : Time) (id : string) (newStatus : OrderStatus) : M unit :=
  oid ← new_ObjectId id;
  found ← gets (λ db, orders db !! oid);
  match found with
  | None => throw OrderNotFound
  | Some order =>
      (if bool_decide (newStatus = cancelled) && negb (bool_decide (status order = cancelled))
       then
         match otruthy (productId order) with
         | Some pidStr =>
             pid ← new_ObjectId pidStr;
             product ← gets (λ db, products db !! pid);
             match product with
             | Some p =>
                 pid' ← new_ObjectId pidStr;
                 modify (set_products (alter (inc_stock (quantity order) now) pid'));;
                 user ← find_creator (createdBy order);
                 logProductActivity now pidStr (p_productCode p) (p_productName p)
                   add_stock (Some (stockQuantity p))
                   (Some (stockQuantity p + quantity order)%Z) (Some (quantity order))
                   (str_or (createdBy order) "system")
                   (Some (ostr_or (user_name ∘ snd <$> user) "System"))
                   (organizationId order) (Some id)
                   (Some ("Stock restored from cancelled order for customer: "
                          +:+ customerName order))
             | None => mret tt
             end
         | None => mret tt
         end;;
         let cancellationFee := num (quantity order * 10) in
         orgId ← new_ObjectId (organizationId order);
         modify (set_organizations (alter (inc_credits (- cancellationFee)) orgId))
       else mret tt);;
      oid' ← new_ObjectId id;
      modify (set_orders (alter (set_status newStatus now) oid'));;
      user ← find_creator (createdBy order);
      match user with
      | Some (uid, u) =>
          logActivity now uid (Some (user_name u))
            ("update order status to " +:+ OrderStatus_to_string newStatus)
            (Some id) (organizationId order)
      | None => mret tt
      end
  end.

(** The schema of [updateShippingCost]: a cost that is given is a number. *)
Definition costs_are_numbers (input : ShippingCostInput) : bool :=
  forallb (λ c, match c with Some x => is_number x | None => true end)
    [si_pickPackCost input; si_bubbleCost input; si_paperInsideCost input;
     si_cancelOrderCost input; si_codCost input; si_boxCost input;
     si_deliveryFeeCost input].

(** Every cost that is given is finite. *)
Definition costs_are_finite (input : ShippingCostInput) : bool :=
  forallb (λ c, match c with Some x => is_finite x | None => true end)
    [si_pickPackCost input; si_bubbleCost input; si_paperInsideCost input;
     si_cancelOrderCost input; si_codCost input; si_boxCost input;
     si_deliveryFeeCost input].

Definition input_costs (input : ShippingCostInput) : Costs :=
  mkCosts (nullish (si_pickPackCost input) (num 0)) (nullish (si_bubbleCost input) (num 0))
          (nullish (si_paperInsideCost input) (num 0))
          (nullish (si_cancelOrderCost input) (num 0))
          (nullish (si_codCost input) (num 0)) (nullish (si_boxCost input) (num 0))
          (nullish (si_deliveryFeeCost input) (num 0)).

Definition updateShippingCost (now : Time) (input : ShippingCostInput)
    : M ShippingCostResult :=
  if negb (costs_are_numbers input) then throw BadRequest
  else
    oid ← new_ObjectId (si_id input);
    foundOrder ← gets (λ db, orders db !! oid);
    match foundOrder with
    | None => throw OrderNotFound
    | Some order =>
        orgId ← new_ObjectId (si_organizationId input);
        foundOrg ← gets (λ db, organizations db !! orgId);
        match foundOrg with
        | None => throw OrganizationNotFound
        | Some org =>
            let quantity := int_or (quantity order) 1 in
            let costs := input_costs input in
            let totalShippingCost := sum_costs costs in
            let currentCredits := num_or (credits org) (num 0) in
            if num_ltb currentCredits totalShippingCost
            then throw (InsufficientCredits totalShippingCost currentCredits)
            else
              let newBalance := (currentCredits - totalShippingCost)%num in
              orgId' ← new_ObjectId (si_organizationId input);
              modify (set_organizations (alter (set_credits newBalance now) orgId'));;
              modify (add_credit_transaction
                {| tx_organizationId := Some (si_organizationId input);
                   tx_organizationName := Some (org_name org);
                   tx_userId := None;
                   tx_userName := None;
                   tx_userEmail := None;
                   tx_type := deduct;
                   amount := totalShippingCost;
                   balanceBefore := currentCredits;
                   balanceAfter := newBalance;
                   description := DescShipping (productName order) quantity;
                   tx_orderId := Some (si_id input);
                   performedBy := None;
                   performedByName := None;
                   tx_createdAt := now |});;
              oid' ← new_ObjectId (si_id input);
              modify (set_orders (alter (set_costs costs totalShippingCost now) oid'));;
              mret (mkShippingCostResult totalShippingCost newBalance)
        end
    end.

End ordersRouter.

(** ** [organizationsRouter]

    The schema of [addCredits] asks for [amount.positive()], that of
    [adjustCredits] for [newAmount.nonnegative()]; an input that fails it is
    refused before the resolver runs. *)

Module organizationsRouter.

Definition addCredits (now : Time) (organizationId : string) (amt : number)
    (desc : string) (by_ byName : option string) : M number :=
  if negb (is_positive amt) then throw BadRequest
  else
  orgId ← new_ObjectId organizationId;
  found ← gets (λ db, organizations db !! orgId);
  match found with
  | None => throw OrganizationNotFound
  | Some org =>
      let balanceBefore := num_or (credits org) (num 0) in
      let balanceAfter := (balanceBefore + amt)%num in
      orgId' ← new_ObjectId organizationId;
      modify (set_organizations (alter (set_credits balanceAfter now) orgId'));;
      modify (add_credit_transaction
        {| tx_organizationId := Some organizationId;
           tx_organizationName := Some (org_name org);
           tx_userId := None;
           tx_userName := None;
           tx_userEmail := None;
           tx_type := add;
           amount := amt;
           balanceBefore := balanceBefore;
           balanceAfter := balanceAfter;
           description := DescText desc;
           tx_orderId := None;
           performedBy := by_;
           performedByName := byName;
           tx_createdAt := now |});;
      mret balanceAfter
  end.

Definition adjustCredits (now : Time) (organizationId : string) (newAmount : number)
    (desc : string) (by_ byName : option string) : M number :=
  if negb (is_nonnegative newAmount) then throw BadRequest
  else
  orgId ← new_ObjectId organizationId;
  found ← gets (λ db, organizations db !! orgId);
  match found with
  | None => throw OrganizationNotFound
  | Some org =>
      let balanceBefore := num_or (credits org) (num 0) in
      let balanceAfter := newAmount in
      let amt := (balanceAfter - balanceBefore)%num in
      orgId' ← new_ObjectId organizationId;
      modify (set_organizations (alter (set_credits balanceAfter now) orgId'));;
      modify (add_credit_transaction
        {| tx_organizationId := Some organizationId;
           tx_organizationName := Some (org_name org);
           tx_userId := None;
           tx_userName := None;
           tx_userEmail := None;
           tx_type := adjust;
           amount := amt;
           balanceBefore := balanceBefore;
           balanceAfter := balanceAfter;
           description := DescText desc;
           tx_orderId := None;
           performedBy := by_;
           performedByName := byName;
           tx_createdAt := now |});;
      mret balanceAfter
  end.

End organizationsRouter.

(** ** [usersRouter]: the older deduction from a per-user balance *)

Module usersRouter.

(** [$set: { credits: c, updatedAt: now }] on a user. *)
Definition set_user_credits (c : number) (now : Time) (u : User) : User :=
  mkUser (user_name u) (user_email u) (Some c) now.

Definition deductCredits (now : Time) (userId : string) (amt : number)
    (desc : string) (orderId by_ : option string) : M number :=
  if negb (is_positive amt) then throw BadRequest
  else
  uid ← new_ObjectId userId;
  found ← gets (λ db, users db !! uid);
  match found with
  | None => throw UserNotFound
  | Some user =>
      let balanceBefore := onum_or (user_credits user) (num 0) in
      if num_ltb balanceBefore amt then throw InsufficientUserCredits
      else
        let balanceAfter := (balanceBefore - amt)%num in
        uid' ← new_ObjectId userId;
        modify (set_users (alter (set_user_credits balanceAfter now) uid'));;
        modify (add_credit_transaction
          {| tx_organizationId := None;
             tx_organizationName := None;
             tx_userId := Some userId;
             tx_userName := Some (user_name user);
             tx_userEmail := Some (user_email user);
             tx_type := deduct;
             amount := amt;
             balanceBefore := balanceBefore;
             balanceAfter := balanceAfter;
             description := DescText desc;
             tx_orderId := orderId;
             performedBy := by_;
             performedByName := None;
             tx_createdAt := now |});;
        mret balanceAfter
  end.

End usersRouter.
(** ** The shipping page: cost calculator and confirmation *)

Module ShippingPage.

Record Rates := mkRates {
  pickPack : number;
  bubble : number;
  paperInside : number;
  cancelOrder : number;
  codPercent : number;
  box : number;
  deliveryFee : number
}.

(** The initial value of the [rates] state. *)
Definition default_rates : Rates :=
  mkRates (num 20) (num 5) (num 3) (num 10) (num 3) (num 0) (num 0).

Definition calculateOrderCosts (rates : Rates) (order : Order) : Costs :=
  let quantity := num (quantity order) in
  let orderTotal := (price order * quantity)%num in
  let isCancelled := bool_decide (status order = cancelled) in
  {| c_pickPackCost := (pickPack rates * quantity)%num;
     c_bubbleCost := (bubble rates * quantity)%num;
     c_paperInsideCost := (paperInside rates * quantity)%num;
     c_cancelOrderCost :=
       if isCancelled then (cancelOrder rates * quantity)%num else num 0;
     c_codCost := (orderTotal * (codPercent rates / num 100))%num;
     c_boxCost := box rates;
     c_deliveryFeeCost := deliveryFee rates |}.

Definition getTotalCost (rates : Rates) (order : Order) : number :=
  let costs := calculateOrderCosts rates order in
  (c_pickPackCost costs + c_bubbleCost costs + c_paperInsideCost costs
   + c_cancelOrderCost costs + c_codCost costs + c_boxCost costs
   + c_deliveryFeeCost costs)%num.

(** What [confirmShippingCost] sends for the order being confirmed. *)
Definition confirm_input (rates : Rates) (id orgId : string) (order : Order)
    : ordersRouter.ShippingCostInput :=
  let costs := calculateOrderCosts rates order in
  ordersRouter.mkShippingCostInput id orgId
    (Some (c_pickPackCost costs)) (Some (c_bubbleCost costs))
    (Some (c_paperInsideCost costs)) (Some (c_cancelOrderCost costs))
    (Some (c_codCost costs)) (Some (c_boxCost costs))
    (Some (c_deliveryFeeCost costs)).

(** The mutation [updateShippingCost] of the page with its [onSuccess]
    handler: when the resolver succeeds and [confirmingOrderId] is set, the
    page calls [updateStatus] with [sent_to_logistic]; when it fails,
    [onError] only shows the message. *)
Definition confirm_then_ship (now : Time) (confirmingOrderId : option string)
    (input : ordersRouter.ShippingCostInput) : M unit :=
  ordersRouter.updateShippingCost now input;;
  match otruthy confirmingOrderId with
  | Some id => ordersRouter.updateStatus now id sent_to_logistic
  | None => mret tt
  end.

End ShippingPage.

(** ** What a successful shipping-cost deduction writes *)

(** The ledger record of a deduction of [input] for [order], charged to
    [org]; the credits the resolver reads are [org.credits || 0]. *)
Definition deduction_record (now : Time) (input : ordersRouter.ShippingCostInput)
    (order : Order) (org : Organization) : CreditTransaction :=
  let total := sum_costs (ordersRouter.input_costs input) in
  {| tx_organizationId := Some (ordersRouter.si_organizationId input);
     tx_organizationName := Some (org_name org);
     tx_userId := None;
     tx_userName := None;
     tx_userEmail := None;
     tx_type := deduct;
     amount := total;
     balanceBefore := num_or (credits org) (num 0);
     balanceAfter := (num_or (credits org) (num 0) - total)%num;
     description := DescShipping (productName order) (int_or (quantity order) 1);
     tx_orderId := Some (ordersRouter.si_id input);
     performedBy := None;
     performedByName := None;
     tx_createdAt := now |}.

(** The database a deduction leaves behind. *)
Definition after_deduction (now : Time) (input : ordersRouter.ShippingCostInput)
    (oid orgId : ObjectId) (order : Order) (org : Organization) (db : Db) : Db :=
  let total := sum_costs (ordersRouter.input_costs input) in
  mkDb (alter (set_costs (ordersRouter.input_costs input) total now) oid (orders db))
       (products db)
       (alter (set_credits (num_or (credits org) (num 0) - total)%num now) orgId
          (organizations db))
       (users db)
       (credit_transactions db ++ [deduction_record now input order org])
       (user_logs db) (product_logs db).

(** ** Sample data *)

Module Samples.

Definition order_id : string := "507f1f77bcf86cd799439014".
Definition org_id : string := "507f1f77bcf86cd799439013".
Definition product_id : string := "507f1f77bcf86cd799439011".
Definition user_id : string := "507f1f77bcf86cd799439012".
Definition client_order_id : string := "507f1f77bcf86cd799439015".

Definition vitamin (stock : Z) (active : bool) : Product :=
  mkProduct org_id "VITC" "Vitamin C" (num 350) stock active 0.

Definition acme (balance : number) : Organization :=
  mkOrganization "Acme Supplements" balance 0.

(** An order as [create] receives it from the order form. *)
Definition admin_order (qty : Z) (st : OrderStatus) : Order :=
  mkOrder org_id (Some product_id) (Some "VITC") "Vitamin C" (num 350) qty
          line "Somchai" "0812345678" "Bangkok" st user_id admin None
          (Some (num 0)) (Some (num 0)) (Some (num 0)) (Some (num 0)) (Some (num 0))
          (Some (num 0)) (Some (num 0)) (Some (num 0)) 0 0.

(** What the public order endpoint accepts, here with a product. *)
Definition client_input (qty : Z) : ordersRouter.ClientOrderInput :=
  ordersRouter.mkClientOrderInput org_id (Some product_id) (Some "VITC")
    "Vitamin C" (num 350) qty line "Somchai" "0812345678" "Bangkok" None.

Definition shop (stock : Z) (balance : number) (active : bool) : Db :=
  mkDb ∅ {[ product_id := vitamin stock active ]} {[ org_id := acme balance ]}
       {[ user_id := mkUser "Nok" "nok@acme.test" None 0 ]} [] [] [].

Definition shop_with (o : Order) (stock : Z) (balance : number) : Db :=
  set_orders (insert order_id o) (shop stock balance true).

(** The costs of the quoted scenario: 40 + 10 + 6 + 0 + 21 + 0 + 0 = 77. *)
Definition scenario_input : ordersRouter.ShippingCostInput :=
  ShippingPage.confirm_input ShippingPage.default_rates order_id org_id
    (admin_order 2 pending).

End Samples.
(** ** The queries of [ordersRouter] *)

Module orderQueries.

(** What [list] returns for one order. *)
Record ListedOrder := mkListedOrder {
  lo_id : ObjectId;
  lo_order : Order;
  creatorName : string;
  organizationName : string
}.

(** [filter.createdBy = ctx.userId] and [filter.organizationId =
    input.organizationId], each applied only when its value is truthy. *)
Definition matches (userId organization : option string) (o : Order) : bool :=
  match otruthy userId with
  | Some u => bool_decide (createdBy o = u)
  | None => true
  end
  && match otruthy organization with
     | Some g => bool_decide (organizationId o = g)
     | None => true
     end.

(** [createdAt: -1]: the later document comes first. *)
Definition newer_first (a b : ObjectId * Order) : Prop :=
  (createdAt b.2 ≤ createdAt a.2)%Z.

#[global] Instance newer_first_dec : RelDecision newer_first.
Proof. intros a b. unfold newer_first. apply _. Defined.

(** [find(filter).sort({ createdAt: -1 }).toArray()]. The driver leaves the
    order of documents with equal [createdAt] open; here they keep the order
    in which the map enumerates them. *)
Definition find_sorted (userId organization : option string) : M (list (ObjectId * Order)) :=
  gets (λ db, merge_sort newer_first
                (filter (λ io, matches userId organization io.2 = true)
                        (map_to_list (orders db)))).

(** The lookups of one [orders.map] callback. *)
Definition enrich (io : ObjectId * Order) : M ListedOrder :=
  creator ← find_creator (createdBy io.2);
  org ← (if truthy (organizationId io.2)
         then orgId ← new_ObjectId (organizationId io.2);
              gets (λ db, organizations db !! orgId)
         else mret None);
  mret (mkListedOrder io.1 io.2
          (ostr_or (user_name ∘ snd <$> creator) "Unknown")
          (ostr_or (org_name <$> org) "Unknown")).

(** [Promise.all(xs.map(f))] for callbacks that only read: the result is the
    list of their results, or the rejection of a callback that throws. *)
Fixpoint all {A B} (f : A → M B) (xs : list A) : M (list B) :=
  match xs with
  | [] => mret []
  | x :: rest => y ← f x; ys ← all f rest; mret (y :: ys)
  end.

(** The counts of [getStats]. Its [totalRevenue] is a sum of doubles over
    the documents in the order in which [find] returns them, which the query
    does not fix; it is not kept. *)
Record Stats := mkStats {
  total : nat;
  n_pending : nat;
  n_processing : nat;
  n_sent_to_logistic : nat;
  n_delivered : nat;
  n_cancelled : nat
}.

Definition count_status (s : OrderStatus) (os : list Order) : nat :=
  length (filter (λ o, status o = s) os).

Definition getStats (userId : option string) : M Stats :=
  found ← gets (λ db, snd <$> filter (λ io, matches userId None io.2 = true)
                                     (map_to_list (orders db)));
  mret {| total := length found;
          n_pending := count_status pending found;
          n_processing := count_status processing found;
          n_sent_to_logistic := count_status sent_to_logistic found;
          n_delivered := count_status delivered found;
          n_cancelled := count_status cancelled found |}.

Definition list (userId organization : option string)
    : M (Datatypes.list ListedOrder) :=
  found ← find_sorted userId organization;
  all enrich found.

End orderQueries.

(** ** The queries of [organizationsRouter] *)

Module organizationQueries.

Definition getById (id : string) : M (ObjectId * Organization) :=
  orgId ← new_ObjectId id;
  found ← gets (λ db, organizations db !! orgId);
  match found with
  | None => throw OrganizationNotFound
  | Some org => mret (orgId, org)
  end.

Definition newest_first (a b : CreditTransaction) : Prop :=
  (tx_createdAt b ≤ tx_createdAt a)%Z.

#[global] Instance newest_first_dec : RelDecision newest_first.
Proof. intros a b. unfold newest_first. apply _. Defined.

(** [find({ organizationId }).sort({ createdAt: -1 })]: the records are
    matched on the string the ledger stores. *)
Definition getTransactions (organizationId : string) : M (list CreditTransaction) :=
  gets (λ db, merge_sort newest_first
                (filter (λ t, tx_organizationId t = Some organizationId)
                        (credit_transactions db))).

(** [find({}).sort({ createdAt: -1 }).limit(100)] *)
Definition getAllTransactions : M (list CreditTransaction) :=
  gets (λ db, take 100 (merge_sort newest_first (credit_transactions db))).

End organizationQueries.
(** ** [productsRouter]

    Its resolvers are protected procedures and throw two messages the order
    and credit resolvers do not have. A product document is kept with the
    fields the routers read back; [description], [lowStockThreshold],
    [createdBy] and [createdAt] are written through and not kept. *)

Module productsRouter.

Inductive Failure :=
  | Unauthorized
  | ProductCodeExists
  | Raised (e : Error).

Inductive Result (A : Type) :=
  | Done (a : A)
  | Failed (e : Failure).
Arguments Done {A} a.
Arguments Failed {A} e.

Definition R (A : Type) : Type := Db → Result A * Db.

#[global] Instance R_ret : MRet R := λ A a db, (Done a, db).

#[global] Instance R_bind : MBind R := λ A B f m db,
  match m db with
  | (Done a, db') => f a db'
  | (Failed e, db') => (Failed e, db')
  end.

Definition fail {A} (e : Failure) : R A := λ db, (Failed e, db).

(** A computation of the earlier resolvers inside one of these. *)
Definition lift {A} (m : M A) : R A := λ db,
  match m db with
  | (Returned a, db') => (Done a, db')
  | (Thrown e, db') => (Failed (Raised e), db')
  end.

(** The fields of [ctx.user] the resolvers read. *)
Record ContextUser := mkContextUser {
  cu_name : string;
  cu_organizationId : string
}.

Record Context := mkContext {
  ctx_userId : option string;
  ctx_user : option ContextUser
}.

(** The middleware of [protectedProcedure]:
    [if (!ctx.userId || !ctx.user) throw]. *)
Definition protectedProcedure {A} (ctx : Context) (k : string → ContextUser → R A) : R A :=
  match otruthy (ctx_userId ctx), ctx_user ctx with
  | Some userId, Some user => k userId user
  | _, _ => fail Unauthorized
  end.

(** [findOne({ productCode, organizationId })], with [_id: { $ne }] when
    [except] is given. *)
Definition code_in_use (code org : string) (except : option ObjectId)
    (m : gmap ObjectId Product) : bool :=
  bool_decide (map_Exists (λ k p, p_productCode p = code ∧ p_organizationId p = org
                                  ∧ except ≠ Some k) m).

Definition getById (ctx : Context) (id : string) : R (ObjectId * Product) :=
  protectedProcedure ctx (λ userId user,
    pid ← lift (new_ObjectId id);
    found ← lift (ordersRouter.find_product_of pid (cu_organizationId user));
    match found with
    | None => fail (Raised ProductNotFound)
    | Some product => mret (pid, product)
    end).

Record NewProduct := mkNewProduct {
  np_productCode : string;
  np_productName : string;
  np_price : number;
  np_stockQuantity : Z
}.

Record ProductUpdate := mkProductUpdate {
  pu_id : string;
  pu_productCode : option string;
  pu_productName : option string;
  pu_price : option number;
  pu_stockQuantity : option Z;
  pu_isActive : option bool
}.

(** [$set: { ...updateData, updatedAt: new Date() }]: a field that is not in
    the input keeps its value. *)
Definition apply_update (u : ProductUpdate) (now : Time) (p : Product) : Product :=
  mkProduct (p_organizationId p)
            (default (p_productCode p) (pu_productCode u))
            (default (p_productName p) (pu_productName u))
            (default (p_price p) (pu_price u))
            (default (stockQuantity p) (pu_stockQuantity u))
            (default (isActive p) (pu_isActive u))
            now.

(** The document [create] inserts. *)
Definition created_product (now : Time) (user : ContextUser) (input : NewProduct)
    : Product :=
  mkProduct (cu_organizationId user) (np_productCode input) (np_productName input)
    (np_price input) (np_stockQuantity input) true now.

Section Rendering.

(** How a template literal renders a stock. *)
Variable render : Z → string.

(** The first phase of [create]: the lookup of the product code and the
    error when a product of the organization has it. *)
Definition check_code (user : ContextUser) (input : NewProduct) : R unit :=
  existing ← lift (gets (λ db, code_in_use (np_productCode input)
                                 (cu_organizationId user) None (products db)));
  if existing : bool then fail ProductCodeExists else mret tt.

(** The second phase, after a further [await]: [insertOne] and the two log
    entries. *)
Definition store_product (now : Time) (newId : ObjectId) (userId : string)
    (user : ContextUser) (input : NewProduct) : R ObjectId :=
  lift (modify (set_products (insert newId (created_product now user input))));;
  lift (logActivity now userId (Some (cu_name user)) "create product"
          (Some newId) (cu_organizationId user));;
  lift (logProductActivity now newId (np_productCode input) (np_productName input)
          act_create (Some 0%Z) (Some (np_stockQuantity input))
          (Some (np_stockQuantity input)) userId (Some (cu_name user))
          (cu_organizationId user) None
          (Some ("Created with initial stock: "
                 +:+ render (np_stockQuantity input))));;
  mret newId.

Definition create (ctx : Context) (now : Time) (newId : ObjectId) (input : NewProduct)
    : R ObjectId :=
  protectedProcedure ctx (λ userId user,
    check_code user input;;
    store_product now newId userId user input).

(** The first phase of [update]: the lookup of the product within the
    organization of the caller and, when the input has a product code, the
    lookup of that code among the other products of the organization. *)
Definition update_checks (user : ContextUser) (input : ProductUpdate) : R Product :=
  pid ← lift (new_ObjectId (pu_id input));
  current ← lift (ordersRouter.find_product_of pid (cu_organizationId user));
  match current with
  | None => fail (Raised ProductNotFound)
  | Some currentProduct =>
      match otruthy (pu_productCode input) with
      | Some code =>
          pid' ← lift (new_ObjectId (pu_id input));
          existing ← lift (gets (λ db, code_in_use code (cu_organizationId user)
                                         (Some pid') (products db)));
          if existing : bool then fail ProductCodeExists else mret tt
      | None => mret tt
      end;;
      mret currentProduct
  end.

(** [updateOne({ _id, organizationId }, { $set })]: the document is written
    when it is of the organization at the time of the write. *)
Definition update_owned (org : string) (u : ProductUpdate) (now : Time) (p : Product)
    : Product :=
  if decide (p_organizationId p = org) then apply_update u now p else p.

(** The second phase, after a further [await]: [updateOne] and the two log
    entries, which describe the product the first phase read. *)
Definition update_writes (now : Time) (userId : string) (user : ContextUser)
    (input : ProductUpdate) (currentProduct : Product) : R unit :=
  pid' ← lift (new_ObjectId (pu_id input));
  lift (modify (set_products
                  (alter (update_owned (cu_organizationId user) input now) pid')));;
  lift (logActivity now userId (Some (cu_name user)) "update product"
          (Some (pu_id input)) (cu_organizationId user));;
  let stockChanged :=
    match pu_stockQuantity input with
    | Some q => negb (q =? stockQuantity currentProduct)%Z
    | None => false
    end in
  lift (logProductActivity now (pu_id input)
          (ostr_or (pu_productCode input) (p_productCode currentProduct))
          (ostr_or (pu_productName input) (p_productName currentProduct))
          act_update (Some (stockQuantity currentProduct))
          (Some (default (stockQuantity currentProduct) (pu_stockQuantity input)))
          (if stockChanged
           then Some (default (stockQuantity currentProduct)
                        (pu_stockQuantity input)
                      - stockQuantity currentProduct)%Z
           else None)
          userId (Some (cu_name user)) (cu_organizationId user) None
          (Some (if stockChanged
                 then "Stock manually adjusted from "
                      +:+ render (stockQuantity currentProduct) +:+ " to "
                      +:+ render (default (stockQuantity currentProduct)
                                    (pu_stockQuantity input))
                 else "Product details updated"))).

Definition update (ctx : Context) (now : Time) (input : ProductUpdate) : R unit :=
  protectedProcedure ctx (λ userId user,
    currentProduct ← update_checks user input;
    update_writes now userId user input currentProduct).

End Rendering.

(** [updateOne({ _id, organizationId }, ...)] and [deleteOne] with the same
    filter touch the document only when it belongs to the organization;
    [matchedCount] and [deletedCount] tell whether it did. Filter and write
    are one operation of the database. *)
Definition owned (pid : ObjectId) (org : string) (db : Db) : bool :=
  match products db !! pid with
  | Some p => bool_decide (p_organizationId p = org)
  | None => false
  end.

Definition addStock (ctx : Context) (now : Time) (id : string) (qty : Z) : R unit :=
  protectedProcedure ctx (λ userId user,
    pid ← lift (new_ObjectId id);
    lift (gets (owned pid (cu_organizationId user))) ≫= λ matched : bool,
    (if matched
     then lift (modify (set_products (alter (inc_stock qty now) pid)))
     else mret tt);;
    if matched then
      lift (logActivity now userId (Some (cu_name user)) "add stock" (Some id)
              (cu_organizationId user))
    else fail (Raised ProductNotFound)).

Definition delete (ctx : Context) (now : Time) (id : string) : R unit :=
  protectedProcedure ctx (λ userId user,
    pid ← lift (new_ObjectId id);
    lift (gets (owned pid (cu_organizationId user))) ≫= λ matched : bool,
    (if matched
     then lift (modify (set_products (base.delete pid)))
     else mret tt);;
    if matched then
      lift (logActivity now userId (Some (cu_name user)) "delete product" (Some id)
              (cu_organizationId user))
    else fail (Raised ProductNotFound)).

(** No two products of one organization share a product code. *)
Definition codes_unique (m : gmap ObjectId Product) : Prop :=
  ∀ i j p q, m !! i = Some p → m !! j = Some q →
    p_organizationId p = p_organizationId q → p_productCode p = p_productCode q →
    i = j.

End productsRouter.

(** ** The confirmation step of the shipping page *)

Module ShippingFlow.

(** The state [confirmShippingCost] reads: the orders of the last [list]
    query, the organization of the signed-in user and the order picked for
    confirmation. *)
Record PageState := mkPageState {
  page_orders : list (ObjectId * Order);
  page_organization : option (string * number);
  confirmingOrderId : option string;
  rates : ShippingPage.Rates
}.

Inductive Action :=
  | Nothing
  | AlertSignIn
  | AlertInsufficient (required available : number)
  | Mutate (input : ordersRouter.ShippingCostInput).

Definition confirmShippingCost (st : PageState) : Action :=
  match otruthy (confirmingOrderId st) with
  | None => Nothing
  | Some id =>
      let order := List.find (λ io, bool_decide (io.1 = id)) (page_orders st) in
      match page_organization st with
      | None => AlertSignIn
      | Some (orgId, balance) =>
          match order with
          | None => Nothing
          | Some (_, o) =>
              let total := ShippingPage.getTotalCost (rates st) o in
              if num_ltb balance total then AlertInsufficient total balance
              else Mutate (ShippingPage.confirm_input (rates st) id orgId o)
          end
      end
  end.

(** The three tables of the page. *)
Definition pendingOrders (os : list (ObjectId * Order)) : list (ObjectId * Order) :=
  filter (λ io, status io.2 = pending ∨ status io.2 = processing) os.

Definition shippedOrders (os : list (ObjectId * Order)) : list (ObjectId * Order) :=
  filter (λ io, status io.2 = sent_to_logistic) os.

Definition deliveredOrders (os : list (ObjectId * Order)) : list (ObjectId * Order) :=
  filter (λ io, status io.2 = delivered) os.

End ShippingFlow.

(** * Properties *)

(** ** Numbers *)

(** Adding the opposite is subtracting, in every case of the standard. *)
Lemma num_add_opp (x y : number) : (x + - y)%num = (x - y)%num.
Proof.
  unfold num_add, num_sub, num_opp.
  destruct x as [sx|sx| |sx mx ex], y as [sy|sy| |sy my ey]; try reflexivity;
    destruct sx, sy; reflexivity.
Qed.

(** A finite number minus itself is [0]. *)
Lemma num_sub_diag (x : number) : is_finite x = true → (x - x)%num = num 0.
Proof.
  destruct x as [s|s| |s m e]; try discriminate; intros _.
  - destruct s; reflexivity.
  - unfold num_sub. cbn [SFsub]. rewrite Z.sub_diag. reflexivity.
Qed.

Lemma num_or_truthy (x d : number) : falsy x = false → num_or x d = x.
Proof. unfold num_or. intros ->. reflexivity. Qed.

Lemma finite_is_number (x : number) : is_finite x = true → is_number x = true.
Proof. destruct x; [reflexivity | discriminate | discriminate | reflexivity]. Qed.

(** NaN is neither above [0] nor at least [0]. *)
Lemma nan_fails_schemas (x : number) :
  is_nan x = true → is_positive x = false ∧ is_nonnegative x = false.
Proof. destruct x; try discriminate. intros _. split; reflexivity. Qed.

(** The sign of a zero does not show in a comparison. *)
Lemma num_ltb_zero (s : bool) (y : number) :
  num_ltb (S754_zero s) y = num_ltb (num 0) y.
Proof. destruct y; reflexivity. Qed.

(** Reading [x || 0] for a number [x] does not change a comparison. *)
Lemma num_or_zero_ltb (x y : number) :
  is_number x = true → num_ltb (num_or x (num 0)) y = num_ltb x y.
Proof.
  destruct x as [s|s| |s m e]; try discriminate; intros _; unfold num_or; cbn [falsy];
    [symmetry; apply num_ltb_zero | reflexivity | reflexivity].
Qed.

(** The sum of two doubles is a double again, not their exact sum: with
    [0.1 + 0.7] the seventeenth digit is lost, [2^53 + 1] is [2^53], and
    [72.21 + 78.1 + 14.37 + 30.55 + 51.59] exceeds [246.82]. *)
Example sums_are_rounded :
  (dec 1 1 + dec 7 1)%num = dec 7999999999999999 16
  ∧ (num (2 ^ 53) + num 1)%num = num (2 ^ 53)
  ∧ (dec 24682 2 < dec 7221 2 + dec 781 1 + dec 1437 2 + dec 3055 2 + dec 5159 2)%num.
Proof. repeat split; vm_compute; reflexivity. Qed.

(** ** Object identifiers *)

Lemma client_is_no_ObjectId : parse_ObjectId "client" = None.
Proof. reflexivity. Qed.

Lemma sample_ids_parse :
  parse_ObjectId Samples.order_id = Some Samples.order_id
  ∧ parse_ObjectId Samples.org_id = Some Samples.org_id
  ∧ parse_ObjectId Samples.product_id = Some Samples.product_id
  ∧ parse_ObjectId Samples.user_id = Some Samples.user_id.
Proof. repeat split; reflexivity. Qed.

(** ** The monad *)

Lemma bind_returned {A B} (m : M A) (k : A → M B) db a db' :
  m db = (Returned a, db') → (m ≫= k) db = k a db'.
Proof. intros H. unfold mbind, M_bind. rewrite H. reflexivity. Qed.

Lemma bind_thrown {A B} (m : M A) (k : A → M B) db e db' :
  m db = (Thrown e, db') → (m ≫= k) db = (Thrown e, db').
Proof. intros H. unfold mbind, M_bind. rewrite H. reflexivity. Qed.

Lemma new_ObjectId_ok s oid db :
  parse_ObjectId s = Some oid → new_ObjectId s db = (Returned oid, db).
Proof. intros H. unfold new_ObjectId. rewrite H. reflexivity. Qed.

Lemma new_ObjectId_bad s db :
  parse_ObjectId s = None → new_ObjectId s db = (Thrown BSONError, db).
Proof. intros H. unfold new_ObjectId. rewrite H. reflexivity. Qed.

Lemma keeps_ret {A B} (f : Db → A) (b : B) : keeps f (mret b).
Proof. intros db. reflexivity. Qed.

Lemma keeps_throw {A B} (f : Db → A) e : keeps f (throw e : M B).
Proof. intros db. reflexivity. Qed.

Lemma keeps_gets {A B} (f : Db → A) (g : Db → B) : keeps f (gets g).
Proof. intros db. reflexivity. Qed.

Lemma keeps_new_ObjectId {A} (f : Db → A) s : keeps f (new_ObjectId s).
Proof. intros db. unfold new_ObjectId. destruct (parse_ObjectId s); reflexivity. Qed.

Lemma keeps_modify {A} (f : Db → A) g : (∀ db, f (g db) = f db) → keeps f (modify g).
Proof. intros H db. apply H. Qed.

Lemma keeps_bind {A B C} (f : Db → A) (m : M B) (k : B → M C) :
  keeps f m → (∀ b, keeps f (k b)) → keeps f (m ≫= k).
Proof.
  intros Hm Hk db. unfold mbind, M_bind.
  specialize (Hm db). destruct (m db) as [[b|e] db1]; simpl in *.
  - rewrite Hk. exact Hm.
  - exact Hm.
Qed.

Lemma keeps_find_creator {A} (f : Db → A) s : keeps f (find_creator s).
Proof.
  unfold find_creator. destruct (truthy s).
  - apply keeps_bind; [apply keeps_new_ObjectId | intros; apply keeps_gets].
  - apply keeps_ret.
Qed.

Lemma keeps_logActivity {A} (f : Db → A) now u n a r o :
  (∀ l db, f (add_user_log l db) = f db) → keeps f (logActivity now u n a r o).
Proof. intros H. apply keeps_modify. intros. apply H. Qed.

Lemma keeps_logProductActivity {A} (f : Db → A) now a b c d e g h i j k l m :
  (∀ l db, f (add_product_log l db) = f db) →
  keeps f (logProductActivity now a b c d e g h i j k l m).
Proof. intros H. apply keeps_modify. intros. apply H. Qed.

Ltac keeps_step :=
  first
    [ apply keeps_ret | apply keeps_throw | apply keeps_gets
    | apply keeps_new_ObjectId | apply keeps_find_creator
    | apply keeps_logActivity; reflexivity
    | apply keeps_logProductActivity; reflexivity
    | apply keeps_modify; reflexivity
    | apply keeps_bind; [| intros ?] ].

Ltac keeps_all :=
  repeat first
    [ keeps_step
    | progress cbv zeta
    | match goal with
      | |- keeps _ (match ?x with _ => _ end) => destruct x
      | |- keeps _ (if ?b then _ else _) => destruct b
      end ].

(** ** [updateShippingCost] *)

Section UpdateShippingCost.

Import ordersRouter.

Variables (now : Time) (input : ShippingCostInput) (db : Db).
Variables (oid orgId : ObjectId) (order : Order) (org : Organization).

Hypothesis schema_ok : costs_are_numbers input = true.
Hypothesis id_ok : parse_ObjectId (si_id input) = Some oid.
Hypothesis order_found : orders db !! oid = Some order.
Hypothesis org_ok : parse_ObjectId (si_organizationId input) = Some orgId.
Hypothesis org_found : organizations db !! orgId = Some org.

(** The resolver compares [org.credits || 0] with the sum of the costs, both
    as doubles. *)
Lemma updateShippingCost_rejects :
  (num_or (credits org) (num 0) < sum_costs (input_costs input))%num →
  updateShippingCost now input db
  = (Thrown (InsufficientCredits (sum_costs (input_costs input))
               (num_or (credits org) (num 0))), db).
Proof using schema_ok id_ok order_found org_ok org_found.
  intros Hlt.
  unfold updateShippingCost. rewrite schema_ok. cbn [negb].
  rewrite (bind_returned _ _ _ _ _ (new_ObjectId_ok _ _ db id_ok)).
  unfold mbind at 1, M_bind at 1, gets at 1. rewrite order_found.
  rewrite (bind_returned _ _ _ _ _ (new_ObjectId_ok _ _ db org_ok)).
  unfold mbind at 1, M_bind at 1, gets at 1. rewrite org_found.
  cbv zeta. rewrite Hlt. reflexivity.
Qed.

Lemma updateShippingCost_accepts :
  num_ltb (num_or (credits org) (num 0)) (sum_costs (input_costs input)) = false →
  updateShippingCost now input db
  = (Returned (mkShippingCostResult (sum_costs (input_costs input))
                 (num_or (credits org) (num 0) - sum_costs (input_costs input))%num),
     after_deduction now input oid orgId order org db).
Proof using schema_ok id_ok order_found org_ok org_found.
  intros Hge.
  unfold updateShippingCost. rewrite schema_ok. cbn [negb].
  rewrite (bind_returned _ _ _ _ _ (new_ObjectId_ok _ _ db id_ok)).
  unfold mbind at 1, M_bind at 1, gets at 1. rewrite order_found.
  rewrite (bind_returned _ _ _ _ _ (new_ObjectId_ok _ _ db org_ok)).
  unfold mbind at 1, M_bind at 1, gets at 1. rewrite org_found.
  cbv zeta. rewrite Hge.
  unfold mbind, M_bind, new_ObjectId. rewrite id_ok, org_ok.
  reflexivity.
Qed.

End UpdateShippingCost.

Lemma finite_costs_are_numbers input :
  ordersRouter.costs_are_finite input = true → ordersRouter.costs_are_numbers input = true.
Proof.
  unfold ordersRouter.costs_are_finite, ordersRouter.costs_are_numbers.
  rewrite !forallb_forall. intros H c Hc. specialize (H c Hc).
  destruct c as [x|]; [apply finite_is_number, H | reflexivity].
Qed.

(** ** [updateStatus] *)

Lemma updateStatus_keeps_ledger now id s :
  keeps credit_transactions (ordersRouter.updateStatus now id s).
Proof. unfold ordersRouter.updateStatus. keeps_all. Qed.

Lemma parse_ObjectId_truthy s oid : parse_ObjectId s = Some oid → truthy s = true.
Proof. destruct s; [discriminate | reflexivity]. Qed.

Section UpdateStatus.

Import ordersRouter.

Variables (now : Time) (id : string) (db : Db) (oid : ObjectId) (order : Order).

Hypothesis id_ok : parse_ObjectId id = Some oid.
Hypothesis order_found : orders db !! oid = Some order.

(** Outside a first cancellation the resolver writes [status] and
    [updatedAt] of the order and goes on to the closing user lookup and
    activity log, which can only append to [user_logs] or throw. *)
Lemma updateStatus_plain_run s :
  s ≠ cancelled ∨ status order = cancelled →
  ∃ rest : M unit,
    (∀ A (f : Db → A), (∀ l x, f (add_user_log l x) = f x) → keeps f rest)
    ∧ updateStatus now id s db = rest (set_orders (alter (set_status s now) oid) db).
Proof using id_ok order_found.
  intros Hs. eexists. split; cycle 1.
  - unfold updateStatus.
    rewrite (bind_returned _ _ _ _ _ (new_ObjectId_ok _ _ db id_ok)).
    unfold mbind at 1, M_bind at 1, gets at 1. rewrite order_found.
    assert (bool_decide (s = cancelled) && negb (bool_decide (status order = cancelled))
            = false) as ->.
    { destruct Hs as [Hs|Hs].
      - rewrite (bool_decide_eq_false_2 _ Hs). reflexivity.
      - rewrite (bool_decide_eq_true_2 _ Hs). apply andb_false_r. }
    unfold mbind at 1, M_bind at 1, mret at 1, M_ret at 1.
    rewrite (bind_returned _ _ _ _ _ (new_ObjectId_ok _ _ db id_ok)).
    unfold mbind at 1, M_bind at 1, modify at 1.
    reflexivity.
  - intros A f Hf. apply keeps_bind; [apply keeps_find_creator|].
    intros [[u n]|]; [apply keeps_logActivity; exact Hf | apply keeps_ret].
Qed.

Lemma updateStatus_plain s :
  s ≠ cancelled ∨ status order = cancelled →
  orders (updateStatus now id s db).2 = alter (set_status s now) oid (orders db)
  ∧ products (updateStatus now id s db).2 = products db
  ∧ organizations (updateStatus now id s db).2 = organizations db.
Proof using id_ok order_found.
  intros Hs. destruct (updateStatus_plain_run s Hs) as (rest & K & ->).
  rewrite !K by reflexivity. repeat split; reflexivity.
Qed.

End UpdateStatus.

Lemma bind_returned_inv {A B} (m : M A) (k : A → M B) db b db1 :
  (m ≫= k) db = (Returned b, db1) →
  ∃ a db', m db = (Returned a, db') ∧ k a db' = (Returned b, db1).
Proof.
  unfold mbind, M_bind. destruct (m db) as [[a|e] db']; [eauto | discriminate].
Qed.

(** A call that returns has found the order and has written its status. *)
Lemma updateStatus_returned now id s db db1 :
  ordersRouter.updateStatus now id s db = (Returned tt, db1) →
  ∃ oid order,
    parse_ObjectId id = Some oid ∧ orders db !! oid = Some order
    ∧ orders db1 !! oid = Some (set_status s now order).
Proof.
  unfold ordersRouter.updateStatus. intros H.
  apply bind_returned_inv in H as (oid0 & d0 & Hid & H).
  unfold new_ObjectId in Hid.
  destruct (parse_ObjectId id) as [oid|] eqn:Hp; [|discriminate].
  injection Hid as <- <-.
  apply bind_returned_inv in H as (found & d1 & Hf & H).
  injection Hf as <- <-.
  destruct (orders db !! oid) as [order|] eqn:Ho; [|discriminate].
  exists oid, order. split; [reflexivity|]. split; [exact Ho|].
  apply bind_returned_inv in H as ([] & d & Hb & H).
  assert (orders d = orders db) as Hd.
  { match type of Hb with ?blk _ = _ => assert (keeps orders blk) as K by keeps_all end.
    specialize (K db). rewrite Hb in K. exact K. }
  rewrite (bind_returned _ _ _ _ _ (new_ObjectId_ok _ _ d Hp)) in H.
  apply bind_returned_inv in H as ([] & d' & Hm & H).
  injection Hm as <-.
  match type of H with ?rest _ = _ => assert (keeps orders rest) as K end.
  { apply keeps_bind; [apply keeps_find_creator|].
    intros [[u n]|]; [apply keeps_logActivity; reflexivity | apply keeps_ret]. }
  specialize (K (set_orders (alter (set_status s now) oid) d)).
  rewrite H in K. simpl in K. rewrite K, Hd, lookup_alter_eq, Ho. reflexivity.
Qed.

(** ** Concrete evaluation *)

Ltac evaluate := vm_compute; reflexivity.

(** ** Stock reservation at order creation *)

Lemma bind_assoc {A B C} (m : M A) (k1 : A → M B) (k2 : B → M C) db :
  ((m ≫= k1) ≫= k2) db = (m ≫= (λ a, k1 a ≫= k2)) db.
Proof.
  unfold mbind, M_bind. destruct (m db) as [[a|e] d]; reflexivity.
Qed.

Section ReserveStock.

Import ordersRouter.

Variables (now : Time) (inactive : Error) (db : Db).
Variables (pidStr org : string) (pid : ObjectId) (p : Product) (qty : Z).

Hypothesis pid_ok : parse_ObjectId pidStr = Some pid.
Hypothesis product_found : products db !! pid = Some p.
Hypothesis same_org : p_organizationId p = org.

Lemma check_stock_find :
  check_stock inactive pidStr org qty db
  = (if negb (isActive p) then throw inactive
     else if (stockQuantity p <? qty)%Z
     then throw (InsufficientStock (stockQuantity p) qty)
     else mret p) db.
Proof using pid_ok product_found same_org.
  unfold check_stock.
  rewrite (bind_returned _ _ _ _ _ (new_ObjectId_ok _ _ db pid_ok)).
  unfold mbind at 1, M_bind at 1, find_product_of, gets at 1.
  rewrite product_found, decide_True by exact same_org.
  reflexivity.
Qed.

Lemma take_stock_run d :
  take_stock now pidStr qty d
  = (Returned tt, set_products (alter (inc_stock (- qty) now) pid) d).
Proof using pid_ok.
  unfold take_stock.
  rewrite (bind_returned _ _ _ _ _ (new_ObjectId_ok _ _ d pid_ok)). reflexivity.
Qed.

Lemma reserve_stock_find :
  reserve_stock now inactive pidStr org qty db
  = (if negb (isActive p) then throw inactive
     else if (stockQuantity p <? qty)%Z
     then throw (InsufficientStock (stockQuantity p) qty)
     else modify (set_products (alter (inc_stock (- qty) now) pid));; mret p) db.
Proof using pid_ok product_found same_org.
  unfold reserve_stock. unfold mbind at 1, M_bind at 1. rewrite check_stock_find.
  destruct (negb (isActive p)); [reflexivity|].
  destruct (stockQuantity p <? qty)%Z; [reflexivity|].
  unfold mret at 1, M_ret at 1.
  unfold mbind at 1, M_bind at 1. rewrite take_stock_run. reflexivity.
Qed.

Lemma reserve_stock_inactive :
  isActive p = false →
  reserve_stock now inactive pidStr org qty db = (Thrown inactive, db).
Proof using pid_ok product_found same_org.
  intros Ha. rewrite reserve_stock_find, Ha. reflexivity.
Qed.

Lemma reserve_stock_short :
  isActive p = true → (stockQuantity p < qty)%Z →
  reserve_stock now inactive pidStr org qty db
  = (Thrown (InsufficientStock (stockQuantity p) qty), db).
Proof using pid_ok product_found same_org.
  intros Ha Hlt. apply Z.ltb_lt in Hlt.
  rewrite reserve_stock_find, Ha, Hlt. reflexivity.
Qed.

Lemma reserve_stock_enough :
  isActive p = true → (qty ≤ stockQuantity p)%Z →
  reserve_stock now inactive pidStr org qty db
  = (Returned p, set_products (alter (inc_stock (- qty) now) pid) db).
Proof using pid_ok product_found same_org.
  intros Ha Hge. apply Z.ltb_ge in Hge.
  rewrite reserve_stock_find, Ha, Hge. reflexivity.
Qed.

End ReserveStock.

Lemma otruthy_ObjectId s oid :
  parse_ObjectId s = Some oid → otruthy (Some s) = Some s.
Proof. intros H. simpl. rewrite (parse_ObjectId_truthy _ _ H). reflexivity. Qed.

Section Creation.

Import ordersRouter.

Variables (now : Time) (newId : ObjectId) (db : Db).
Variables (input : Order) (cinput : ClientOrderInput).
Variables (pidStr : string) (pid : ObjectId) (p : Product).

Hypothesis pid_ok : parse_ObjectId pidStr = Some pid.
Hypothesis product_found : products db !! pid = Some p.

Lemma create_reserve (r : Outcome Product * Db) :
  productId input = Some pidStr →
  reserve_stock now ProductNotActive pidStr (organizationId input) (quantity input) db = r →
  match r with
  | (Thrown e, d) => create now newId input db = (Thrown e, d)
  | (Returned _, d) => products (create now newId input db).2 = products d
  end.
Proof using pid_ok.
  intros Hp Hr. unfold create. rewrite Hp, (otruthy_ObjectId _ _ pid_ok).
  rewrite !bind_assoc. destruct r as [[q|e] d].
  - rewrite (bind_returned _ _ _ _ _ Hr).
    match goal with |- products (?k _).2 = _ => assert (keeps products k) as K end.
    { keeps_all. }
    apply K.
  - rewrite (bind_thrown _ _ _ _ _ Hr). reflexivity.
Qed.

Lemma submitClientOrder_reserve (r : Outcome Product * Db) :
  ci_productId cinput = Some pidStr →
  reserve_stock now ProductNotAvailable pidStr (ci_organizationId cinput)
    (ci_quantity cinput) db = r →
  match r with
  | (Thrown e, d) => submitClientOrder now newId cinput db = (Thrown e, d)
  | (Returned _, d) => products (submitClientOrder now newId cinput db).2 = products d
  end.
Proof using pid_ok.
  intros Hp Hr. unfold submitClientOrder. rewrite Hp, (otruthy_ObjectId _ _ pid_ok).
  rewrite !bind_assoc. destruct r as [[q|e] d].
  - rewrite (bind_returned _ _ _ _ _ Hr).
    match goal with |- products (?k _).2 = _ => assert (keeps products k) as K end.
    { keeps_all. }
    apply K.
  - rewrite (bind_thrown _ _ _ _ _ Hr). reflexivity.
Qed.

End Creation.

(** Every throw of the resolver precedes its first write. *)
Lemma updateShippingCost_thrown_unchanged now input db e db' :
  ordersRouter.updateShippingCost now input db = (Thrown e, db') → db' = db.
Proof.
  unfold ordersRouter.updateShippingCost, mbind, M_bind, new_ObjectId, gets, throw,
    modify, mret, M_ret.
  destruct (negb _); [congruence|].
  destruct (parse_ObjectId (ordersRouter.si_id input)) as [oid|]; [|congruence].
  destruct (orders db !! oid) as [order|]; [|congruence].
  destruct (parse_ObjectId (ordersRouter.si_organizationId input)) as [orgId|];
    [|congruence].
  destruct (organizations db !! orgId) as [org|]; [|congruence].
  destruct (num_ltb _ _); congruence.
Qed.

(** * The claims *)

(** ** Shipping-cost deduction *)

(** C1. A call to [updateShippingCost] whose seven caller-supplied costs sum
    to more than the credits of the organization throws the
    insufficient-credits error, which carries the required and the available
    amount, and leaves the whole database as it was: credits, order document
    and ledger are unchanged. The costs are finite; sum and comparison are
    those of the resolver, on doubles; the credits it reads are
    [org.credits || 0]. The order and the organization of the call are the
    documents the two lookups find. *)
Theorem updateShippingCost_insufficient_credits
    (now : Time) (input : ordersRouter.ShippingCostInput) (db : Db)
    (oid orgId : ObjectId) (order : Order) (org : Organization) :
  ordersRouter.costs_are_finite input = true →
  parse_ObjectId (ordersRouter.si_id input) = Some oid →
  orders db !! oid = Some order →
  parse_ObjectId (ordersRouter.si_organizationId input) = Some orgId →
  organizations db !! orgId = Some org →
  (num_or (credits org) (num 0) < sum_costs (ordersRouter.input_costs input))%num →
  ∃ db',
    ordersRouter.updateShippingCost now input db
    = (Thrown (InsufficientCredits (sum_costs (ordersRouter.input_costs input))
                 (num_or (credits org) (num 0))), db')
    ∧ organizations db' !! orgId = Some org
    ∧ orders db' !! oid = Some order
    ∧ credit_transactions db' = credit_transactions db
    ∧ db' = db.
Proof.
  intros Hok%finite_costs_are_numbers Hid Ho Horg Hg Hlt. exists db.
  rewrite (updateShippingCost_rejects now input db oid orgId order org) by assumption.
  repeat split; assumption.
Qed.

Lemma updateShippingCost_insufficient_credits_witness :
  (ordersRouter.updateShippingCost 1 Samples.scenario_input
     (Samples.shop_with (Samples.admin_order 2 pending) 5 (num 50))).1
  = Thrown (InsufficientCredits (num 77) (num 50)).
Proof.
  destruct (updateShippingCost_insufficient_credits 1 Samples.scenario_input
              (Samples.shop_with (Samples.admin_order 2 pending) 5 (num 50))
              Samples.order_id Samples.org_id
              (Samples.admin_order 2 pending) (Samples.acme (num 50)))
    as (db' & -> & _); try reflexivity.
Defined.

(** The comparison is made on the rounded sum. With the costs [0.1] and
    [0.7] and credits of [0.7999999999999999] the sum as a double equals the
    credits and the deduction goes through, although the exact sum [0.8] is
    larger; with the costs [72.21, 78.1, 14.37, 30.55, 51.59] and credits of
    [246.82] the sum as a double is larger than the credits and the call is
    refused, although the exact sum equals them. *)
Example updateShippingCost_compares_rounded_sums :
  let small := ordersRouter.mkShippingCostInput Samples.order_id Samples.org_id
                 (Some (dec 1 1)) (Some (dec 7 1)) None None None None None in
  let large := ordersRouter.mkShippingCostInput Samples.order_id Samples.org_id
                 (Some (dec 7221 2)) (Some (dec 781 1)) (Some (dec 1437 2))
                 (Some (dec 3055 2)) (Some (dec 5159 2)) None None in
  (ordersRouter.updateShippingCost 1 small
     (Samples.shop_with (Samples.admin_order 2 pending) 5
        (dec 7999999999999999 16))).1
  = Returned (ordersRouter.mkShippingCostResult (dec 7999999999999999 16) (num 0))
  ∧ ∃ required,
      (ordersRouter.updateShippingCost 1 large
         (Samples.shop_with (Samples.admin_order 2 pending) 5 (dec 24682 2))).1
      = Thrown (InsufficientCredits required (dec 24682 2))
      ∧ (dec 24682 2 < required)%num.
Proof. cbv zeta. split; [evaluate|]. eexists. split; evaluate. Qed.

(** C2. A successful deduction appends exactly one record to the ledger. Its
    type is [deduct], its amount is the total that was deducted from the
    credits, its [balanceBefore] is the credits read before the deduction
    and its [balanceAfter], which is also the new credits of the
    organization, is [balanceBefore - amount] as a double. The deduction
    succeeds when the costs are finite and the comparison [credits < total]
    of the resolver is false. *)
Theorem updateShippingCost_appends_one_deduct
    (now : Time) (input : ordersRouter.ShippingCostInput) (db : Db)
    (oid orgId : ObjectId) (order : Order) (org : Organization) :
  ordersRouter.costs_are_finite input = true →
  parse_ObjectId (ordersRouter.si_id input) = Some oid →
  orders db !! oid = Some order →
  parse_ObjectId (ordersRouter.si_organizationId input) = Some orgId →
  organizations db !! orgId = Some org →
  ¬ (num_or (credits org) (num 0) < sum_costs (ordersRouter.input_costs input))%num →
  ∃ r db' t,
    ordersRouter.updateShippingCost now input db = (Returned r, db')
    ∧ credit_transactions db' = credit_transactions db ++ [t]
    ∧ tx_type t = deduct
    ∧ amount t = sum_costs (ordersRouter.input_costs input)
    ∧ balanceBefore t = num_or (credits org) (num 0)
    ∧ balanceAfter t = (balanceBefore t - amount t)%num
    ∧ credits <$> organizations db' !! orgId = Some (balanceAfter t)
    ∧ ordersRouter.r_totalShippingCost r = amount t
    ∧ ordersRouter.r_newBalance r = balanceAfter t.
Proof.
  intros Hok%finite_costs_are_numbers Hid Ho Horg Hg Hge.
  apply not_true_iff_false in Hge.
  eexists _, _, (deduction_record now input order org).
  split; [apply updateShippingCost_accepts; eassumption|].
  cbn [credit_transactions organizations after_deduction].
  rewrite lookup_alter_eq, Hg.
  cbn [deduction_record tx_type amount balanceBefore balanceAfter credits set_credits
       fmap option_fmap option_map ordersRouter.r_totalShippingCost
       ordersRouter.r_newBalance].
  repeat split; reflexivity.
Qed.

Lemma updateShippingCost_appends_one_deduct_witness :
  ∃ t,
    credit_transactions
      (ordersRouter.updateShippingCost 1 Samples.scenario_input
         (Samples.shop_with (Samples.admin_order 2 pending) 5 (num 100))).2
    = [t]
    ∧ tx_type t = deduct ∧ balanceAfter t = (balanceBefore t - amount t)%num.
Proof.
  destruct (updateShippingCost_appends_one_deduct 1 Samples.scenario_input
              (Samples.shop_with (Samples.admin_order 2 pending) 5 (num 100))
              Samples.order_id Samples.org_id
              (Samples.admin_order 2 pending) (Samples.acme (num 100)))
    as (r & db' & t & -> & Hl & Ht & _ & _ & Ha & _); try reflexivity.
  - apply not_true_iff_false. evaluate.
  - exists t. cbn [snd]. rewrite Hl. repeat split; assumption.
Defined.

(** C3, as the claim has it, fails: the resolver writes the costs and leaves
    [status] alone. A pending order is still pending when the deduction has
    returned. *)
Lemma updateShippingCost_status_counterexample :
  let db := Samples.shop_with (Samples.admin_order 2 pending) 5 (num 100) in
  let run := ordersRouter.updateShippingCost 1 Samples.scenario_input db in
  run.1 = Returned (ordersRouter.mkShippingCostResult (num 77) (num 23))
  ∧ status <$> orders run.2 !! Samples.order_id = Some pending
  ∧ status <$> orders run.2 !! Samples.order_id ≠ Some sent_to_logistic.
Proof.
  cbv zeta.
  rewrite (updateShippingCost_accepts 1 Samples.scenario_input _
             Samples.order_id Samples.org_id
             (Samples.admin_order 2 pending) (Samples.acme (num 100)));
    [| reflexivity | reflexivity | reflexivity | reflexivity | reflexivity | evaluate ].
  split; [evaluate|].
  assert (status <$> orders (after_deduction 1 Samples.scenario_input Samples.order_id
            Samples.org_id (Samples.admin_order 2 pending)
            (Samples.acme (num 100))
            (Samples.shop_with (Samples.admin_order 2 pending) 5 (num 100)))
            !! Samples.order_id = Some pending) as E.
  { cbn [orders after_deduction]. rewrite lookup_alter_eq. reflexivity. }
  cbn [snd]. rewrite E. split; [reflexivity | discriminate].
Qed.

(** C3, amended. A successful deduction, of finite costs whose sum the
    credits are not below, persists the seven costs and their total, a
    double, on the order and leaves its status as it was; the order
    reaches [sent_to_logistic] through the [updateStatus] call that the
    shipping page makes from its [onSuccess] handler. *)
Theorem updateShippingCost_persists_costs
    (now : Time) (input : ordersRouter.ShippingCostInput) (db : Db)
    (oid orgId : ObjectId) (order : Order) (org : Organization) :
  ordersRouter.costs_are_finite input = true →
  parse_ObjectId (ordersRouter.si_id input) = Some oid →
  orders db !! oid = Some order →
  parse_ObjectId (ordersRouter.si_organizationId input) = Some orgId →
  organizations db !! orgId = Some org →
  ¬ (num_or (credits org) (num 0) < sum_costs (ordersRouter.input_costs input))%num →
  (∃ r db',
     ordersRouter.updateShippingCost now input db = (Returned r, db')
     ∧ orders db' !! oid
       = Some (set_costs (ordersRouter.input_costs input)
                 (sum_costs (ordersRouter.input_costs input)) now order)
     ∧ totalShippingCost <$> orders db' !! oid
       = Some (Some (sum_costs (ordersRouter.input_costs input)))
     ∧ status <$> orders db' !! oid = Some (status order))
  ∧ status <$> orders (ShippingPage.confirm_then_ship now
                         (Some (ordersRouter.si_id input)) input db).2 !! oid
    = Some sent_to_logistic.
Proof.
  intros Hok%finite_costs_are_numbers Hid Ho Horg Hg Hge.
  apply not_true_iff_false in Hge.
  pose proof (updateShippingCost_accepts now input db oid orgId order org
                Hok Hid Ho Horg Hg Hge) as Hrun.
  assert (orders (after_deduction now input oid orgId order org db) !! oid
          = Some (set_costs (ordersRouter.input_costs input)
                    (sum_costs (ordersRouter.input_costs input)) now order)) as Hafter.
  { cbn [orders after_deduction]. rewrite lookup_alter_eq, Ho. reflexivity. }
  split.
  - eexists _, _. split; [exact Hrun|]. rewrite Hafter. repeat split; reflexivity.
  - unfold ShippingPage.confirm_then_ship.
    rewrite (bind_returned _ _ _ _ _ Hrun), (otruthy_ObjectId _ _ Hid).
    destruct (updateStatus_plain now (ordersRouter.si_id input) _ oid _ Hid Hafter
                sent_to_logistic) as (-> & _); [left; discriminate|].
    rewrite lookup_alter_eq, Hafter. reflexivity.
Qed.

Lemma updateShippingCost_persists_costs_witness :
  status <$> orders (ShippingPage.confirm_then_ship 1 (Some Samples.order_id)
      Samples.scenario_input
      (Samples.shop_with (Samples.admin_order 2 pending) 5 (num 100))).2
    !! Samples.order_id
  = Some sent_to_logistic.
Proof.
  apply (updateShippingCost_persists_costs 1 Samples.scenario_input
           (Samples.shop_with (Samples.admin_order 2 pending) 5 (num 100))
           Samples.order_id Samples.org_id
           (Samples.admin_order 2 pending) (Samples.acme (num 100)));
    try reflexivity.
  apply not_true_iff_false. evaluate.
Defined.

(** C8. The resolver trusts the caller: whatever the stored order holds
    (quantity, price, earlier costs), the amount it compares with the
    credits, deducts, returns, records in the ledger and stores as
    [totalShippingCost] is the sum of the seven input fields, an omitted
    field counting as [0], added as doubles from left to right. The fields
    that are given are finite. *)
Theorem updateShippingCost_trusts_caller_costs
    (now : Time) (input : ordersRouter.ShippingCostInput) (db : Db)
    (oid orgId : ObjectId) (order : Order) (org : Organization) :
  ordersRouter.costs_are_finite input = true →
  parse_ObjectId (ordersRouter.si_id input) = Some oid →
  orders db !! oid = Some order →
  parse_ObjectId (ordersRouter.si_organizationId input) = Some orgId →
  organizations db !! orgId = Some org →
  let total :=
    (nullish (ordersRouter.si_pickPackCost input) (num 0)
     + nullish (ordersRouter.si_bubbleCost input) (num 0)
     + nullish (ordersRouter.si_paperInsideCost input) (num 0)
     + nullish (ordersRouter.si_cancelOrderCost input) (num 0)
     + nullish (ordersRouter.si_codCost input) (num 0)
     + nullish (ordersRouter.si_boxCost input) (num 0)
     + nullish (ordersRouter.si_deliveryFeeCost input) (num 0))%num in
  let available := num_or (credits org) (num 0) in
  ((available < total)%num →
     ordersRouter.updateShippingCost now input db
     = (Thrown (InsufficientCredits total available), db))
  ∧ (¬ (available < total)%num →
     ∃ db' t,
       ordersRouter.updateShippingCost now input db
       = (Returned (ordersRouter.mkShippingCostResult total (available - total)%num), db')
       ∧ credits <$> organizations db' !! orgId = Some (available - total)%num
       ∧ totalShippingCost <$> orders db' !! oid = Some (Some total)
       ∧ credit_transactions db' = credit_transactions db ++ [t]
       ∧ amount t = total).
Proof.
  intros Hok%finite_costs_are_numbers Hid Ho Horg Hg total available.
  assert (total = sum_costs (ordersRouter.input_costs input)) as ->.
  { unfold total, sum_costs, ordersRouter.input_costs.
    cbn [c_pickPackCost c_bubbleCost c_paperInsideCost c_cancelOrderCost c_codCost
         c_boxCost c_deliveryFeeCost].
    reflexivity. }
  subst available.
  split; intros H.
  - apply (updateShippingCost_rejects now input db oid orgId order org); assumption.
  - apply not_true_iff_false in H.
    eexists _, (deduction_record now input order org).
    split; [apply updateShippingCost_accepts; eassumption|].
    cbn [credit_transactions organizations orders after_deduction].
    rewrite !lookup_alter_eq, Hg, Ho.
    cbn [deduction_record amount credits set_credits totalShippingCost set_costs
         fmap option_fmap option_map].
    repeat split; reflexivity.
Qed.

Lemma updateShippingCost_trusts_caller_costs_witness :
  (ordersRouter.updateShippingCost 1
     (ordersRouter.mkShippingCostInput Samples.order_id Samples.org_id
        (Some (num 1)) None (Some (num 2)) None None None None)
     (Samples.shop_with (Samples.admin_order 40 pending) 5 (num 100))).1
  = Returned (ordersRouter.mkShippingCostResult (num 3) (num 97)).
Proof.
  destruct (updateShippingCost_trusts_caller_costs 1
     (ordersRouter.mkShippingCostInput Samples.order_id Samples.org_id
        (Some (num 1)) None (Some (num 2)) None None None None)
     (Samples.shop_with (Samples.admin_order 40 pending) 5 (num 100))
     Samples.order_id Samples.org_id
     (Samples.admin_order 40 pending) (Samples.acme (num 100))
     eq_refl eq_refl eq_refl eq_refl eq_refl)
    as [_ Hok].
  destruct Hok as (db' & t & -> & _); [apply not_true_iff_false; evaluate|].
  evaluate.
Defined.

(** ** The cost calculator of the shipping page *)



(** The quoted scenario: quantity 2 at 350 with the default rates costs
    40 + 10 + 6 + 0 + 21 + 0 + 0 = 77. *)
Example getTotalCost_scenario :
  ShippingPage.getTotalCost ShippingPage.default_rates
    (Samples.admin_order 2 pending) = num 77.
Proof. evaluate. Qed.

(** ** Cancellation *)

(** C4. Cancelling a delivered order of 3 units takes the fee of 30 from
    the credits of the organization and leaves the ledger empty: no
    [deduct] record is written for it. *)
Theorem cancellation_fee_not_in_ledger :
  let db := Samples.shop_with (Samples.admin_order 3 delivered) 5 (num 100) in
  let run := ordersRouter.updateStatus 1 Samples.order_id cancelled db in
  run.1 = Returned tt
  ∧ credits <$> organizations db !! Samples.org_id = Some (num 100)
  ∧ credits <$> organizations run.2 !! Samples.org_id = Some (num 70)
  ∧ credit_transactions run.2 = [].
Proof. cbv zeta. repeat split; evaluate. Qed.

(** The fee is taken without a look at the balance: with credits of 10 the
    cancellation of 3 units leaves -20. *)
Example cancellation_drives_balance_negative :
  let db := Samples.shop_with (Samples.admin_order 3 delivered) 5 (num 10) in
  let run := ordersRouter.updateStatus 1 Samples.order_id cancelled db in
  run.1 = Returned tt
  ∧ stockQuantity <$> products run.2 !! Samples.product_id = Some 8%Z
  ∧ credits <$> organizations run.2 !! Samples.org_id = Some (num (-20)).
Proof. cbv zeta. repeat split; evaluate. Qed.

(** C5. An order that [submitClientOrder] created for a product carries
    [createdBy = "client"]. Cancelling it restores the stock and then
    throws while it looks up the creator: the fee is never taken, and the
    status is never written, so that a second call restores the stock once
    more. *)
Theorem cancellation_of_client_order_aborts :
  let db0 := Samples.shop 5 (num 100) true in
  let db1 := (ordersRouter.submitClientOrder 1 Samples.client_order_id
                (Samples.client_input 3) db0).2 in
  let first := ordersRouter.updateStatus 2 Samples.client_order_id cancelled db1 in
  let second := ordersRouter.updateStatus 3 Samples.client_order_id cancelled first.2 in
  (productId <$> orders db1 !! Samples.client_order_id = Some (Some Samples.product_id)
   ∧ createdBy <$> orders db1 !! Samples.client_order_id = Some "client"
   ∧ status <$> orders db1 !! Samples.client_order_id = Some pending
   ∧ stockQuantity <$> products db1 !! Samples.product_id = Some 2%Z)
  ∧ first.1 = Thrown BSONError
  ∧ stockQuantity <$> products first.2 !! Samples.product_id = Some 5%Z
  ∧ credits <$> organizations first.2 !! Samples.org_id = Some (num 100)
  ∧ status <$> orders first.2 !! Samples.client_order_id = Some pending
  ∧ stockQuantity <$> products second.2 !! Samples.product_id = Some 8%Z.
Proof. cbv zeta. repeat split; evaluate. Qed.

(** The creator lookup returns when [createdBy] is empty or spells an
    identifier, and throws on any other string. *)
Lemma find_creator_returns s db :
  (truthy s = true → is_Some (parse_ObjectId s)) →
  ∃ u, find_creator s db = (Returned u, db).
Proof.
  intros H. unfold find_creator. destruct (truthy s).
  - destruct H as [uid Hu]; [reflexivity|].
    rewrite (bind_returned _ _ _ _ _ (new_ObjectId_ok _ _ db Hu)). eexists. reflexivity.
  - eexists. reflexivity.
Qed.

Lemma find_creator_throws s db :
  truthy s = true → parse_ObjectId s = None →
  find_creator s db = (Thrown BSONError, db).
Proof.
  intros Ht Hp. unfold find_creator. rewrite Ht.
  apply bind_thrown, new_ObjectId_bad, Hp.
Qed.

Section Cancellation.

Import ordersRouter.

Variables (now : Time) (id : string) (db : Db) (oid : ObjectId) (order : Order).
Variables (pidStr : string) (pid orgId : ObjectId) (p : Product) (org : Organization).

Hypothesis id_ok : parse_ObjectId id = Some oid.
Hypothesis order_found : orders db !! oid = Some order.
Hypothesis not_cancelled : status order ≠ cancelled.
Hypothesis has_product : productId order = Some pidStr.
Hypothesis pid_ok : parse_ObjectId pidStr = Some pid.
Hypothesis product_found : products db !! pid = Some p.
Hypothesis org_ok : parse_ObjectId (organizationId order) = Some orgId.
Hypothesis org_found : organizations db !! orgId = Some org.

(** With a creator the lookup accepts, a first cancellation restores the
    stock, takes the fee whatever the balance is, and writes the status. *)
Lemma updateStatus_cancel_completes :
  (truthy (createdBy order) = true → is_Some (parse_ObjectId (createdBy order))) →
  let run := updateStatus now id cancelled db in
  run.1 = Returned tt
  ∧ stockQuantity <$> products run.2 !! pid = Some (stockQuantity p + quantity order)%Z
  ∧ credits <$> organizations run.2 !! orgId
    = Some (credits org - num (10 * quantity order))%num
  ∧ status <$> orders run.2 !! oid = Some cancelled
  ∧ credit_transactions run.2 = credit_transactions db.
Proof using id_ok order_found not_cancelled has_product pid_ok product_found
  org_ok org_found.
  intros Hc. cbv zeta.
  assert (∃ d, updateStatus now id cancelled db = (Returned tt, d)
               ∧ products d = alter (inc_stock (quantity order) now) pid (products db)
               ∧ organizations d
                 = alter (inc_credits (- num (quantity order * 10))) orgId
                     (organizations db)
               ∧ orders d = alter (set_status cancelled now) oid (orders db))
    as (d & Hrun & Hp & Hg & Ho).
  { unfold updateStatus.
    rewrite (bind_returned _ _ _ _ _ (new_ObjectId_ok _ _ db id_ok)).
    unfold mbind at 1, M_bind at 1, gets at 1. rewrite order_found.
    rewrite bool_decide_eq_true_2, (bool_decide_eq_false_2 _ not_cancelled) by reflexivity.
    simpl andb. cbv iota.
    rewrite has_product, (otruthy_ObjectId _ _ pid_ok).
    rewrite ?bind_assoc.
    rewrite (bind_returned _ _ _ _ _ (new_ObjectId_ok _ _ db pid_ok)).
    rewrite ?bind_assoc.
    unfold mbind at 1, M_bind at 1, gets at 1. rewrite product_found.
    rewrite ?bind_assoc.
    rewrite (bind_returned _ _ _ _ _ (new_ObjectId_ok _ _ db pid_ok)).
    rewrite ?bind_assoc.
    unfold mbind at 1, M_bind at 1, modify at 1.
    rewrite ?bind_assoc.
    match goal with |- context [(find_creator ?s ≫= _) ?x] =>
      destruct (find_creator_returns s x Hc) as [u1 Hu1] end.
    rewrite (bind_returned _ _ _ _ _ Hu1).
    rewrite ?bind_assoc.
    unfold mbind at 1, M_bind at 1, logProductActivity at 1, modify at 1.
    rewrite ?bind_assoc.
    match goal with |- context [(new_ObjectId (organizationId order) ≫= _) ?x] =>
      rewrite (bind_returned _ _ _ _ _ (new_ObjectId_ok _ _ x org_ok)) end.
    rewrite ?bind_assoc.
    unfold mbind at 1, M_bind at 1, modify at 1.
    match goal with |- context [(new_ObjectId id ≫= _) ?x] =>
      rewrite (bind_returned _ _ _ _ _ (new_ObjectId_ok _ _ x id_ok)) end.
    unfold mbind at 1, M_bind at 1, modify at 1.
    match goal with |- context [(find_creator ?s ≫= _) ?x] =>
      destruct (find_creator_returns s x Hc) as [u2 Hu2] end.
    rewrite (bind_returned _ _ _ _ _ Hu2).
    destruct u2 as [[uid u]|]; eexists; (split; [reflexivity|]);
      repeat split; reflexivity. }
  pose proof (updateStatus_keeps_ledger now id cancelled db) as K.
  rewrite Hrun in *. cbn [fst snd] in *. rewrite Hp, Hg, Ho, !lookup_alter_eq.
  rewrite product_found, org_found, order_found.
  cbn [fmap option_fmap option_map inc_stock inc_credits set_status stockQuantity
       credits status].
  rewrite num_add_opp, (Z.mul_comm (quantity order)).
  repeat split; try reflexivity. exact K.
Qed.

(** With a creator the lookup rejects, the same call stops after the stock
    has been restored: neither the fee nor the status is written. *)
Lemma updateStatus_cancel_aborts :
  truthy (createdBy order) = true → parse_ObjectId (createdBy order) = None →
  updateStatus now id cancelled db
  = (Thrown BSONError,
     set_products (alter (inc_stock (quantity order) now) pid) db).
Proof using id_ok order_found not_cancelled has_product pid_ok product_found.
  intros Ht Hn. unfold updateStatus.
  rewrite (bind_returned _ _ _ _ _ (new_ObjectId_ok _ _ db id_ok)).
  unfold mbind at 1, M_bind at 1, gets at 1. rewrite order_found.
  rewrite bool_decide_eq_true_2, (bool_decide_eq_false_2 _ not_cancelled) by reflexivity.
  simpl andb. cbv iota.
  rewrite has_product, (otruthy_ObjectId _ _ pid_ok).
  rewrite ?bind_assoc.
  rewrite (bind_returned _ _ _ _ _ (new_ObjectId_ok _ _ db pid_ok)).
  rewrite ?bind_assoc.
  unfold mbind at 1, M_bind at 1, gets at 1. rewrite product_found.
  rewrite ?bind_assoc.
  rewrite (bind_returned _ _ _ _ _ (new_ObjectId_ok _ _ db pid_ok)).
  rewrite ?bind_assoc.
  unfold mbind at 1, M_bind at 1, modify at 1.
  rewrite ?bind_assoc.
  apply bind_thrown, find_creator_throws; assumption.
Qed.

End Cancellation.

(** When the order is already cancelled, [updateStatus] with [cancelled]
    leaves every product and every organization as it was and rewrites only
    [status] and [updatedAt] of the order; hence, after a cancellation that
    returned, a second one changes neither stock nor credits. *)
Lemma updateStatus_cancelled_again
    (now1 now2 : Time) (id : string) (db : Db) (oid : ObjectId) (order : Order) :
  parse_ObjectId id = Some oid →
  orders db !! oid = Some order →
  let first := ordersRouter.updateStatus now1 id cancelled db in
  let second := ordersRouter.updateStatus now2 id cancelled first.2 in
  (status order = cancelled →
     products first.2 = products db
     ∧ organizations first.2 = organizations db
     ∧ orders first.2 = <[oid := set_status cancelled now1 order]> (orders db))
  ∧ (first.1 = Returned tt →
     products second.2 = products first.2
     ∧ organizations second.2 = organizations first.2).
Proof.
  intros Hid Ho. cbv zeta. split.
  - intros Hs.
    destruct (updateStatus_plain now1 id db oid order Hid Ho cancelled (or_intror Hs))
      as (-> & -> & ->).
    repeat split. apply map_eq. intros k.
    destruct (decide (oid = k)) as [<-|Hne].
    + rewrite lookup_alter_eq, lookup_insert_eq, Ho. reflexivity.
    + rewrite lookup_alter_ne, lookup_insert_ne by exact Hne. reflexivity.
  - intros Hret.
    destruct (ordersRouter.updateStatus now1 id cancelled db) as [out db1] eqn:Hrun.
    simpl in Hret. subst out. simpl.
    apply updateStatus_returned in Hrun as (oid' & order' & Hid' & _ & Ho1).
    rewrite Hid in Hid'. injection Hid' as <-.
    destruct (updateStatus_plain now2 id db1 oid _ Hid Ho1 cancelled)
      as (_ & -> & ->); [right; reflexivity|].
    split; reflexivity.
Qed.

(** C10. Two consecutive cancellations do not always have the effect of one.
    For an order with a product whose [createdBy] is neither empty nor an
    identifier, as every order of [submitClientOrder] is, the first
    cancellation restores the stock and throws before it writes the fee and
    the status; the order is not cancelled, so the second cancellation
    restores the stock again and throws in the same place. After the two
    calls the stock is up by twice the quantity, while the credits and the
    status are what they were. *)
Theorem repeated_cancellation_restores_twice
    (now1 now2 : Time) (id : string) (db : Db) (oid pid : ObjectId)
    (order : Order) (pidStr : string) (p : Product) :
  parse_ObjectId id = Some oid →
  orders db !! oid = Some order →
  status order ≠ cancelled →
  productId order = Some pidStr →
  parse_ObjectId pidStr = Some pid →
  products db !! pid = Some p →
  truthy (createdBy order) = true →
  parse_ObjectId (createdBy order) = None →
  let first := ordersRouter.updateStatus now1 id cancelled db in
  let second := ordersRouter.updateStatus now2 id cancelled first.2 in
  first.1 = Thrown BSONError
  ∧ second.1 = Thrown BSONError
  ∧ stockQuantity <$> products first.2 !! pid = Some (stockQuantity p + quantity order)%Z
  ∧ stockQuantity <$> products second.2 !! pid
    = Some (stockQuantity p + quantity order + quantity order)%Z
  ∧ organizations second.2 = organizations db
  ∧ orders second.2 = orders db
  ∧ status <$> orders second.2 !! oid ≠ Some cancelled.
Proof.
  intros Hid Ho Hs Hprod Hpid Hp Ht Hn. cbv zeta.
  rewrite (updateStatus_cancel_aborts now1 id db oid order pidStr pid p
             Hid Ho Hs Hprod Hpid Hp Ht Hn).
  cbn [fst snd].
  assert (products (set_products (alter (inc_stock (quantity order) now1) pid) db) !! pid
          = Some (inc_stock (quantity order) now1 p)) as Hp1.
  { cbn [products set_products]. rewrite lookup_alter_eq, Hp. reflexivity. }
  rewrite (updateStatus_cancel_aborts now2 id
             (set_products (alter (inc_stock (quantity order) now1) pid) db)
             oid order pidStr pid _ Hid Ho Hs Hprod Hpid Hp1 Ht Hn).
  cbn [fst snd products organizations orders set_products].
  rewrite !lookup_alter_eq, Hp, Ho.
  repeat split; try reflexivity.
  cbn [fmap option_fmap option_map]. congruence.
Qed.

Lemma repeated_cancellation_restores_twice_witness :
  let db1 := (ordersRouter.submitClientOrder 1 Samples.client_order_id
                (Samples.client_input 3) (Samples.shop 5 (num 100) true)).2 in
  let first := ordersRouter.updateStatus 2 Samples.client_order_id cancelled db1 in
  let second := ordersRouter.updateStatus 3 Samples.client_order_id cancelled first.2 in
  stockQuantity <$> products db1 !! Samples.product_id = Some 2%Z
  ∧ stockQuantity <$> products second.2 !! Samples.product_id = Some (2 + 3 + 3)%Z
  ∧ organizations second.2 = organizations db1.
Proof.
  cbv zeta.
  set (db1 := (ordersRouter.submitClientOrder 1 Samples.client_order_id
                 (Samples.client_input 3) (Samples.shop 5 (num 100) true)).2).
  assert (orders db1 !! Samples.client_order_id
          = Some (ordersRouter.client_order 1 (Samples.client_input 3))) as Ho
    by evaluate.
  assert (products db1 !! Samples.product_id
          = Some (inc_stock (-3) 1 (Samples.vitamin 5 true))) as Hp
    by evaluate.
  split; [rewrite Hp; reflexivity|].
  destruct (repeated_cancellation_restores_twice 2 3 Samples.client_order_id db1
              Samples.client_order_id Samples.product_id
              (ordersRouter.client_order 1 (Samples.client_input 3))
              Samples.product_id (inc_stock (-3) 1 (Samples.vitamin 5 true))
              eq_refl Ho)
    as (_ & _ & _ & H4 & H5 & _);
    [ discriminate | reflexivity | reflexivity | exact Hp | reflexivity | reflexivity | ].
  split; [exact H4 | exact H5].
Defined.

(** ** Order creation *)

(** C6, as the claim has it, fails on an inactive product: with 5 in stock,
    an order of 2 is refused, by [create] and by [submitClientOrder], and
    the stock stays 5; an order of 6 is refused for the same reason and not
    for the missing stock. *)
Lemma creation_inactive_product_counterexample :
  let db := Samples.shop 5 (num 100) false in
  let made := ordersRouter.create 1 Samples.order_id
                (Samples.admin_order 2 pending) db in
  let sent := ordersRouter.submitClientOrder 1 Samples.client_order_id
                (Samples.client_input 2) db in
  let large := ordersRouter.create 1 Samples.order_id
                 (Samples.admin_order 6 pending) db in
  (2 ≤ 5)%Z
  ∧ made.1 = Thrown ProductNotActive
  ∧ stockQuantity <$> products made.2 !! Samples.product_id = Some 5%Z
  ∧ sent.1 = Thrown ProductNotAvailable
  ∧ stockQuantity <$> products sent.2 !! Samples.product_id = Some 5%Z
  ∧ (5 ≠ 5 - 2)%Z
  ∧ (5 < 6)%Z
  ∧ large.1 = Thrown ProductNotActive.
Proof.
  cbv zeta. split; [lia|].
  repeat split; try evaluate; lia.
Qed.

(** C6, amended. For an order that references an active product of its
    organization: when the quantity exceeds the stock, [create] and
    [submitClientOrder] throw the insufficient-stock error and leave the
    database as it was; otherwise the stock of the product decreases by
    exactly the quantity. *)
Theorem creation_reserves_stock
    (now : Time) (newId : ObjectId) (db : Db)
    (input : Order) (cinput : ordersRouter.ClientOrderInput)
    (pidStr org : string) (pid : ObjectId) (p : Product) (qty : Z) :
  parse_ObjectId pidStr = Some pid →
  products db !! pid = Some p →
  p_organizationId p = org →
  isActive p = true →
  productId input = Some pidStr ∧ organizationId input = org ∧ quantity input = qty →
  ordersRouter.ci_productId cinput = Some pidStr
  ∧ ordersRouter.ci_organizationId cinput = org
  ∧ ordersRouter.ci_quantity cinput = qty →
  ((stockQuantity p < qty)%Z →
     ordersRouter.create now newId input db
     = (Thrown (InsufficientStock (stockQuantity p) qty), db)
     ∧ ordersRouter.submitClientOrder now newId cinput db
       = (Thrown (InsufficientStock (stockQuantity p) qty), db))
  ∧ ((qty ≤ stockQuantity p)%Z →
     stockQuantity <$> products (ordersRouter.create now newId input db).2 !! pid
     = Some (stockQuantity p - qty)%Z
     ∧ stockQuantity <$> products (ordersRouter.submitClientOrder now newId cinput db).2
                           !! pid
       = Some (stockQuantity p - qty)%Z).
Proof.
  intros Hpid Hp Horg Hact (Hi1 & Hi2 & Hi3) (Hc1 & Hc2 & Hc3).
  split; intros Hq.
  - split.
    + apply (create_reserve now newId db input pidStr pid Hpid
               (Thrown (InsufficientStock (stockQuantity p) qty), db) Hi1).
      rewrite Hi2, Hi3. apply (reserve_stock_short _ _ _ _ _ pid p); assumption.
    + apply (submitClientOrder_reserve now newId db cinput pidStr pid Hpid
               (Thrown (InsufficientStock (stockQuantity p) qty), db) Hc1).
      rewrite Hc2, Hc3. apply (reserve_stock_short _ _ _ _ _ pid p); assumption.
  - split.
    + rewrite (create_reserve now newId db input pidStr pid Hpid
                 (Returned p, set_products (alter (inc_stock (- qty) now) pid) db) Hi1).
      * cbn [products set_products]. rewrite lookup_alter_eq, Hp. reflexivity.
      * rewrite Hi2, Hi3. apply reserve_stock_enough; assumption.
    + rewrite (submitClientOrder_reserve now newId db cinput pidStr pid Hpid
                 (Returned p, set_products (alter (inc_stock (- qty) now) pid) db) Hc1).
      * cbn [products set_products]. rewrite lookup_alter_eq, Hp. reflexivity.
      * rewrite Hc2, Hc3. apply reserve_stock_enough; assumption.
Qed.

Lemma creation_reserves_stock_witness :
  let db := Samples.shop 5 (num 100) true in
  ((5 < 6)%Z
   ∧ (ordersRouter.create 1 Samples.order_id (Samples.admin_order 6 pending) db).1
     = Thrown (InsufficientStock 5 6))
  ∧ ((2 ≤ 5)%Z
     ∧ stockQuantity <$> products (ordersRouter.create 1 Samples.order_id
                                     (Samples.admin_order 2 pending) db).2
                           !! Samples.product_id
       = Some (5 - 2)%Z).
Proof.
  cbv zeta. split.
  - split; [lia|].
    pose proof (creation_reserves_stock 1 Samples.order_id
                  (Samples.shop 5 (num 100) true)
                  (Samples.admin_order 6 pending) (Samples.client_input 6)
                  Samples.product_id Samples.org_id Samples.product_id
                  (Samples.vitamin 5 true) 6
                  eq_refl eq_refl eq_refl eq_refl
                  (conj eq_refl (conj eq_refl eq_refl))
                  (conj eq_refl (conj eq_refl eq_refl))) as [Hshort _].
    destruct (Hshort eq_refl) as [-> _]. reflexivity.
  - assert (2 ≤ 5)%Z as Hge by lia.
    split; [exact Hge|].
    pose proof (creation_reserves_stock 1 Samples.order_id
                  (Samples.shop 5 (num 100) true)
                  (Samples.admin_order 2 pending) (Samples.client_input 2)
                  Samples.product_id Samples.org_id Samples.product_id
                  (Samples.vitamin 5 true) 2
                  eq_refl eq_refl eq_refl eq_refl
                  (conj eq_refl (conj eq_refl eq_refl))
                  (conj eq_refl (conj eq_refl eq_refl))) as [_ Henough].
    destruct (Henough Hge) as [-> _]. reflexivity.
Defined.

(** ** The ledger *)

(** The record of [addCredits]: its [balanceAfter] is the double
    [balanceBefore + amount]. *)
Lemma addCredits_record_balances now orgStr amt desc who whoName db bal db' :
  organizationsRouter.addCredits now orgStr amt desc who whoName db = (Returned bal, db') →
  ∃ t, credit_transactions db' = credit_transactions db ++ [t]
       ∧ tx_type t = add
       ∧ balanceAfter t = (balanceBefore t + amount t)%num.
Proof.
  unfold organizationsRouter.addCredits. intros H.
  destruct (negb (is_positive amt)); [discriminate|].
  apply bind_returned_inv in H as (orgId & d0 & Hid & H).
  unfold new_ObjectId in Hid.
  destruct (parse_ObjectId orgStr) as [o|] eqn:Hp; [|discriminate].
  injection Hid as <- <-.
  unfold mbind at 1, M_bind at 1, gets at 1 in H.
  destruct (organizations db !! o) as [org|]; [|discriminate].
  rewrite (bind_returned _ _ _ _ _ (new_ObjectId_ok _ _ db Hp)) in H.
  injection H as <- <-. eexists. repeat split; reflexivity.
Qed.

(** The record of [adjustCredits] holds the double
    [balanceAfter - balanceBefore] as its amount. Adding it back to
    [balanceBefore] need not give [balanceAfter]: an adjustment from
    [713.33] to [170.94] records an amount with which it does not. *)
Example adjustCredits_record_rounds :
  ∃ t,
    credit_transactions
      (organizationsRouter.adjustCredits 1 Samples.org_id (dec 17094 2) "audit" None None
         (Samples.shop 5 (dec 71333 2) true)).2 = [t]
    ∧ tx_type t = adjust
    ∧ amount t = (balanceAfter t - balanceBefore t)%num
    ∧ balanceAfter t ≠ (balanceBefore t + amount t)%num.
Proof.
  eexists. split; [evaluate|].
  repeat split. vm_compute. discriminate.
Qed.

(** The older per-user deduction records its amount the same way as the
    shipping-cost deduction: unsigned, with [balanceAfter] the double
    [balanceBefore - amount]. *)
Lemma deductCredits_record now userId amt desc orderId who db bal db' :
  usersRouter.deductCredits now userId amt desc orderId who db = (Returned bal, db') →
  ∃ t, credit_transactions db' = credit_transactions db ++ [t]
       ∧ tx_type t = deduct
       ∧ amount t = amt
       ∧ balanceAfter t = (balanceBefore t - amount t)%num.
Proof.
  unfold usersRouter.deductCredits. intros H.
  destruct (negb (is_positive amt)); [discriminate|].
  apply bind_returned_inv in H as (uid & d0 & Hid & H).
  unfold new_ObjectId in Hid.
  destruct (parse_ObjectId userId) as [u|] eqn:Hp; [|discriminate].
  injection Hid as <- <-.
  unfold mbind at 1, M_bind at 1, gets at 1 in H.
  destruct (users db !! u) as [user|]; [|discriminate].
  cbv zeta in H. destruct (num_ltb _ amt); [discriminate|].
  rewrite (bind_returned _ _ _ _ _ (new_ObjectId_ok _ _ db Hp)) in H.
  injection H as <- <-. eexists. repeat split; reflexivity.
Qed.

(** C9. The record of a shipping-cost deduction does not balance with a
    plus: on credits of 100 the deduction of 77 records the amount [77],
    not [-77], so that [balanceAfter = 23] differs from
    [balanceBefore + amount = 177]. *)
Theorem deduction_record_unbalanced :
  let db := Samples.shop_with (Samples.admin_order 2 pending) 5 (num 100) in
  let run := ordersRouter.updateShippingCost 1 Samples.scenario_input db in
  ∃ t,
    credit_transactions run.2 = credit_transactions db ++ [t]
    ∧ tx_type t = deduct
    ∧ amount t = num 77 ∧ balanceBefore t = num 100 ∧ balanceAfter t = num 23
    ∧ balanceAfter t ≠ (balanceBefore t + amount t)%num.
Proof.
  cbv zeta.
  rewrite (updateShippingCost_accepts 1 Samples.scenario_input _
             Samples.order_id Samples.org_id
             (Samples.admin_order 2 pending) (Samples.acme (num 100)));
    [| reflexivity | reflexivity | reflexivity | reflexivity | reflexivity | evaluate ].
  eexists. split; [reflexivity|].
  repeat split; try evaluate.
  vm_compute. discriminate.
Qed.

(** * Further properties of the resolvers *)

(** ** Credits of an organization *)

Section OrganizationCredits.

Import organizationsRouter.

Variables (now : Time) (orgStr desc : string) (who whoName : option string).
Variables (db : Db) (orgId : ObjectId) (org : Organization).

Hypothesis org_ok : parse_ObjectId orgStr = Some orgId.
Hypothesis org_found : organizations db !! orgId = Some org.

Lemma addCredits_run amt :
  is_positive amt = true →
  addCredits now orgStr amt desc who whoName db
  = (Returned (num_or (credits org) (num 0) + amt)%num,
     add_credit_transaction
       (mkCreditTransaction (Some orgStr) (Some (org_name org)) None None None add amt
          (num_or (credits org) (num 0)) (num_or (credits org) (num 0) + amt)%num
          (DescText desc) None who whoName now)
       (set_organizations
          (alter (set_credits (num_or (credits org) (num 0) + amt)%num now) orgId) db)).
Proof using org_ok org_found.
  intros Hpos. unfold addCredits. rewrite Hpos. cbn [negb].
  rewrite (bind_returned _ _ _ _ _ (new_ObjectId_ok _ _ db org_ok)).
  unfold mbind at 1, M_bind at 1, gets at 1. rewrite org_found.
  rewrite (bind_returned _ _ _ _ _ (new_ObjectId_ok _ _ db org_ok)).
  reflexivity.
Qed.

Lemma adjustCredits_run newAmount :
  is_nonnegative newAmount = true →
  adjustCredits now orgStr newAmount desc who whoName db
  = (Returned newAmount,
     add_credit_transaction
       (mkCreditTransaction (Some orgStr) (Some (org_name org)) None None None adjust
          (newAmount - num_or (credits org) (num 0))%num (num_or (credits org) (num 0))
          newAmount (DescText desc) None who whoName now)
       (set_organizations (alter (set_credits newAmount now) orgId) db)).
Proof using org_ok org_found.
  intros Hpos. unfold adjustCredits. rewrite Hpos. cbn [negb].
  rewrite (bind_returned _ _ _ _ _ (new_ObjectId_ok _ _ db org_ok)).
  unfold mbind at 1, M_bind at 1, gets at 1. rewrite org_found.
  rewrite (bind_returned _ _ _ _ _ (new_ObjectId_ok _ _ db org_ok)).
  reflexivity.
Qed.

End OrganizationCredits.

Lemma alter_as_insert {A} (f : A → A) (m : gmap ObjectId A) i x :
  m !! i = Some x → alter f i m = <[i := f x]> m.
Proof.
  intros H. apply map_eq. intros k. destruct (decide (i = k)) as [<-|Hne].
  - rewrite lookup_alter_eq, lookup_insert_eq, H. reflexivity.
  - rewrite lookup_alter_ne, lookup_insert_ne by exact Hne. reflexivity.
Qed.

(** X1. [addCredits] with a finite amount above [0] on an existing
    organization returns and stores the double nearest to the credits it
    read plus the amount, touches no other organization, and appends one
    [add] record with that amount whose [balanceBefore] is the credits read,
    [org.credits || 0], and whose [balanceAfter] is the credits stored,
    [balanceBefore + amount] as a double. *)
Theorem addCredits_adds_and_records
    (now : Time) (orgStr desc : string) (who whoName : option string)
    (db : Db) (orgId : ObjectId) (org : Organization) (amt : number) :
  is_positive amt = true →
  is_finite amt = true →
  parse_ObjectId orgStr = Some orgId →
  organizations db !! orgId = Some org →
  ∃ db' t,
    organizationsRouter.addCredits now orgStr amt desc who whoName db
    = (Returned (balanceAfter t), db')
    ∧ organizations db' = <[orgId := set_credits (balanceAfter t) now org]> (organizations db)
    ∧ credit_transactions db' = credit_transactions db ++ [t]
    ∧ tx_type t = add ∧ amount t = amt
    ∧ balanceBefore t = num_or (credits org) (num 0)
    ∧ balanceAfter t = (balanceBefore t + amount t)%num
    ∧ Some (balanceAfter t) = credits <$> organizations db' !! orgId
    ∧ orders db' = orders db ∧ products db' = products db.
Proof.
  intros Hpos _ Hp Hf.
  rewrite (addCredits_run now orgStr desc who whoName db orgId org Hp Hf amt Hpos).
  match goal with |- ∃ db' t, (_, add_credit_transaction ?t0 ?d0) = _ ∧ _ =>
    exists (add_credit_transaction t0 d0), t0 end.
  split; [reflexivity|].
  cbn [organizations credit_transactions orders products add_credit_transaction
       set_organizations tx_type amount balanceBefore balanceAfter].
  rewrite (alter_as_insert _ _ _ _ Hf), lookup_insert_eq.
  repeat split; reflexivity.
Qed.

Lemma addCredits_adds_and_records_witness :
  credits <$> organizations
    (organizationsRouter.addCredits 1 Samples.org_id (dec 1 1) "top-up" None None
       (Samples.shop 5 (num 100) true)).2 !! Samples.org_id
  = Some (num 100 + dec 1 1)%num.
Proof.
  destruct (addCredits_adds_and_records 1 Samples.org_id "top-up" None None
              (Samples.shop 5 (num 100) true) Samples.org_id
              (Samples.acme (num 100)) (dec 1 1) eq_refl eq_refl eq_refl eq_refl)
    as (db' & t & Hrun & _ & _ & _ & Ha & Hb & Hsum & Hc & _).
  rewrite Hrun. cbn [snd]. rewrite <- Hc, Hsum, Hb, Ha. reflexivity.
Defined.

(** The stored sum is a double: a positive amount can leave large credits
    where they were, and the record then shows equal balances next to a
    positive amount. *)
Example addCredits_can_add_nothing :
  let run := organizationsRouter.addCredits 1 Samples.org_id (num 1) "top-up" None None
               (Samples.shop 5 (num (2 ^ 53)) true) in
  run.1 = Returned (num (2 ^ 53))
  ∧ credits <$> organizations run.2 !! Samples.org_id = Some (num (2 ^ 53)).
Proof. cbv zeta. split; evaluate. Qed.

(** X2. [adjustCredits] with a finite amount of at least [0] on an existing
    organization sets the credits to that amount whatever they were and
    touches no other organization. It appends one [adjust] record whose
    balances are the credits read and the new amount and whose amount is
    their difference as a double; adjusting to the credits read records
    [0]. *)
Theorem adjustCredits_sets_and_records
    (now : Time) (orgStr desc : string) (who whoName : option string)
    (db : Db) (orgId : ObjectId) (org : Organization) (newAmount : number) :
  is_nonnegative newAmount = true →
  is_finite newAmount = true →
  parse_ObjectId orgStr = Some orgId →
  organizations db !! orgId = Some org →
  ∃ db' t,
    organizationsRouter.adjustCredits now orgStr newAmount desc who whoName db
    = (Returned newAmount, db')
    ∧ credits <$> organizations db' !! orgId = Some newAmount
    ∧ (∀ k, k ≠ orgId → organizations db' !! k = organizations db !! k)
    ∧ credit_transactions db' = credit_transactions db ++ [t]
    ∧ tx_type t = adjust
    ∧ balanceBefore t = num_or (credits org) (num 0) ∧ balanceAfter t = newAmount
    ∧ amount t = (balanceAfter t - balanceBefore t)%num
    ∧ (newAmount = num_or (credits org) (num 0) → amount t = num 0).
Proof.
  intros Hpos Hfin Hp Hf.
  rewrite (adjustCredits_run now orgStr desc who whoName db orgId org Hp Hf newAmount Hpos).
  match goal with |- ∃ db' t, (_, add_credit_transaction ?t0 ?d0) = _ ∧ _ =>
    exists (add_credit_transaction t0 d0), t0 end.
  split; [reflexivity|].
  cbn [organizations credit_transactions add_credit_transaction set_organizations
       tx_type amount balanceBefore balanceAfter].
  rewrite lookup_alter_eq, Hf.
  repeat split; try reflexivity.
  - intros k Hk. apply lookup_alter_ne. congruence.
  - intros <-. apply num_sub_diag, Hfin.
Qed.

Lemma adjustCredits_sets_and_records_witness :
  credits <$> organizations
    (organizationsRouter.adjustCredits 1 Samples.org_id (dec 17094 2) "audit" None None
       (Samples.shop 5 (dec 71333 2) true)).2 !! Samples.org_id
  = Some (dec 17094 2).
Proof.
  destruct (adjustCredits_sets_and_records 1 Samples.org_id "audit" None None
              (Samples.shop 5 (dec 71333 2) true) Samples.org_id
              (Samples.acme (dec 71333 2)) (dec 17094 2)
              eq_refl eq_refl eq_refl eq_refl)
    as (db' & t & -> & H & _).
  exact H.
Defined.

(** X3. A call of [addCredits] or [adjustCredits] that throws has written
    nothing. For NaN it throws the error of the schema. For a finite amount
    it throws for three reasons only, in this order: the amount fails the
    schema (it is not above [0] for [addCredits], not at least [0] for
    [adjustCredits]), the identifier does not parse, or the organization
    does not exist. The flag [adding] tells which of the two resolvers is
    called. *)
Theorem credit_update_failure_writes_nothing
    (now : Time) (orgStr desc : string) (who whoName : option string)
    (db db' : Db) (n : number) (e : Error) (adding : bool) :
  (if adding
   then organizationsRouter.addCredits now orgStr n desc who whoName db
   else organizationsRouter.adjustCredits now orgStr n desc who whoName db)
  = (Thrown e, db') →
  db' = db
  ∧ (is_nan n = true → e = BadRequest)
  ∧ (is_finite n = true →
     if (if adding then is_positive n else is_nonnegative n)
     then match parse_ObjectId orgStr with
          | None => e = BSONError
          | Some orgId => e = OrganizationNotFound ∧ organizations db !! orgId = None
          end
     else e = BadRequest).
Proof.
  intros H.
  assert (db' = db
          ∧ if (if adding then is_positive n else is_nonnegative n)
            then match parse_ObjectId orgStr with
                 | None => e = BSONError
                 | Some orgId =>
                     e = OrganizationNotFound ∧ organizations db !! orgId = None
                 end
            else e = BadRequest) as [Hdb He].
  { revert H.
    unfold organizationsRouter.addCredits, organizationsRouter.adjustCredits,
      mbind, M_bind, new_ObjectId, gets, throw, modify, mret, M_ret.
    destruct adding.
    - destruct (is_positive n); cbn [negb]; [|intros [= <- <-]; split; reflexivity].
      destruct (parse_ObjectId orgStr) as [orgId|] eqn:Hp;
        [|intros [= <- <-]; split; reflexivity].
      destruct (organizations db !! orgId) as [org|] eqn:Hf; [discriminate|].
      intros [= <- <-]. repeat split.
    - destruct (is_nonnegative n); cbn [negb]; [|intros [= <- <-]; split; reflexivity].
      destruct (parse_ObjectId orgStr) as [orgId|] eqn:Hp;
        [|intros [= <- <-]; split; reflexivity].
      destruct (organizations db !! orgId) as [org|] eqn:Hf; [discriminate|].
      intros [= <- <-]. repeat split. }
  split; [exact Hdb|]. split; [|intros _; exact He].
  intros Hnan. destruct (nan_fails_schemas n Hnan) as [Hp Hn].
  rewrite Hp, Hn in He. destruct adding; exact He.
Qed.

Lemma credit_update_failure_writes_nothing_witness :
  (organizationsRouter.addCredits 1 Samples.org_id (num 0) "top-up" None None
     (Samples.shop 5 (num 100) true)).1 = Thrown BadRequest
  ∧ (organizationsRouter.addCredits 1 Samples.org_id (num 0) "top-up" None None
       (Samples.shop 5 (num 100) true)).2 = Samples.shop 5 (num 100) true.
Proof.
  split; [evaluate|].
  refine (proj1 (credit_update_failure_writes_nothing 1 Samples.org_id "top-up" None None
                   (Samples.shop 5 (num 100) true) _ (num 0) BadRequest true _)).
  evaluate.
Defined.

(** ** More on the shipping-cost deduction *)

(** X4. A call of [updateShippingCost] that throws has written nothing.
    With a cost that is NaN it throws the error of the schema. With finite
    costs it throws in this order of precedence: for an order identifier
    that does not parse, for a missing order, for an organization identifier
    that does not parse, for a missing organization, and last when the
    credits it reads are below the sum of the costs, both as doubles. *)
Theorem updateShippingCost_failure_modes
    (now : Time) (input : ordersRouter.ShippingCostInput) (db db' : Db) (e : Error) :
  ordersRouter.updateShippingCost now input db = (Thrown e, db') →
  db' = db
  ∧ (ordersRouter.costs_are_numbers input = false → e = BadRequest)
  ∧ (ordersRouter.costs_are_finite input = true →
     match parse_ObjectId (ordersRouter.si_id input) with
     | None => e = BSONError
     | Some oid =>
         match orders db !! oid with
         | None => e = OrderNotFound
         | Some _ =>
             match parse_ObjectId (ordersRouter.si_organizationId input) with
             | None => e = BSONError
             | Some orgId =>
                 match organizations db !! orgId with
                 | None => e = OrganizationNotFound
                 | Some org =>
                     (num_or (credits org) (num 0)
                      < sum_costs (ordersRouter.input_costs input))%num
                     ∧ e = InsufficientCredits
                           (sum_costs (ordersRouter.input_costs input))
                           (num_or (credits org) (num 0))
                 end
             end
         end
     end).
Proof.
  intros H. split; [exact (updateShippingCost_thrown_unchanged _ _ _ _ _ H)|].
  unfold ordersRouter.updateShippingCost in H.
  split.
  { intros Hbad. rewrite Hbad in H. cbn [negb] in H. unfold throw in H. congruence. }
  intros Hok%finite_costs_are_numbers. rewrite Hok in H. cbn [negb] in H. revert H.
  unfold mbind, M_bind, new_ObjectId, gets, throw, modify, mret, M_ret.
  destruct (parse_ObjectId (ordersRouter.si_id input)) as [oid|]; [|congruence].
  destruct (orders db !! oid) as [order|]; [|congruence].
  destruct (parse_ObjectId (ordersRouter.si_organizationId input)) as [orgId|];
    [|congruence].
  destruct (organizations db !! orgId) as [org|]; [|congruence].
  destruct (num_ltb _ _) eqn:Hlt; [|discriminate].
  intros [= <- <-]. split; reflexivity.
Qed.

Lemma updateShippingCost_failure_modes_witness :
  (ordersRouter.updateShippingCost 1 Samples.scenario_input
     (Samples.shop 5 (num 100) true)).1 = Thrown OrderNotFound
  ∧ (ordersRouter.updateShippingCost 1 Samples.scenario_input
       (Samples.shop 5 (num 100) true)).2 = Samples.shop 5 (num 100) true.
Proof.
  split; [evaluate|].
  refine (proj1 (updateShippingCost_failure_modes 1 Samples.scenario_input
                   (Samples.shop 5 (num 100) true) _ OrderNotFound _)).
  evaluate.
Defined.

(** X5. The resolver has no memory of an earlier deduction: a second
    successful call for the same order charges again. The second call reads
    the credits the first one stored, [first || 0], and stores them less its
    own total; the ledger has gained two records, of which the first ends
    with the stored balance and the second starts with the balance read,
    and the order holds the costs of the second call. The costs of both
    calls are finite, and all differences are doubles. *)
Theorem updateShippingCost_charges_each_call
    (now1 now2 : Time) (in1 in2 : ordersRouter.ShippingCostInput) (db : Db)
    (oid orgId : ObjectId) (order : Order) (org : Organization) :
  ordersRouter.costs_are_finite in1 = true →
  ordersRouter.costs_are_finite in2 = true →
  ordersRouter.si_id in2 = ordersRouter.si_id in1 →
  ordersRouter.si_organizationId in2 = ordersRouter.si_organizationId in1 →
  parse_ObjectId (ordersRouter.si_id in1) = Some oid →
  orders db !! oid = Some order →
  parse_ObjectId (ordersRouter.si_organizationId in1) = Some orgId →
  organizations db !! orgId = Some org →
  let first := (num_or (credits org) (num 0)
                - sum_costs (ordersRouter.input_costs in1))%num in
  let read := num_or first (num 0) in
  ¬ (num_or (credits org) (num 0) < sum_costs (ordersRouter.input_costs in1))%num →
  ¬ (read < sum_costs (ordersRouter.input_costs in2))%num →
  ∃ r1 db1 r2 db2 t1 t2,
    ordersRouter.updateShippingCost now1 in1 db = (Returned r1, db1)
    ∧ ordersRouter.updateShippingCost now2 in2 db1 = (Returned r2, db2)
    ∧ credits <$> organizations db2 !! orgId
      = Some (read - sum_costs (ordersRouter.input_costs in2))%num
    ∧ credit_transactions db2 = credit_transactions db ++ [t1; t2]
    ∧ balanceAfter t1 = first
    ∧ balanceBefore t2 = read
    ∧ (falsy first = false → balanceBefore t2 = balanceAfter t1)
    ∧ totalShippingCost <$> orders db2 !! oid
      = Some (Some (sum_costs (ordersRouter.input_costs in2))).
Proof.
  intros Hok1%finite_costs_are_numbers Hok2%finite_costs_are_numbers
    Eid Eorg Hid Ho Horg Hg first read H1 H2. subst read first.
  apply not_true_iff_false in H1. apply not_true_iff_false in H2.
  pose proof (updateShippingCost_accepts now1 in1 db oid orgId order org
                Hok1 Hid Ho Horg Hg H1) as R1.
  set (db1 := after_deduction now1 in1 oid orgId order org db) in *.
  assert (orders db1 !! oid
          = Some (set_costs (ordersRouter.input_costs in1)
                    (sum_costs (ordersRouter.input_costs in1)) now1 order)) as Ho1.
  { unfold db1. cbn [orders after_deduction]. rewrite lookup_alter_eq, Ho. reflexivity. }
  assert (organizations db1 !! orgId
          = Some (set_credits (num_or (credits org) (num 0)
                               - sum_costs (ordersRouter.input_costs in1))%num
                    now1 org)) as Hg1.
  { unfold db1. cbn [organizations after_deduction].
    rewrite lookup_alter_eq, Hg. reflexivity. }
  rewrite <- Eid in Hid. rewrite <- Eorg in Horg.
  pose proof (updateShippingCost_accepts now2 in2 db1 oid orgId _ _
                Hok2 Hid Ho1 Horg Hg1 H2) as R2.
  eexists _, _, _, _, _, _. split; [exact R1|]. split; [exact R2|].
  cbn [organizations orders credit_transactions after_deduction].
  rewrite !lookup_alter_eq, Hg1, Ho1. unfold db1.
  cbn [credit_transactions after_deduction fmap option_fmap option_map credits
       set_credits balanceAfter balanceBefore deduction_record].
  rewrite <- app_assoc. repeat split; try reflexivity.
  intros Hfirst. apply num_or_truthy, Hfirst.
Qed.

Lemma updateShippingCost_charges_each_call_witness :
  credits <$> organizations
    (ordersRouter.updateShippingCost 2 Samples.scenario_input
       (ordersRouter.updateShippingCost 1 Samples.scenario_input
          (Samples.shop_with (Samples.admin_order 2 pending) 5 (num 200))).2).2
    !! Samples.org_id
  = Some (num 200 - num 77 - num 77)%num.
Proof.
  destruct (updateShippingCost_charges_each_call 1 2 Samples.scenario_input
              Samples.scenario_input
              (Samples.shop_with (Samples.admin_order 2 pending) 5 (num 200))
              Samples.order_id Samples.org_id
              (Samples.admin_order 2 pending) (Samples.acme (num 200))
              eq_refl eq_refl eq_refl eq_refl eq_refl eq_refl eq_refl eq_refl)
    as (r1 & db1 & r2 & db2 & t1 & t2 & E1 & E2 & H & _).
  - apply not_true_iff_false. evaluate.
  - apply not_true_iff_false. evaluate.
  - rewrite E1. cbn [snd]. rewrite E2. cbn [snd]. rewrite H. evaluate.
Defined.

(** X6. The organization charged is the one the caller names. The resolver
    never compares it with the organization of the order: a successful call
    with finite costs lowers the credits of the named organization by the
    total, as a double,
    every other organization, the order's own included, keeps its credits,
    and no product changes. *)
Theorem updateShippingCost_charges_named_organization
    (now : Time) (input : ordersRouter.ShippingCostInput) (db : Db)
    (oid orgId : ObjectId) (order : Order) (org : Organization) :
  ordersRouter.costs_are_finite input = true →
  parse_ObjectId (ordersRouter.si_id input) = Some oid →
  orders db !! oid = Some order →
  parse_ObjectId (ordersRouter.si_organizationId input) = Some orgId →
  organizations db !! orgId = Some org →
  ¬ (num_or (credits org) (num 0) < sum_costs (ordersRouter.input_costs input))%num →
  let db' := (ordersRouter.updateShippingCost now input db).2 in
  credits <$> organizations db' !! orgId
  = Some (num_or (credits org) (num 0) - sum_costs (ordersRouter.input_costs input))%num
  ∧ (∀ k, k ≠ orgId → organizations db' !! k = organizations db !! k)
  ∧ (∀ own, parse_ObjectId (organizationId order) = Some own → own ≠ orgId →
       organizations db' !! own = organizations db !! own)
  ∧ products db' = products db.
Proof.
  intros Hok%finite_costs_are_numbers Hid Ho Horg Hg Hle. cbv zeta.
  apply not_true_iff_false in Hle.
  rewrite (updateShippingCost_accepts now input db oid orgId order org) by assumption.
  cbn [snd organizations products after_deduction]. rewrite lookup_alter_eq, Hg.
  repeat split; try reflexivity.
  - intros k Hk. apply lookup_alter_ne. congruence.
  - intros own _ Hk. apply lookup_alter_ne. congruence.
Qed.

Lemma updateShippingCost_charges_named_organization_witness :
  let other := "507f1f77bcf86cd799439099" in
  let db := set_organizations (insert other (mkOrganization "Other" (num 50) 0))
              (Samples.shop_with (Samples.admin_order 2 pending) 5 (num 100)) in
  let input := ordersRouter.mkShippingCostInput Samples.order_id other
                 (Some (num 1)) None None None None None None in
  let db' := (ordersRouter.updateShippingCost 1 input db).2 in
  organizationId (Samples.admin_order 2 pending) = Samples.org_id
  ∧ organizations db' !! Samples.org_id = organizations db !! Samples.org_id.
Proof.
  cbv zeta. split; [reflexivity|].
  refine (proj1 (proj2 (proj2 (updateShippingCost_charges_named_organization 1
    (ordersRouter.mkShippingCostInput Samples.order_id "507f1f77bcf86cd799439099"
       (Some (num 1)) None None None None None None)
    (set_organizations
       (insert "507f1f77bcf86cd799439099" (mkOrganization "Other" (num 50) 0))
       (Samples.shop_with (Samples.admin_order 2 pending) 5 (num 100)))
    Samples.order_id "507f1f77bcf86cd799439099"
    (Samples.admin_order 2 pending) (mkOrganization "Other" (num 50) 0)
    eq_refl eq_refl eq_refl eq_refl eq_refl _))) Samples.org_id eq_refl _).
  - apply not_true_iff_false. evaluate.
  - discriminate.
Defined.

(** ** More on [updateStatus] *)

(** What follows the cancellation block: the status write, then the user
    lookup and the activity log, which append to [user_logs] or throw. *)
Lemma status_tail_keeps now id s (order : Order) :
  ∀ A (f : Db → A), (∀ l x, f (add_user_log l x) = f x) →
    keeps f (find_creator (createdBy order) ≫= λ user,
               match user with
               | Some (uid, u) =>
                   logActivity now uid (Some (user_name u))
                     ("update order status to " +:+ OrderStatus_to_string s)
                     (Some id) (organizationId order)
               | None => mret tt
               end).
Proof.
  intros A f Hf. apply keeps_bind; [apply keeps_find_creator|].
  intros [[u n]|]; [apply keeps_logActivity; exact Hf | apply keeps_ret].
Qed.

Section CancellationStates.

Import ordersRouter.

Variables (now : Time) (id : string) (db : Db) (oid orgId : ObjectId) (order : Order).

Hypothesis id_ok : parse_ObjectId id = Some oid.
Hypothesis order_found : orders db !! oid = Some order.
Hypothesis not_cancelled : status order ≠ cancelled.
Hypothesis org_ok : parse_ObjectId (organizationId order) = Some orgId.

(** A first cancellation that finds no product to restore. *)
Lemma updateStatus_cancel_bare_run :
  otruthy (productId order) = None
  ∨ (∃ s pid, productId order = Some s ∧ parse_ObjectId s = Some pid
              ∧ products db !! pid = None) →
  ∃ rest : M unit,
    (∀ A (f : Db → A), (∀ l x, f (add_user_log l x) = f x) → keeps f rest)
    ∧ updateStatus now id cancelled db
      = rest (set_orders (alter (set_status cancelled now) oid)
                (set_organizations
                   (alter (inc_credits (- num (quantity order * 10))) orgId) db)).
Proof using id_ok order_found not_cancelled org_ok.
  intros Hno. eexists. split; cycle 1.
  - unfold updateStatus.
    rewrite (bind_returned _ _ _ _ _ (new_ObjectId_ok _ _ db id_ok)).
    unfold mbind at 1, M_bind at 1, gets at 1. rewrite order_found.
    rewrite bool_decide_eq_true_2, (bool_decide_eq_false_2 _ not_cancelled) by reflexivity.
    simpl andb. cbv iota.
    assert (∀ k : unit → M unit,
              ((match otruthy (productId order) with
                | Some pidStr =>
                    pid ← new_ObjectId pidStr;
                    product ← gets (λ db, products db !! pid);
                    match product with
                    | Some p =>
                        pid' ← new_ObjectId pidStr;
                        modify (set_products (alter (inc_stock (quantity order) now) pid'));;
                        user ← find_creator (createdBy order);
                        logProductActivity now pidStr (p_productCode p) (p_productName p)
                          add_stock (Some (stockQuantity p))
                          (Some (stockQuantity p + quantity order)%Z)
                          (Some (quantity order))
                          (str_or (createdBy order) "system")
                          (Some (ostr_or (user_name ∘ snd <$> user) "System"))
                          (organizationId order) (Some id)
                          (Some ("Stock restored from cancelled order for customer: "
                                 +:+ customerName order))
                    | None => mret tt
                    end
                | None => mret tt
                end) ≫= k) db = k tt db) as Hskip.
    { intros k. destruct Hno as [->|(s & pid & -> & Hs & Hp)]; [reflexivity|].
      rewrite (otruthy_ObjectId _ _ Hs), ?bind_assoc.
      rewrite (bind_returned _ _ _ _ _ (new_ObjectId_ok _ _ db Hs)).
      rewrite ?bind_assoc.
      unfold mbind at 1, M_bind at 1, gets at 1. rewrite Hp. reflexivity. }
    rewrite ?bind_assoc, Hskip.
    rewrite ?bind_assoc.
    rewrite (bind_returned _ _ _ _ _ (new_ObjectId_ok _ _ db org_ok)).
    rewrite ?bind_assoc.
    unfold mbind at 1, M_bind at 1, modify at 1.
    match goal with |- context [(new_ObjectId id ≫= _) ?x] =>
      rewrite (bind_returned _ _ _ _ _ (new_ObjectId_ok _ _ x id_ok)) end.
    unfold mbind at 1, M_bind at 1, modify at 1.
    reflexivity.
  - apply status_tail_keeps.
Qed.

End CancellationStates.

Section CancellationWithProduct.

Import ordersRouter.

Variables (now : Time) (id : string) (db : Db) (oid orgId pid : ObjectId).
Variables (order : Order) (pidStr : string) (p : Product).

Hypothesis id_ok : parse_ObjectId id = Some oid.
Hypothesis order_found : orders db !! oid = Some order.
Hypothesis not_cancelled : status order ≠ cancelled.
Hypothesis org_ok : parse_ObjectId (organizationId order) = Some orgId.
Hypothesis has_product : productId order = Some pidStr.
Hypothesis pid_ok : parse_ObjectId pidStr = Some pid.
Hypothesis product_found : products db !! pid = Some p.
Hypothesis creator_ok :
  truthy (createdBy order) = true → is_Some (parse_ObjectId (createdBy order)).

(** A first cancellation that restores the stock of its product. *)
Lemma updateStatus_cancel_product_run :
  ∃ (rest : M unit) (entry : ProductLog),
    (∀ A (f : Db → A), (∀ l x, f (add_user_log l x) = f x) → keeps f rest)
    ∧ updateStatus now id cancelled db
      = rest (set_orders (alter (set_status cancelled now) oid)
                (set_organizations
                   (alter (inc_credits (- num (quantity order * 10))) orgId)
                   (add_product_log entry
                      (set_products (alter (inc_stock (quantity order) now) pid) db)))).
Proof using id_ok order_found not_cancelled org_ok has_product pid_ok product_found
  creator_ok.
  destruct (find_creator_returns (createdBy order)
              (set_products (alter (inc_stock (quantity order) now) pid) db) creator_ok)
    as [u1 Hu1].
  eexists _, _. split; cycle 1.
  - unfold updateStatus.
    rewrite (bind_returned _ _ _ _ _ (new_ObjectId_ok _ _ db id_ok)).
    unfold mbind at 1, M_bind at 1, gets at 1. rewrite order_found.
    rewrite bool_decide_eq_true_2, (bool_decide_eq_false_2 _ not_cancelled) by reflexivity.
    simpl andb. cbv iota.
    rewrite has_product, (otruthy_ObjectId _ _ pid_ok).
    rewrite ?bind_assoc.
    rewrite (bind_returned _ _ _ _ _ (new_ObjectId_ok _ _ db pid_ok)).
    rewrite ?bind_assoc.
    unfold mbind at 1, M_bind at 1, gets at 1. rewrite product_found.
    rewrite ?bind_assoc.
    rewrite (bind_returned _ _ _ _ _ (new_ObjectId_ok _ _ db pid_ok)).
    rewrite ?bind_assoc.
    unfold mbind at 1, M_bind at 1, modify at 1.
    rewrite ?bind_assoc.
    rewrite (bind_returned _ _ _ _ _ Hu1).
    rewrite ?bind_assoc.
    unfold mbind at 1, M_bind at 1, logProductActivity at 1, modify at 1.
    rewrite ?bind_assoc.
    match goal with |- context [(new_ObjectId (organizationId order) ≫= _) ?x] =>
      rewrite (bind_returned _ _ _ _ _ (new_ObjectId_ok _ _ x org_ok)) end.
    rewrite ?bind_assoc.
    unfold mbind at 1, M_bind at 1, modify at 1.
    match goal with |- context [(new_ObjectId id ≫= _) ?x] =>
      rewrite (bind_returned _ _ _ _ _ (new_ObjectId_ok _ _ x id_ok)) end.
    unfold mbind at 1, M_bind at 1, modify at 1.
    reflexivity.
  - apply status_tail_keeps.
Qed.

Lemma updateStatus_cancel_product_state :
  let d := (updateStatus now id cancelled db).2 in
  products d = alter (inc_stock (quantity order) now) pid (products db)
  ∧ organizations d
    = alter (inc_credits (- num (quantity order * 10))) orgId (organizations db)
  ∧ orders d = alter (set_status cancelled now) oid (orders db)
  ∧ credit_transactions d = credit_transactions db.
Proof using id_ok order_found not_cancelled org_ok has_product pid_ok product_found
  creator_ok.
  cbv zeta. destruct updateStatus_cancel_product_run as (rest & entry & K & ->).
  rewrite !K by reflexivity. repeat split; reflexivity.
Qed.

End CancellationWithProduct.

(** X7. [updateStatus] for an identifier that does not parse, or that names
    no order, throws and writes nothing, whatever the requested status: no
    fee is taken for an order that does not exist. *)
Theorem updateStatus_unknown_order
    (now : Time) (id : string) (s : OrderStatus) (db : Db) :
  (∀ oid, parse_ObjectId id = Some oid → orders db !! oid = None) →
  ordersRouter.updateStatus now id s db
  = (Thrown (match parse_ObjectId id with
             | Some _ => OrderNotFound
             | None => BSONError
             end), db).
Proof.
  intros H. unfold ordersRouter.updateStatus, mbind, M_bind, new_ObjectId, gets.
  destruct (parse_ObjectId id) as [oid|]; [|reflexivity].
  simpl. rewrite (H oid eq_refl). reflexivity.
Qed.

Lemma updateStatus_unknown_order_witness :
  ordersRouter.updateStatus 1 Samples.order_id cancelled
    (Samples.shop 5 (num 100) true)
  = (Thrown OrderNotFound, Samples.shop 5 (num 100) true).
Proof.
  apply (updateStatus_unknown_order 1 Samples.order_id cancelled
           (Samples.shop 5 (num 100) true)).
  intros oid [= <-]. reflexivity.
Defined.

(** X8. The resolver checks no transition. For every stored status, a
    delivered or cancelled one included, a request for a status other than
    [cancelled] writes that status and [updatedAt] on the order and changes
    nothing else among orders, products, organizations, ledger and product
    log. *)
Theorem updateStatus_accepts_any_transition
    (now : Time) (id : string) (s : OrderStatus) (db : Db)
    (oid : ObjectId) (order : Order) :
  parse_ObjectId id = Some oid →
  orders db !! oid = Some order →
  s ≠ cancelled →
  let d := (ordersRouter.updateStatus now id s db).2 in
  orders d = <[oid := set_status s now order]> (orders db)
  ∧ products d = products db
  ∧ organizations d = organizations db
  ∧ credit_transactions d = credit_transactions db
  ∧ product_logs d = product_logs db.
Proof.
  intros Hid Ho Hs. cbv zeta.
  destruct (updateStatus_plain_run now id db oid order Hid Ho s (or_introl Hs))
    as (rest & K & ->).
  rewrite !K by reflexivity. cbn [orders products organizations credit_transactions
    product_logs set_orders].
  rewrite (alter_as_insert _ _ _ _ Ho). repeat split; reflexivity.
Qed.

Lemma updateStatus_accepts_any_transition_witness :
  status <$> orders
    (ordersRouter.updateStatus 1 Samples.order_id pending
       (Samples.shop_with (Samples.admin_order 2 delivered) 5 (num 100))).2
    !! Samples.order_id
  = Some pending.
Proof.
  destruct (updateStatus_accepts_any_transition 1 Samples.order_id pending
              (Samples.shop_with (Samples.admin_order 2 delivered) 5 (num 100))
              Samples.order_id (Samples.admin_order 2 delivered)
              eq_refl eq_refl) as (-> & _); [discriminate|].
  rewrite lookup_insert_eq. reflexivity.
Defined.



(** X10. A first cancellation of an order that has no product, or whose
    product is gone, changes no product; it still takes 10 per unit from the
    organization of the order and writes the status, and it writes nothing
    to the ledger. This holds for every [createdBy], since the creator is
    only looked up after these writes. *)
Theorem cancellation_without_product
    (now : Time) (id : string) (db : Db) (oid orgId : ObjectId)
    (order : Order) (org : Organization) :
  parse_ObjectId id = Some oid →
  orders db !! oid = Some order →
  status order ≠ cancelled →
  parse_ObjectId (organizationId order) = Some orgId →
  organizations db !! orgId = Some org →
  otruthy (productId order) = None
  ∨ (∃ s pid, productId order = Some s ∧ parse_ObjectId s = Some pid
              ∧ products db !! pid = None) →
  let d := (ordersRouter.updateStatus now id cancelled db).2 in
  products d = products db
  ∧ credits <$> organizations d !! orgId
    = Some (credits org - num (10 * quantity order))%num
  ∧ status <$> orders d !! oid = Some cancelled
  ∧ credit_transactions d = credit_transactions db.
Proof.
  intros Hid Ho Hs Horg Hg Hno. cbv zeta.
  destruct (updateStatus_cancel_bare_run now id db oid orgId order Hid Ho Hs Horg Hno)
    as (rest & K & ->).
  rewrite !K by reflexivity.
  cbn [products organizations orders credit_transactions set_orders set_organizations].
  rewrite !lookup_alter_eq, Hg, Ho.
  cbn [fmap option_fmap option_map inc_credits credits].
  rewrite num_add_opp, (Z.mul_comm (quantity order)).
  repeat split; reflexivity.
Qed.

Lemma cancellation_without_product_witness :
  let order := mkOrder Samples.org_id None None "Gift box" (num 90) 4 other
                 "Mali" "0899999999" "Chiang Mai" pending "client" client None
                 None None None None None None None None 0 0 in
  let db := set_orders (insert Samples.order_id order)
              (Samples.shop 5 (num 100) true) in
  let d := (ordersRouter.updateStatus 1 Samples.order_id cancelled db).2 in
  products d = products db
  ∧ credits <$> organizations d !! Samples.org_id = Some (num 100 - num (10 * 4))%num.
Proof.
  cbv zeta.
  set (order := mkOrder Samples.org_id None None "Gift box" (num 90) 4 other
                  "Mali" "0899999999" "Chiang Mai" pending "client" client None
                  None None None None None None None None 0 0).
  set (db := set_orders (insert Samples.order_id order)
               (Samples.shop 5 (num 100) true)).
  destruct (cancellation_without_product 1 Samples.order_id db
              Samples.order_id Samples.org_id order (Samples.acme (num 100)))
    as (Hp & Hc & _);
    [ reflexivity | reflexivity | discriminate | reflexivity | reflexivity
    | left; reflexivity | ].
  split; [exact Hp | exact Hc].
Defined.

(** X11. Only the stored status guards a cancellation. When a cancelled
    order is moved to any other status and cancelled again, the stock is
    restored a second time and the fee is taken a second time; the ledger
    shows neither. *)
Theorem cancellation_repeats_after_reopening
    (now1 now2 now3 : Time) (id : string) (s : OrderStatus) (db : Db)
    (oid orgId pid : ObjectId) (order : Order) (pidStr : string)
    (p : Product) (org : Organization) :
  parse_ObjectId id = Some oid →
  orders db !! oid = Some order →
  status order ≠ cancelled →
  parse_ObjectId (organizationId order) = Some orgId →
  organizations db !! orgId = Some org →
  productId order = Some pidStr →
  parse_ObjectId pidStr = Some pid →
  products db !! pid = Some p →
  (truthy (createdBy order) = true → is_Some (parse_ObjectId (createdBy order))) →
  s ≠ cancelled →
  let d1 := (ordersRouter.updateStatus now1 id cancelled db).2 in
  let d2 := (ordersRouter.updateStatus now2 id s d1).2 in
  let d3 := (ordersRouter.updateStatus now3 id cancelled d2).2 in
  stockQuantity <$> products d3 !! pid
  = Some (stockQuantity p + quantity order + quantity order)%Z
  ∧ credits <$> organizations d3 !! orgId
    = Some (credits org - num (10 * quantity order) - num (10 * quantity order))%num
  ∧ credit_transactions d3 = credit_transactions db.
Proof.
  intros Hid Ho Hs Horg Hg Hprod Hpid Hp Hc Hre. cbv zeta.
  destruct (updateStatus_cancel_product_state now1 id db oid orgId pid order pidStr p
              Hid Ho Hs Horg Hprod Hpid Hp Hc) as (P1 & G1 & O1 & L1).
  set (d1 := (ordersRouter.updateStatus now1 id cancelled db).2) in *.
  assert (orders d1 !! oid = Some (set_status cancelled now1 order)) as Ho1.
  { rewrite O1, lookup_alter_eq, Ho. reflexivity. }
  destruct (updateStatus_plain now2 id d1 oid _ Hid Ho1 s (or_introl Hre))
    as (O2 & P2 & G2).
  pose proof (updateStatus_keeps_ledger now2 id s d1) as L2.
  set (d2 := (ordersRouter.updateStatus now2 id s d1).2) in *.
  assert (orders d2 !! oid = Some (set_status s now2 (set_status cancelled now1 order)))
    as Ho2.
  { rewrite O2, lookup_alter_eq, Ho1. reflexivity. }
  assert (products d2 !! pid = Some (inc_stock (quantity order) now1 p)) as Hp2.
  { rewrite P2, P1, lookup_alter_eq, Hp. reflexivity. }
  destruct (updateStatus_cancel_product_state now3 id d2 oid orgId pid _ pidStr _
              Hid Ho2 Hre Horg Hprod Hpid Hp2 Hc) as (P3 & G3 & O3 & L3).
  rewrite P3, G3, L3, L2, L1, G2, G1, !lookup_alter_eq, Hp2, Hg.
  cbn [fmap option_fmap option_map inc_stock inc_credits stockQuantity credits
       set_status quantity].
  rewrite !num_add_opp, (Z.mul_comm (quantity order)).
  repeat split; reflexivity.
Qed.

Lemma cancellation_repeats_after_reopening_witness :
  let db := Samples.shop_with (Samples.admin_order 3 delivered) 5 (num 100) in
  let d1 := (ordersRouter.updateStatus 1 Samples.order_id cancelled db).2 in
  let d2 := (ordersRouter.updateStatus 2 Samples.order_id pending d1).2 in
  let d3 := (ordersRouter.updateStatus 3 Samples.order_id cancelled d2).2 in
  stockQuantity <$> products d3 !! Samples.product_id = Some (5 + 3 + 3)%Z
  ∧ credits <$> organizations d3 !! Samples.org_id
    = Some (num 100 - num (10 * 3) - num (10 * 3))%num.
Proof.
  cbv zeta.
  destruct (cancellation_repeats_after_reopening 1 2 3 Samples.order_id pending
              (Samples.shop_with (Samples.admin_order 3 delivered) 5 (num 100))
              Samples.order_id Samples.org_id Samples.product_id
              (Samples.admin_order 3 delivered) Samples.product_id
              (Samples.vitamin 5 true) (Samples.acme (num 100)))
    as (H1 & H2 & _);
    [ reflexivity | reflexivity | discriminate | reflexivity | reflexivity
    | reflexivity | reflexivity | reflexivity | intros _; eexists; reflexivity
    | discriminate | ].
  split; [exact H1 | exact H2].
Defined.

(** ** More on order creation *)

Lemma otruthy_Some s v : otruthy s = Some v → s = Some v.
Proof.
  destruct s as [w|]; [|discriminate]. simpl.
  destruct (truthy w); [congruence | discriminate].
Qed.

Section ClientSubmission.

Import ordersRouter.

Variables (now : Time) (newId : ObjectId) (input : ClientOrderInput).
Variables (pidStr : string) (pid : ObjectId).

Hypothesis has_product : ci_productId input = Some pidStr.
Hypothesis pid_ok : parse_ObjectId pidStr = Some pid.

(** The two phases, run one after the other, are the resolver. *)
Lemma submitClientOrder_phases db :
  submitClientOrder now newId input db
  = (submit_checks input ≫= λ _, submit_writes now newId input) db.
Proof.
  unfold submitClientOrder, submit_checks, submit_writes, reserve_stock.
  destruct (otruthy (ci_productId input)) as [s|]; [|reflexivity].
  unfold mbind, M_bind, mret, M_ret.
  destruct (check_stock _ _ _ _ db) as [[q|e] d]; [|reflexivity].
  destruct (take_stock _ _ _ d) as [[[]|e] d']; reflexivity.
Qed.

Lemma submit_checks_pass db p :
  products db !! pid = Some p →
  p_organizationId p = ci_organizationId input →
  isActive p = true →
  (ci_quantity input ≤ stockQuantity p)%Z →
  submit_checks input db = (Returned tt, db).
Proof using has_product pid_ok.
  intros Hp Ho Ha Hq. unfold submit_checks.
  rewrite has_product, (otruthy_ObjectId _ _ pid_ok).
  unfold mbind at 1, M_bind at 1.
  rewrite (check_stock_find ProductNotAvailable db pidStr _ pid p (ci_quantity input)
             pid_ok Hp Ho).
  apply Z.ltb_ge in Hq. rewrite Ha, Hq. reflexivity.
Qed.

Lemma submit_writes_run db :
  ∃ d,
    submit_writes now newId input db = (Returned newId, d)
    ∧ products d = alter (inc_stock (- ci_quantity input) now) pid (products db).
Proof using has_product pid_ok.
  unfold submit_writes. rewrite has_product, (otruthy_ObjectId _ _ pid_ok).
  rewrite ?bind_assoc.
  unfold mbind at 1, M_bind at 1.
  rewrite (take_stock_run now pidStr pid (ci_quantity input) pid_ok).
  eexists. split; reflexivity.
Qed.

End ClientSubmission.

(** X12. The stock check of an order submission and its decrement are
    separated by an [await], and the decrement does not repeat the check.
    When two submissions for one product both run their checks before
    either of them writes, both pass as long as each quantity alone is in
    stock, both return, and the stock ends at the old stock less both
    quantities: below [0] when the two quantities together exceed it. Run
    one after the other, the second submission is refused. *)
Theorem interleaved_submissions_oversell
    (now1 now2 : Time) (id1 id2 : ObjectId)
    (in1 in2 : ordersRouter.ClientOrderInput) (db : Db)
    (pidStr : string) (pid : ObjectId) (p : Product) :
  ordersRouter.ci_productId in1 = Some pidStr →
  ordersRouter.ci_productId in2 = Some pidStr →
  parse_ObjectId pidStr = Some pid →
  products db !! pid = Some p →
  p_organizationId p = ordersRouter.ci_organizationId in1 →
  p_organizationId p = ordersRouter.ci_organizationId in2 →
  isActive p = true →
  (ordersRouter.ci_quantity in1 ≤ stockQuantity p)%Z →
  (ordersRouter.ci_quantity in2 ≤ stockQuantity p)%Z →
  (stockQuantity p < ordersRouter.ci_quantity in1 + ordersRouter.ci_quantity in2)%Z →
  let checked1 := ordersRouter.submit_checks in1 db in
  let checked2 := ordersRouter.submit_checks in2 checked1.2 in
  let written1 := ordersRouter.submit_writes now1 id1 in1 checked2.2 in
  let written2 := ordersRouter.submit_writes now2 id2 in2 written1.2 in
  (∀ d, ordersRouter.submitClientOrder now1 id1 in1 d
        = (ordersRouter.submit_checks in1
             ≫= λ _, ordersRouter.submit_writes now1 id1 in1) d)
  ∧ checked1 = (Returned tt, db)
  ∧ checked2 = (Returned tt, db)
  ∧ written1.1 = Returned id1
  ∧ written2.1 = Returned id2
  ∧ stockQuantity <$> products written2.2 !! pid
    = Some (stockQuantity p - ordersRouter.ci_quantity in1
            - ordersRouter.ci_quantity in2)%Z
  ∧ (stockQuantity p - ordersRouter.ci_quantity in1 - ordersRouter.ci_quantity in2 < 0)%Z
  ∧ (ordersRouter.submitClientOrder now2 id2 in2
       (ordersRouter.submitClientOrder now1 id1 in1 db).2).1
    = Thrown (InsufficientStock (stockQuantity p - ordersRouter.ci_quantity in1)
                (ordersRouter.ci_quantity in2)).
Proof.
  intros Hp1 Hp2 Hpid Hp Ho1 Ho2 Ha Hq1 Hq2 Hover. cbv zeta.
  split; [intros d; apply submitClientOrder_phases|].
  rewrite (submit_checks_pass in1 pidStr pid Hp1 Hpid db p Hp Ho1 Ha Hq1). cbn [snd].
  rewrite (submit_checks_pass in2 pidStr pid Hp2 Hpid db p Hp Ho2 Ha Hq2). cbn [snd].
  destruct (submit_writes_run now1 id1 in1 pidStr pid Hp1 Hpid db) as (d1 & R1 & P1).
  rewrite R1. cbn [fst snd].
  destruct (submit_writes_run now2 id2 in2 pidStr pid Hp2 Hpid d1) as (d2 & R2 & P2).
  rewrite R2. cbn [fst snd].
  rewrite P2, P1, !lookup_alter_eq, Hp.
  cbn [fmap option_fmap option_map inc_stock stockQuantity].
  do 4 (split; [reflexivity|]).
  split; [f_equal; lia|]. split; [lia|].
  rewrite (submitClientOrder_phases now1 id1 in1 db).
  unfold mbind at 1, M_bind at 1.
  rewrite (submit_checks_pass in1 pidStr pid Hp1 Hpid db p Hp Ho1 Ha Hq1), R1. cbn [snd].
  assert (products d1 !! pid = Some (inc_stock (- ordersRouter.ci_quantity in1) now1 p))
    as Hp'.
  { rewrite P1, lookup_alter_eq, Hp. reflexivity. }
  pose proof (submitClientOrder_reserve now2 id2 d1 in2 pidStr pid Hpid
                (Thrown (InsufficientStock
                           (stockQuantity p - ordersRouter.ci_quantity in1)
                           (ordersRouter.ci_quantity in2)), d1) Hp2) as Hthrow.
  cbv iota in Hthrow. rewrite Hthrow; [reflexivity|].
  rewrite (reserve_stock_short now2 ProductNotAvailable d1 pidStr
             (ordersRouter.ci_organizationId in2) pid
             (inc_stock (- ordersRouter.ci_quantity in1) now1 p)
             (ordersRouter.ci_quantity in2) Hpid Hp'); cbn [inc_stock stockQuantity
             p_organizationId isActive]; try assumption.
  - rewrite Z.add_opp_r. reflexivity.
  - lia.
Qed.

Lemma interleaved_submissions_oversell_witness :
  let db := Samples.shop 5 (num 100) true in
  let checked1 := ordersRouter.submit_checks (Samples.client_input 3) db in
  let checked2 := ordersRouter.submit_checks (Samples.client_input 4) checked1.2 in
  let written1 := ordersRouter.submit_writes 1 Samples.client_order_id
                    (Samples.client_input 3) checked2.2 in
  let written2 := ordersRouter.submit_writes 2 Samples.order_id
                    (Samples.client_input 4) written1.2 in
  written2.1 = Returned Samples.order_id
  ∧ stockQuantity <$> products written2.2 !! Samples.product_id = Some (5 - 3 - 4)%Z.
Proof.
  cbv zeta.
  destruct (interleaved_submissions_oversell 1 2 Samples.client_order_id Samples.order_id
              (Samples.client_input 3) (Samples.client_input 4)
              (Samples.shop 5 (num 100) true)
              Samples.product_id Samples.product_id (Samples.vitamin 5 true)
              eq_refl eq_refl eq_refl eq_refl eq_refl eq_refl eq_refl)
    as (_ & _ & _ & _ & H2 & Hs & _);
    [apply Z.leb_le; reflexivity | apply Z.leb_le; reflexivity
    | apply Z.ltb_lt; reflexivity |].
  split; [exact H2 | exact Hs].
Defined.

Section CreateWithProduct.

Import ordersRouter.

Variables (now : Time) (newId : ObjectId) (input : Order) (db : Db).
Variables (pidStr : string) (pid : ObjectId) (p : Product).

Hypothesis has_product : productId input = Some pidStr.
Hypothesis pid_ok : parse_ObjectId pidStr = Some pid.
Hypothesis product_found : products db !! pid = Some p.
Hypothesis same_org : p_organizationId p = organizationId input.
Hypothesis active : isActive p = true.
Hypothesis enough : (quantity input ≤ stockQuantity p)%Z.
Hypothesis creator_ok :
  truthy (createdBy input) = true → is_Some (parse_ObjectId (createdBy input)).

(** An accepted [create] for a product: what it returns and writes. *)
Lemma create_with_product_run :
  ∃ d,
    create now newId input db = (Returned newId, d)
    ∧ orders d
      = <[newId := created_order now input
                     (Some (ostr_or (productCode input) (p_productCode p)))
                     (str_or (productName input) (p_productName p))
                     (num_or (price input) (p_price p))]> (orders db)
    ∧ products d = alter (inc_stock (- quantity input) now) pid (products db)
    ∧ organizations d = organizations db
    ∧ credit_transactions d = credit_transactions db
    ∧ length (product_logs d) = S (length (product_logs db)).
Proof using has_product pid_ok product_found same_org active enough creator_ok.
  unfold create. rewrite has_product, (otruthy_ObjectId _ _ pid_ok).
  rewrite !bind_assoc.
  rewrite (bind_returned _ _ _ _ _
             (reserve_stock_enough now ProductNotActive db pidStr (organizationId input)
                pid p (quantity input) pid_ok product_found same_org active enough)).
  rewrite ?bind_assoc.
  match goal with |- context [(find_creator ?s ≫= _) ?x] =>
    destruct (find_creator_returns s x creator_ok) as [u1 Hu1] end.
  rewrite (bind_returned _ _ _ _ _ Hu1).
  rewrite ?bind_assoc.
  unfold mbind at 1, M_bind at 1, logProductActivity at 1, modify at 1.
  unfold mbind at 1, M_bind at 1, mret at 1, M_ret at 1.
  unfold mbind at 1, M_bind at 1, modify at 1.
  match goal with |- context [(find_creator ?s ≫= _) ?x] =>
    destruct (find_creator_returns s x creator_ok) as [u2 Hu2] end.
  rewrite (bind_returned _ _ _ _ _ Hu2).
  destruct u2 as [[uid u]|]; eexists; (split; [reflexivity|]);
    cbn [orders products organizations credit_transactions product_logs
         add_user_log set_orders add_product_log set_products];
    rewrite length_app; cbn [length]; repeat split; try reflexivity; lia.
Qed.

End CreateWithProduct.

(** X13. An order created for a product and then cancelled leaves the stock
    of the product where it was before the creation, while the organization
    has paid 10 per unit: reservation and restoration cancel out, the fee
    does not. *)
Theorem order_created_then_cancelled
    (now1 now2 : Time) (newId : ObjectId) (input : Order) (db : Db)
    (pidStr : string) (pid orgId : ObjectId) (p : Product) (org : Organization) :
  productId input = Some pidStr →
  parse_ObjectId pidStr = Some pid →
  products db !! pid = Some p →
  p_organizationId p = organizationId input →
  isActive p = true →
  (quantity input ≤ stockQuantity p)%Z →
  (truthy (createdBy input) = true → is_Some (parse_ObjectId (createdBy input))) →
  status input ≠ cancelled →
  parse_ObjectId newId = Some newId →
  parse_ObjectId (organizationId input) = Some orgId →
  organizations db !! orgId = Some org →
  let d1 := (ordersRouter.create now1 newId input db).2 in
  let d2 := (ordersRouter.updateStatus now2 newId cancelled d1).2 in
  stockQuantity <$> products d1 !! pid = Some (stockQuantity p - quantity input)%Z
  ∧ stockQuantity <$> products d2 !! pid = Some (stockQuantity p)
  ∧ credits <$> organizations d2 !! orgId
    = Some (credits org - num (10 * quantity input))%num
  ∧ status <$> orders d2 !! newId = Some cancelled.
Proof.
  intros Hprod Hpid Hp Hsame Hact Hq Hc Hs Hnew Horg Hg. cbv zeta.
  destruct (create_with_product_run now1 newId input db pidStr pid p
              Hprod Hpid Hp Hsame Hact Hq Hc) as (d1 & -> & O1 & P1 & G1 & _).
  cbn [snd].
  assert (orders d1 !! newId
          = Some (ordersRouter.created_order now1 input
                    (Some (ostr_or (productCode input) (p_productCode p)))
                    (str_or (productName input) (p_productName p))
                    (num_or (price input) (p_price p)))) as Ho1.
  { rewrite O1, lookup_insert_eq. reflexivity. }
  assert (products d1 !! pid = Some (inc_stock (- quantity input) now1 p)) as Hp1.
  { rewrite P1, lookup_alter_eq, Hp. reflexivity. }
  destruct (updateStatus_cancel_product_state now2 newId d1 newId orgId pid _ pidStr _
              Hnew Ho1 Hs Horg Hprod Hpid Hp1 Hc) as (P2 & G2 & O2 & _).
  rewrite P2, G2, O2, G1, Hp1, !lookup_alter_eq, Hp1, Hg, Ho1.
  cbn [fmap option_fmap option_map inc_stock inc_credits stockQuantity credits
       set_status status ordersRouter.created_order quantity].
  rewrite num_add_opp, (Z.mul_comm (quantity input)).
  repeat split; try reflexivity; f_equal; lia.
Qed.

Lemma order_created_then_cancelled_witness :
  let db := Samples.shop 5 (num 100) true in
  let d1 := (ordersRouter.create 1 Samples.order_id
               (Samples.admin_order 2 pending) db).2 in
  let d2 := (ordersRouter.updateStatus 2 Samples.order_id cancelled d1).2 in
  stockQuantity <$> products d2 !! Samples.product_id = Some 5%Z
  ∧ credits <$> organizations d2 !! Samples.org_id = Some (num 100 - num (10 * 2))%num.
Proof.
  cbv zeta.
  destruct (order_created_then_cancelled 1 2 Samples.order_id
              (Samples.admin_order 2 pending) (Samples.shop 5 (num 100) true)
              Samples.product_id Samples.product_id Samples.org_id
              (Samples.vitamin 5 true) (Samples.acme (num 100)))
    as (_ & H2 & H3 & _);
    [ reflexivity | reflexivity | reflexivity | reflexivity | reflexivity
    | apply Z.leb_le; reflexivity | intros _; eexists; reflexivity | discriminate
    | reflexivity | reflexivity | reflexivity | ].
  split; [exact H2 | exact H3].
Defined.

(** ** The older per-user deduction *)

(** X14. [users.deductCredits] works on the [credits] field of the user and
    never on an organization. For a finite amount above [0], with a balance
    below the amount (a user without the field has balance [0]) it throws
    and writes nothing; otherwise it stores the double nearest to the
    balance less the amount as the credits of the user and appends one
    [deduct] record with the amount and both balances that names the user
    and no organization. *)
Theorem deductCredits_charges_the_user
    (now : Time) (userId desc : string) (orderId who : option string)
    (db : Db) (uid : ObjectId) (user : User) (amt : number) :
  is_positive amt = true →
  is_finite amt = true →
  parse_ObjectId userId = Some uid →
  users db !! uid = Some user →
  let before := onum_or (user_credits user) (num 0) in
  ((before < amt)%num →
     usersRouter.deductCredits now userId amt desc orderId who db
     = (Thrown InsufficientUserCredits, db))
  ∧ (¬ (before < amt)%num →
     ∃ d t,
       usersRouter.deductCredits now userId amt desc orderId who db
       = (Returned (before - amt)%num, d)
       ∧ user_credits <$> users d !! uid = Some (Some (before - amt)%num)
       ∧ organizations d = organizations db
       ∧ credit_transactions d = credit_transactions db ++ [t]
       ∧ tx_type t = deduct ∧ tx_userId t = Some userId ∧ tx_organizationId t = None
       ∧ amount t = amt ∧ balanceBefore t = before
       ∧ balanceAfter t = (before - amt)%num).
Proof.
  intros Hpos _ Hp Hu. cbv zeta.
  split; intros H; unfold usersRouter.deductCredits; rewrite Hpos; cbn [negb];
    rewrite (bind_returned _ _ _ _ _ (new_ObjectId_ok _ _ db Hp));
    unfold mbind at 1, M_bind at 1, gets at 1; rewrite Hu; cbv zeta.
  - rewrite H. reflexivity.
  - apply not_true_iff_false in H. rewrite H.
    rewrite (bind_returned _ _ _ _ _ (new_ObjectId_ok _ _ db Hp)).
    eexists _, _. split; [reflexivity|].
    cbn [users organizations credit_transactions add_credit_transaction set_users].
    rewrite lookup_alter_eq, Hu. repeat split; reflexivity.
Qed.

Lemma deductCredits_charges_the_user_witness :
  usersRouter.deductCredits 1 Samples.user_id (num 5) "fee" None None
    (Samples.shop 5 (num 100) true)
  = (Thrown InsufficientUserCredits, Samples.shop 5 (num 100) true).
Proof.
  apply (deductCredits_charges_the_user 1 Samples.user_id "fee" None None
           (Samples.shop 5 (num 100) true) Samples.user_id
           (mkUser "Nok" "nok@acme.test" None 0) (num 5)
           eq_refl eq_refl eq_refl eq_refl).
  evaluate.
Defined.

(** ** The order queries *)

Lemma count_status_partition (os : list Order) :
  length os
  = (orderQueries.count_status pending os + orderQueries.count_status processing os
     + orderQueries.count_status sent_to_logistic os
     + orderQueries.count_status delivered os
     + orderQueries.count_status cancelled os)%nat.
Proof.
  unfold orderQueries.count_status. induction os as [|o os IH]; [reflexivity|].
  rewrite !filter_cons. cbn [length]. rewrite IH.
  destruct (status o); repeat case_decide; try congruence; cbn [length]; lia.
Qed.

(** X15. The five status counts of [getStats] add up to its total; the
    total never exceeds the number of stored orders and equals it for a
    caller who is not signed in, for whom no filter applies. The query
    writes nothing. *)
Theorem getStats_counts_add_up (userId : option string) (db : Db) :
  ∃ st,
    orderQueries.getStats userId db = (Returned st, db)
    ∧ orderQueries.total st
      = (orderQueries.n_pending st + orderQueries.n_processing st
         + orderQueries.n_sent_to_logistic st + orderQueries.n_delivered st
         + orderQueries.n_cancelled st)%nat
    ∧ (orderQueries.total st ≤ size (orders db))%nat
    ∧ (otruthy userId = None → orderQueries.total st = size (orders db)).
Proof.
  eexists. split; [reflexivity|].
  cbn [orderQueries.total orderQueries.n_pending orderQueries.n_processing
       orderQueries.n_sent_to_logistic orderQueries.n_delivered
       orderQueries.n_cancelled].
  split; [apply count_status_partition|].
  rewrite length_fmap, <- length_map_to_list. split; [apply length_filter|].
  intros Hu. f_equal. unfold orderQueries.matches. rewrite Hu. simpl.
  induction (map_to_list (orders db)) as [|x l IH]; [reflexivity|].
  rewrite filter_cons, decide_True by reflexivity. f_equal. exact IH.
Qed.

#[local] Instance newer_first_total : Total orderQueries.newer_first.
Proof. intros a b. unfold orderQueries.newer_first. lia. Qed.

Lemma enrich_cases io db :
  (∃ r, orderQueries.enrich io db = (Returned r, db)
        ∧ (orderQueries.lo_id r, orderQueries.lo_order r) = io)
  ∨ orderQueries.enrich io db = (Thrown BSONError, db).
Proof.
  destruct io as [i o]. unfold orderQueries.enrich, find_creator. cbn [fst snd].
  unfold mbind, M_bind, new_ObjectId, gets, throw, mret, M_ret.
  destruct (truthy (createdBy o)); [destruct (parse_ObjectId (createdBy o))|];
    try (right; reflexivity);
    (destruct (truthy (organizationId o));
     [destruct (parse_ObjectId (organizationId o))|]);
    try (right; reflexivity); left; eexists; split; reflexivity.
Qed.


Lemma all_enrich_throws xs db x :
  x ∈ xs → orderQueries.enrich x db = (Thrown BSONError, db) →
  orderQueries.all orderQueries.enrich xs db = (Thrown BSONError, db).
Proof.
  intros Hin Hx. induction xs as [|y xs IH]; [inversion Hin|].
  cbn [orderQueries.all].
  destruct (enrich_cases y db) as [(r & E & _)|E].
  - rewrite (bind_returned _ _ _ _ _ E).
    apply elem_of_cons in Hin as [->|Hin]; [congruence|].
    rewrite (bind_thrown _ _ _ _ _ (IH Hin)). reflexivity.
  - apply bind_thrown, E.
Qed.



(** X17. One order with a creator that is neither empty nor an identifier,
    as [submitClientOrder] stores it, makes [list] throw for every caller
    whose filter lets that order through: the query returns no order at
    all. *)
Theorem list_throws_on_unparsable_creator
    (userId organization : option string) (db : Db) (i : ObjectId) (o : Order) :
  orders db !! i = Some o →
  orderQueries.matches userId organization o = true →
  truthy (createdBy o) = true →
  parse_ObjectId (createdBy o) = None →
  orderQueries.list userId organization db = (Thrown BSONError, db).
Proof.
  intros Ho Hm Ht Hp. unfold orderQueries.list, orderQueries.find_sorted.
  unfold mbind at 1, M_bind at 1, gets at 1.
  apply (all_enrich_throws _ _ (i, o)).
  - rewrite merge_sort_Permutation, list_elem_of_filter, elem_of_map_to_list.
    split; assumption.
  - unfold orderQueries.enrich. cbn [snd].
    apply bind_thrown, find_creator_throws; assumption.
Qed.

Lemma list_throws_on_unparsable_creator_witness :
  let db1 := (ordersRouter.submitClientOrder 1 Samples.client_order_id
                (Samples.client_input 3) (Samples.shop 5 (num 100) true)).2 in
  orderQueries.list None (Some Samples.org_id) db1 = (Thrown BSONError, db1).
Proof.
  cbv zeta.
  assert (∃ o, orders (ordersRouter.submitClientOrder 1 Samples.client_order_id
                 (Samples.client_input 3) (Samples.shop 5 (num 100) true)).2
                 !! Samples.client_order_id = Some o
               ∧ createdBy o = "client" ∧ organizationId o = Samples.org_id)
    as (o & Ho & Hc & Hg).
  { eexists. split; [vm_compute; reflexivity | split; reflexivity]. }
  apply (list_throws_on_unparsable_creator None (Some Samples.org_id) _
           Samples.client_order_id o Ho).
  - unfold orderQueries.matches. rewrite Hg. reflexivity.
  - rewrite Hc. reflexivity.
  - rewrite Hc. reflexivity.
Defined.

(** ** The organization queries *)

#[local] Instance newest_first_total : Total organizationQueries.newest_first.
Proof. intros a b. unfold organizationQueries.newest_first. lia. Qed.

#[local] Instance newest_first_trans : Transitive organizationQueries.newest_first.
Proof. intros a b c. unfold organizationQueries.newest_first. lia. Qed.

(** X18. [getTransactions] returns the ledger records filed under the given
    organization string, all of them and no other, ordered from the newest
    to the oldest, and writes nothing. *)
Theorem getTransactions_lists_own_records (organization : string) (db : Db) :
  ∃ l,
    organizationQueries.getTransactions organization db = (Returned l, db)
    ∧ l ≡ₚ filter (λ t, tx_organizationId t = Some organization) (credit_transactions db)
    ∧ (∀ t, t ∈ l ↔ t ∈ credit_transactions db ∧ tx_organizationId t = Some organization)
    ∧ Sorted organizationQueries.newest_first l.
Proof.
  eexists. split; [reflexivity|]. split; [apply merge_sort_Permutation|]. split.
  - intros t. rewrite merge_sort_Permutation, list_elem_of_filter. tauto.
  - apply Sorted_merge_sort. apply _.
Qed.

(** X19. A shipping-cost deduction that the resolver accepts (the costs are
    finite and the credits read are not below their sum, both as doubles)
    shows in the transaction history under the very string the caller gave
    as [organizationId], and under no other string: the history of any other
    string is what it was before. *)
Theorem deduction_appears_in_history
    (now : Time) (input : ordersRouter.ShippingCostInput) (db : Db)
    (oid orgId : ObjectId) (order : Order) (org : Organization) (s : string) :
  ordersRouter.costs_are_finite input = true →
  parse_ObjectId (ordersRouter.si_id input) = Some oid →
  orders db !! oid = Some order →
  parse_ObjectId (ordersRouter.si_organizationId input) = Some orgId →
  organizations db !! orgId = Some org →
  ¬ (num_or (credits org) (num 0) < sum_costs (ordersRouter.input_costs input))%num →
  let db' := (ordersRouter.updateShippingCost now input db).2 in
  (organizationQueries.getTransactions s db').1
  = Returned
      (merge_sort organizationQueries.newest_first
         (filter (λ t, tx_organizationId t = Some s) (credit_transactions db)
          ++ (if decide (s = ordersRouter.si_organizationId input)
              then [deduction_record now input order org] else []))).
Proof.
  intros Hok%finite_costs_are_numbers Hid Ho Horg Hg Hle. cbv zeta.
  apply not_true_iff_false in Hle.
  rewrite (updateShippingCost_accepts now input db oid orgId order org) by assumption.
  unfold organizationQueries.getTransactions, gets.
  cbn [fst snd credit_transactions after_deduction].
  rewrite filter_app, filter_cons, filter_nil. cbn [tx_organizationId deduction_record].
  destruct (decide (s = ordersRouter.si_organizationId input)) as [->|Hne].
  - rewrite decide_True by reflexivity. reflexivity.
  - rewrite decide_False by congruence. reflexivity.
Qed.

Lemma deduction_appears_in_history_witness :
  let db := Samples.shop_with (Samples.admin_order 2 pending) 5 (num 100) in
  let db' := (ordersRouter.updateShippingCost 1 Samples.scenario_input db).2 in
  (organizationQueries.getTransactions Samples.org_id db').1
  = Returned [deduction_record 1 Samples.scenario_input
                (Samples.admin_order 2 pending) (Samples.acme (num 100))].
Proof.
  cbv zeta.
  rewrite (deduction_appears_in_history 1 Samples.scenario_input
             (Samples.shop_with (Samples.admin_order 2 pending) 5 (num 100))
             Samples.order_id Samples.org_id
             (Samples.admin_order 2 pending) (Samples.acme (num 100))
             Samples.org_id eq_refl eq_refl eq_refl eq_refl eq_refl);
    [evaluate | apply not_true_iff_false; evaluate].
Defined.

(** X20. [getAllTransactions] returns at most 100 records, all from the
    ledger, and they are the newest: no record it leaves out is newer than
    one it returns. *)
Theorem getAllTransactions_newest_hundred (db : Db) :
  ∃ l rest,
    organizationQueries.getAllTransactions db = (Returned l, db)
    ∧ length l = min 100 (length (credit_transactions db))
    ∧ l ++ rest ≡ₚ credit_transactions db
    ∧ (∀ x y, x ∈ l → y ∈ rest → (tx_createdAt y ≤ tx_createdAt x)%Z).
Proof.
  exists (take 100 (merge_sort organizationQueries.newest_first (credit_transactions db))),
         (drop 100 (merge_sort organizationQueries.newest_first (credit_transactions db))).
  split; [reflexivity|]. split.
  - rewrite length_take, merge_sort_Permutation. reflexivity.
  - split; [rewrite take_drop; apply merge_sort_Permutation|].
    intros x y Hx Hy.
    pose proof (StronglySorted_merge_sort organizationQueries.newest_first
                  (credit_transactions db)) as S.
    rewrite <- (take_drop 100) in S.
    exact (StronglySorted_app_1_elem_of _ _ _ x y S Hx Hy).
Qed.

(** X21. [getById] reads back what [adjustCredits] wrote: after an
    adjustment to a finite amount it returns the organization under its
    parsed identifier with the new credits and the time of the adjustment,
    and it has written nothing itself; after a call that the schema refused,
    for an amount below [0], it returns the organization as it was. For an
    unknown organization it throws. *)
Theorem getById_after_adjustCredits
    (now : Time) (orgStr desc : string) (who whoName : option string)
    (db : Db) (orgId : ObjectId) (org : Organization) (newAmount : number) :
  is_finite newAmount = true →
  parse_ObjectId orgStr = Some orgId →
  organizations db !! orgId = Some org →
  let d := (organizationsRouter.adjustCredits now orgStr newAmount desc who whoName db).2 in
  organizationQueries.getById orgStr d
  = (Returned (orgId, if is_nonnegative newAmount
                      then mkOrganization (org_name org) newAmount now
                      else org), d)
  ∧ (∀ other o, parse_ObjectId other = Some o → organizations d !! o = None →
       organizationQueries.getById other d = (Thrown OrganizationNotFound, d)).
Proof.
  intros _ Hp Hf. cbv zeta. split.
  - destruct (is_nonnegative newAmount) eqn:Hpos.
    + rewrite (adjustCredits_run now orgStr desc who whoName db orgId org Hp Hf
                 newAmount Hpos).
      cbn [snd]. unfold organizationQueries.getById.
      rewrite (bind_returned _ _ _ _ _ (new_ObjectId_ok _ _ _ Hp)).
      unfold mbind, M_bind, gets.
      cbn [organizations add_credit_transaction set_organizations].
      rewrite lookup_alter_eq, Hf. reflexivity.
    + unfold organizationsRouter.adjustCredits. rewrite Hpos. cbn [negb throw snd].
      unfold organizationQueries.getById.
      rewrite (bind_returned _ _ _ _ _ (new_ObjectId_ok _ _ _ Hp)).
      unfold mbind, M_bind, gets. rewrite Hf. destruct org. reflexivity.
  - intros other o Ho Hn. unfold organizationQueries.getById.
    rewrite (bind_returned _ _ _ _ _ (new_ObjectId_ok _ _ _ Ho)).
    unfold mbind, M_bind, gets. rewrite Hn. reflexivity.
Qed.

Lemma getById_after_adjustCredits_witness :
  let d := (organizationsRouter.adjustCredits 7 Samples.org_id (num 40) "audit" None None
              (Samples.shop 5 (num 100) true)).2 in
  organizationQueries.getById Samples.org_id d
  = (Returned (Samples.org_id, mkOrganization "Acme Supplements" (num 40) 7), d).
Proof.
  cbv zeta.
  exact (proj1 (getById_after_adjustCredits 7 Samples.org_id "audit" None None
                  (Samples.shop 5 (num 100) true) Samples.org_id
                  (Samples.acme (num 100)) (num 40) eq_refl eq_refl eq_refl)).
Defined.

(** ** The product resolvers *)

Lemma code_in_use_true code org except (m : gmap ObjectId Product) :
  productsRouter.code_in_use code org except m = true
  ↔ ∃ k q, m !! k = Some q ∧ p_productCode q = code ∧ p_organizationId q = org
           ∧ except ≠ Some k.
Proof.
  unfold productsRouter.code_in_use. rewrite bool_decide_eq_true.
  unfold map_Exists. reflexivity.
Qed.

Lemma code_in_use_false code org except (m : gmap ObjectId Product) :
  productsRouter.code_in_use code org except m = false
  ↔ ∀ k q, m !! k = Some q → p_productCode q = code → p_organizationId q = org →
           except = Some k.
Proof.
  rewrite <- not_true_iff_false, code_in_use_true. split.
  - intros H k q Hk Hc Ho. destruct (decide (except = Some k)) as [|Hne]; [assumption|].
    destruct H. eauto 10.
  - intros H (k & q & Hk & Hc & Ho & Hne). apply Hne. eauto.
Qed.

Ltac run_products :=
  unfold productsRouter.check_code, productsRouter.store_product,
    productsRouter.update_checks, productsRouter.update_writes,
    productsRouter.protectedProcedure, ordersRouter.find_product_of,
    logActivity, logProductActivity, mbind, productsRouter.R_bind,
    productsRouter.lift, productsRouter.fail, new_ObjectId, gets, modify, throw,
    mret, productsRouter.R_ret, M_ret, productsRouter.owned.

(** X22. The product resolvers refuse a caller without a user identifier or
    without a user: each of them fails with the unauthorized error before it
    reads or writes anything. *)
Theorem products_require_a_signed_in_user
    (render : Z → string) (ctx : productsRouter.Context) (now : Time)
    (newId : ObjectId) (id : string) (qty : Z)
    (new : productsRouter.NewProduct) (upd : productsRouter.ProductUpdate) (db : Db) :
  otruthy (productsRouter.ctx_userId ctx) = None ∨ productsRouter.ctx_user ctx = None →
  productsRouter.getById ctx id db = (productsRouter.Failed productsRouter.Unauthorized, db)
  ∧ productsRouter.create render ctx now newId new db
    = (productsRouter.Failed productsRouter.Unauthorized, db)
  ∧ productsRouter.update render ctx now upd db
    = (productsRouter.Failed productsRouter.Unauthorized, db)
  ∧ productsRouter.addStock ctx now id qty db
    = (productsRouter.Failed productsRouter.Unauthorized, db)
  ∧ productsRouter.delete ctx now id db
    = (productsRouter.Failed productsRouter.Unauthorized, db).
Proof.
  intros H.
  unfold productsRouter.getById, productsRouter.create, productsRouter.update,
    productsRouter.addStock, productsRouter.delete, productsRouter.protectedProcedure.
  destruct H as [-> | ->]; [|destruct (otruthy _)]; repeat split; reflexivity.
Qed.

Lemma products_require_a_signed_in_user_witness :
  productsRouter.delete (productsRouter.mkContext None None) 1 Samples.product_id
    (Samples.shop 5 (num 100) true)
  = (productsRouter.Failed productsRouter.Unauthorized,
     Samples.shop 5 (num 100) true).
Proof.
  apply (products_require_a_signed_in_user (λ _, "") (productsRouter.mkContext None None)
           1 Samples.order_id Samples.product_id 1%Z
           (productsRouter.mkNewProduct "A" "B" (num 1) 1)
           (productsRouter.mkProductUpdate Samples.product_id None None None None None)
           (Samples.shop 5 (num 100) true)).
  left. reflexivity.
Defined.

(** X23. A product of another organization is out of reach of the product
    resolvers: for a signed-in caller, reading, updating, restocking and
    deleting it all fail with the not-found error and leave the database as
    it was. *)
Theorem products_of_other_organizations_are_out_of_reach
    (render : Z → string) (ctx : productsRouter.Context) (now : Time)
    (userId : string) (user : productsRouter.ContextUser)
    (qty : Z) (upd : productsRouter.ProductUpdate) (db : Db)
    (pid : ObjectId) (p : Product) :
  otruthy (productsRouter.ctx_userId ctx) = Some userId →
  productsRouter.ctx_user ctx = Some user →
  parse_ObjectId (productsRouter.pu_id upd) = Some pid →
  products db !! pid = Some p →
  p_organizationId p ≠ productsRouter.cu_organizationId user →
  productsRouter.getById ctx (productsRouter.pu_id upd) db
  = (productsRouter.Failed (productsRouter.Raised ProductNotFound), db)
  ∧ productsRouter.update render ctx now upd db
    = (productsRouter.Failed (productsRouter.Raised ProductNotFound), db)
  ∧ productsRouter.addStock ctx now (productsRouter.pu_id upd) qty db
    = (productsRouter.Failed (productsRouter.Raised ProductNotFound), db)
  ∧ productsRouter.delete ctx now (productsRouter.pu_id upd) db
    = (productsRouter.Failed (productsRouter.Raised ProductNotFound), db).
Proof.
  intros Hu Hc Hp Hf Hne.
  unfold productsRouter.getById, productsRouter.update, productsRouter.addStock,
    productsRouter.delete.
  run_products. rewrite Hu, Hc, Hp. cbv beta iota. rewrite Hf.
  rewrite decide_False by exact Hne. rewrite bool_decide_eq_false_2 by exact Hne.
  repeat split; reflexivity.
Qed.

Lemma products_of_other_organizations_are_out_of_reach_witness :
  productsRouter.addStock
    (productsRouter.mkContext (Some Samples.user_id)
       (Some (productsRouter.mkContextUser "Eve" "507f1f77bcf86cd799439099")))
    1 Samples.product_id 9 (Samples.shop 5 (num 100) true)
  = (productsRouter.Failed (productsRouter.Raised ProductNotFound),
     Samples.shop 5 (num 100) true).
Proof.
  refine (proj1 (proj2 (proj2 (products_of_other_organizations_are_out_of_reach
    (λ _, "")
    (productsRouter.mkContext (Some Samples.user_id)
       (Some (productsRouter.mkContextUser "Eve" "507f1f77bcf86cd799439099")))
    1 Samples.user_id (productsRouter.mkContextUser "Eve" "507f1f77bcf86cd799439099")
    9%Z
    (productsRouter.mkProductUpdate Samples.product_id None None None None None)
    (Samples.shop 5 (num 100) true) Samples.product_id
    (Samples.vitamin 5 true) eq_refl eq_refl eq_refl eq_refl _)))).
  discriminate.
Defined.

Section ProductCreate.

Import productsRouter.

Variables (render : Z → string) (now : Time) (newId : ObjectId).
Variables (userId : string) (user : ContextUser) (new : NewProduct).

(** The two phases, run one after the other, are the resolver. *)
Lemma create_phases ctx db :
  otruthy (ctx_userId ctx) = Some userId →
  ctx_user ctx = Some user →
  create render ctx now newId new db
  = (check_code user new ≫= λ _, store_product render now newId userId user new) db.
Proof.
  intros Hu Hc. unfold create, protectedProcedure. rewrite Hu, Hc. reflexivity.
Qed.

Lemma check_code_fails db :
  (∃ k q, products db !! k = Some q ∧ p_productCode q = np_productCode new
          ∧ p_organizationId q = cu_organizationId user) →
  check_code user new db = (Failed ProductCodeExists, db).
Proof.
  intros (k & q & Hk & Hcode & Horg).
  assert (code_in_use (np_productCode new) (cu_organizationId user) None (products db)
          = true) as E.
  { apply code_in_use_true. exists k, q. repeat split; try assumption. discriminate. }
  run_products. rewrite E. reflexivity.
Qed.

Lemma check_code_passes db :
  (∀ k q, products db !! k = Some q → p_organizationId q = cu_organizationId user →
          p_productCode q ≠ np_productCode new) →
  check_code user new db = (Done tt, db).
Proof.
  intros Hnone.
  assert (code_in_use (np_productCode new) (cu_organizationId user) None (products db)
          = false) as E.
  { apply code_in_use_false. intros k q Hk Hcode Horg.
    destruct (Hnone k q Hk Horg Hcode). }
  run_products. rewrite E. reflexivity.
Qed.

Lemma store_product_run db :
  ∃ d,
    store_product render now newId userId user new db = (Done newId, d)
    ∧ products d = <[newId := created_product now user new]> (products db)
    ∧ length (product_logs d) = S (length (product_logs db)).
Proof.
  run_products. eexists. split; [reflexivity|].
  cbn [products product_logs add_product_log add_user_log set_products].
  split; [reflexivity|]. rewrite length_app. cbn [length]. lia.
Qed.

End ProductCreate.

(** X24. [create] looks the product code up and inserts after a further
    [await]; nothing else keeps a code from being used twice. A call that
    runs alone fails and writes nothing when a product of the caller's
    organization has the code, and otherwise stores the product as given,
    active, under the new identifier, with one entry in the product log.
    When two calls for one code by users of one organization both look the
    code up before either inserts, both pass and both insert, and two
    products of the organization share the code; run one after the other,
    the second call is refused. *)
Theorem create_code_check_is_not_atomic
    (render : Z → string) (ctx1 ctx2 : productsRouter.Context) (now1 now2 : Time)
    (userId1 userId2 : string) (user1 user2 : productsRouter.ContextUser)
    (id1 id2 : ObjectId) (new1 new2 : productsRouter.NewProduct) (db : Db) :
  otruthy (productsRouter.ctx_userId ctx1) = Some userId1 →
  productsRouter.ctx_user ctx1 = Some user1 →
  otruthy (productsRouter.ctx_userId ctx2) = Some userId2 →
  productsRouter.ctx_user ctx2 = Some user2 →
  (∀ d, productsRouter.create render ctx1 now1 id1 new1 d
        = (productsRouter.check_code user1 new1
             ≫= λ _, productsRouter.store_product render now1 id1 userId1 user1 new1) d)
  ∧ ((∃ k q, products db !! k = Some q
             ∧ p_productCode q = productsRouter.np_productCode new1
             ∧ p_organizationId q = productsRouter.cu_organizationId user1) →
     productsRouter.create render ctx1 now1 id1 new1 db
     = (productsRouter.Failed productsRouter.ProductCodeExists, db))
  ∧ ((∀ k q, products db !! k = Some q →
             p_organizationId q = productsRouter.cu_organizationId user1 →
             p_productCode q ≠ productsRouter.np_productCode new1) →
     (∃ d,
        productsRouter.create render ctx1 now1 id1 new1 db = (productsRouter.Done id1, d)
        ∧ products d
          = <[id1 := mkProduct (productsRouter.cu_organizationId user1)
                       (productsRouter.np_productCode new1)
                       (productsRouter.np_productName new1)
                       (productsRouter.np_price new1)
                       (productsRouter.np_stockQuantity new1) true now1]> (products db)
        ∧ length (product_logs d) = S (length (product_logs db)))
     ∧ (productsRouter.cu_organizationId user2 = productsRouter.cu_organizationId user1 →
        productsRouter.np_productCode new2 = productsRouter.np_productCode new1 →
        id2 ≠ id1 →
        let checked1 := productsRouter.check_code user1 new1 db in
        let checked2 := productsRouter.check_code user2 new2 checked1.2 in
        let stored1 := productsRouter.store_product render now1 id1 userId1 user1 new1
                         checked2.2 in
        let stored2 := productsRouter.store_product render now2 id2 userId2 user2 new2
                         stored1.2 in
        checked1 = (productsRouter.Done tt, db)
        ∧ checked2 = (productsRouter.Done tt, db)
        ∧ stored1.1 = productsRouter.Done id1
        ∧ stored2.1 = productsRouter.Done id2
        ∧ (∃ p q, products stored2.2 !! id1 = Some p ∧ products stored2.2 !! id2 = Some q
                  ∧ p_organizationId p = p_organizationId q
                  ∧ p_productCode p = p_productCode q)
        ∧ ¬ productsRouter.codes_unique (products stored2.2)
        ∧ productsRouter.create render ctx2 now2 id2 new2
            (productsRouter.create render ctx1 now1 id1 new1 db).2
          = (productsRouter.Failed productsRouter.ProductCodeExists,
             (productsRouter.create render ctx1 now1 id1 new1 db).2))).
Proof.
  intros Hu1 Hc1 Hu2 Hc2.
  split; [intros d; apply create_phases; assumption|].
  split.
  { intros Hused. rewrite (create_phases render now1 id1 userId1 user1 new1 ctx1 db Hu1 Hc1).
    unfold mbind, productsRouter.R_bind.
    rewrite (check_code_fails user1 new1 db Hused). reflexivity. }
  intros Hfree.
  destruct (store_product_run render now1 id1 userId1 user1 new1 db)
    as (d1 & S1 & P1 & L1).
  assert (productsRouter.create render ctx1 now1 id1 new1 db = (productsRouter.Done id1, d1))
    as Hrun.
  { rewrite (create_phases render now1 id1 userId1 user1 new1 ctx1 db Hu1 Hc1).
    unfold mbind, productsRouter.R_bind.
    rewrite (check_code_passes user1 new1 db Hfree). exact S1. }
  split.
  { exists d1. split; [exact Hrun|]. split; [exact P1 | exact L1]. }
  intros Horg Hcode Hne. cbv zeta.
  rewrite (check_code_passes user1 new1 db Hfree). cbn [snd].
  rewrite (check_code_passes user2 new2 db)
    by (rewrite Horg, Hcode; exact Hfree).
  cbn [snd]. rewrite S1. cbn [fst snd].
  destruct (store_product_run render now2 id2 userId2 user2 new2 d1)
    as (d2 & S2 & P2 & _).
  rewrite S2. cbn [fst snd].
  assert (products d2 !! id1 = Some (productsRouter.created_product now1 user1 new1)) as H1.
  { rewrite P2, lookup_insert_ne by exact Hne. rewrite P1. apply lookup_insert_eq. }
  assert (products d2 !! id2 = Some (productsRouter.created_product now2 user2 new2)) as H2.
  { rewrite P2. apply lookup_insert_eq. }
  do 4 (split; [reflexivity|]).
  split.
  { eexists _, _. split; [exact H1|]. split; [exact H2|].
    unfold productsRouter.created_product. cbn [p_organizationId p_productCode].
    split; congruence. }
  split.
  { intros Huniq. apply Hne. symmetry.
    apply (Huniq id1 id2 _ _ H1 H2); unfold productsRouter.created_product;
      cbn [p_organizationId p_productCode]; congruence. }
  rewrite Hrun. cbn [snd].
  rewrite (create_phases render now2 id2 userId2 user2 new2 ctx2 d1 Hu2 Hc2).
  unfold mbind, productsRouter.R_bind.
  rewrite (check_code_fails user2 new2 d1); [reflexivity|].
  exists id1, (productsRouter.created_product now1 user1 new1).
  split; [rewrite P1; apply lookup_insert_eq|].
  unfold productsRouter.created_product. cbn [p_organizationId p_productCode]. split; congruence.
Qed.

Lemma create_code_check_is_not_atomic_witness :
  let user := productsRouter.mkContextUser "Nok" Samples.org_id in
  let new := productsRouter.mkNewProduct "ZINC" "Zinc 15" (num 250) 10 in
  let db := Samples.shop 5 (num 100) true in
  let checked1 := productsRouter.check_code user new db in
  let checked2 := productsRouter.check_code user new checked1.2 in
  let stored1 := productsRouter.store_product (λ _, "") 1 Samples.order_id
                   Samples.user_id user new checked2.2 in
  let stored2 := productsRouter.store_product (λ _, "") 2 Samples.client_order_id
                   Samples.user_id user new stored1.2 in
  stored2.1 = productsRouter.Done Samples.client_order_id
  ∧ ¬ productsRouter.codes_unique (products stored2.2).
Proof.
  cbv zeta.
  destruct (create_code_check_is_not_atomic (λ _, "")
              (productsRouter.mkContext (Some Samples.user_id)
                 (Some (productsRouter.mkContextUser "Nok" Samples.org_id)))
              (productsRouter.mkContext (Some Samples.user_id)
                 (Some (productsRouter.mkContextUser "Nok" Samples.org_id)))
              1 2 Samples.user_id Samples.user_id
              (productsRouter.mkContextUser "Nok" Samples.org_id)
              (productsRouter.mkContextUser "Nok" Samples.org_id)
              Samples.order_id Samples.client_order_id
              (productsRouter.mkNewProduct "ZINC" "Zinc 15" (num 250) 10)
              (productsRouter.mkNewProduct "ZINC" "Zinc 15" (num 250) 10)
              (Samples.shop 5 (num 100) true) eq_refl eq_refl eq_refl eq_refl)
    as (_ & _ & Hfree).
  destruct Hfree as (_ & Hrace).
  - intros k q. unfold Samples.shop. cbn [products].
    intros [<- <-]%lookup_singleton_Some _. discriminate.
  - destruct (Hrace eq_refl eq_refl) as (_ & _ & _ & H2 & _ & Hdup & _);
      [discriminate|].
    split; [exact H2 | exact Hdup].
Defined.

Section ProductUpdate.

Import productsRouter.

Variables (render : Z → string) (now : Time).
Variables (userId : string) (user : ContextUser) (upd : ProductUpdate).
Variables (pid : ObjectId) (p : Product).

Hypothesis id_ok : parse_ObjectId (pu_id upd) = Some pid.
Hypothesis same_org : p_organizationId p = cu_organizationId user.

(** The two phases, run one after the other, are the resolver. *)
Lemma update_phases ctx db :
  otruthy (ctx_userId ctx) = Some userId →
  ctx_user ctx = Some user →
  update render ctx now upd db
  = (update_checks user upd ≫= update_writes render now userId user upd) db.
Proof.
  intros Hu Hc. unfold update, protectedProcedure. rewrite Hu, Hc. reflexivity.
Qed.

Lemma update_checks_pass db :
  products db !! pid = Some p →
  match otruthy (pu_productCode upd) with
  | Some c => code_in_use c (cu_organizationId user) (Some pid) (products db) = false
  | None => True
  end →
  update_checks user upd db = (Done p, db).
Proof using id_ok same_org.
  intros Hf Hfree. run_products. rewrite id_ok. cbv beta iota. rewrite Hf.
  rewrite decide_True by exact same_org.
  destruct (otruthy (pu_productCode upd)) as [c|]; [rewrite Hfree|]; reflexivity.
Qed.

Lemma update_checks_code_in_use db c :
  products db !! pid = Some p →
  otruthy (pu_productCode upd) = Some c →
  code_in_use c (cu_organizationId user) (Some pid) (products db) = true →
  update_checks user upd db = (Failed ProductCodeExists, db).
Proof using id_ok same_org.
  intros Hf Hc Hused. run_products. rewrite id_ok. cbv beta iota. rewrite Hf.
  rewrite decide_True by exact same_org. rewrite Hc, Hused. reflexivity.
Qed.

(** The writes of [update] and the entry it files in the product log for the
    product [current] that its first phase read. *)
Lemma update_writes_run current db :
  ∃ entry activity,
    update_writes render now userId user upd current db
    = (Done tt,
       add_product_log entry
         (add_user_log activity
            (set_products (alter (update_owned (cu_organizationId user) upd now) pid) db)))
    ∧ pl_action entry = act_update
    ∧ pl_previousStock entry = Some (stockQuantity current)
    ∧ pl_newStock entry = Some (default (stockQuantity current) (pu_stockQuantity upd))
    ∧ pl_quantityChange entry
      = match pu_stockQuantity upd with
        | Some n => if (n =? stockQuantity current)%Z then None
                    else Some (n - stockQuantity current)%Z
        | None => None
        end.
Proof using id_ok.
  run_products. rewrite id_ok. cbv beta iota.
  eexists _, _. split; [reflexivity|].
  cbn [pl_action pl_previousStock pl_newStock pl_quantityChange].
  repeat split; try reflexivity.
  destruct (pu_stockQuantity upd) as [n|]; [|reflexivity].
  cbn [default from_option id].
  destruct (n =? stockQuantity current)%Z eqn:E; [reflexivity|].
  cbn [negb]. apply Z.eqb_neq in E.
  destruct (n - stockQuantity current =? 0)%Z eqn:E'; [|reflexivity].
  apply Z.eqb_eq in E'. lia.
Qed.

Lemma update_owned_lookup (m : gmap ObjectId Product) :
  m !! pid = Some p →
  alter (update_owned (cu_organizationId user) upd now) pid m !! pid
  = Some (apply_update upd now p).
Proof using same_org.
  intros Hf. rewrite lookup_alter_eq, Hf. cbn [fmap option_fmap option_map].
  unfold update_owned. rewrite decide_True by exact same_org. reflexivity.
Qed.

End ProductUpdate.

Lemma otruthy_code c : c ≠ "" → otruthy (Some c) = Some c.
Proof. intros Hc. destruct c; [congruence | reflexivity]. Qed.

(** X25. [update] looks a new product code up and writes after a further
    [await]; nothing else keeps a code from being used twice. When a caller
    gives two products of the organization one code that no product of the
    organization has, and both calls look the code up before either writes,
    both pass and both write, and the two products share the code. Run one
    after the other, the first call succeeds and the second is refused and
    writes nothing. *)
Theorem update_code_check_is_not_atomic
    (render : Z → string) (ctx : productsRouter.Context) (now1 now2 : Time)
    (userId : string) (user : productsRouter.ContextUser)
    (upd1 upd2 : productsRouter.ProductUpdate) (db : Db)
    (pid1 pid2 : ObjectId) (p1 p2 : Product) (c : string) :
  otruthy (productsRouter.ctx_userId ctx) = Some userId →
  productsRouter.ctx_user ctx = Some user →
  parse_ObjectId (productsRouter.pu_id upd1) = Some pid1 →
  parse_ObjectId (productsRouter.pu_id upd2) = Some pid2 →
  pid1 ≠ pid2 →
  products db !! pid1 = Some p1 →
  products db !! pid2 = Some p2 →
  p_organizationId p1 = productsRouter.cu_organizationId user →
  p_organizationId p2 = productsRouter.cu_organizationId user →
  c ≠ "" →
  productsRouter.pu_productCode upd1 = Some c →
  productsRouter.pu_productCode upd2 = Some c →
  (∀ k q, products db !! k = Some q →
          p_organizationId q = productsRouter.cu_organizationId user →
          p_productCode q ≠ c) →
  let checked1 := productsRouter.update_checks user upd1 db in
  let checked2 := productsRouter.update_checks user upd2 checked1.2 in
  let written1 := productsRouter.update_writes render now1 userId user upd1 p1
                    checked2.2 in
  let written2 := productsRouter.update_writes render now2 userId user upd2 p2
                    written1.2 in
  let alone1 := productsRouter.update render ctx now1 upd1 db in
  (∀ d, productsRouter.update render ctx now1 upd1 d
        = (productsRouter.update_checks user upd1
             ≫= productsRouter.update_writes render now1 userId user upd1) d)
  ∧ checked1 = (productsRouter.Done p1, db)
  ∧ checked2 = (productsRouter.Done p2, db)
  ∧ written1.1 = productsRouter.Done tt
  ∧ written2.1 = productsRouter.Done tt
  ∧ p_productCode <$> products written2.2 !! pid1 = Some c
  ∧ p_productCode <$> products written2.2 !! pid2 = Some c
  ∧ p_organizationId <$> products written2.2 !! pid1
    = p_organizationId <$> products written2.2 !! pid2
  ∧ ¬ productsRouter.codes_unique (products written2.2)
  ∧ alone1.1 = productsRouter.Done tt
  ∧ productsRouter.update render ctx now2 upd2 alone1.2
    = (productsRouter.Failed productsRouter.ProductCodeExists, alone1.2).
Proof.
  intros Hu Hc Hp1 Hp2 Hne Hf1 Hf2 Ho1 Ho2 Hcne Hc1 Hc2 Hfree. cbv zeta.
  split; [intros d; apply update_phases; assumption|].
  assert (∀ pid, productsRouter.code_in_use c (productsRouter.cu_organizationId user)
                   (Some pid) (products db) = false) as Hunused.
  { intros pid. apply code_in_use_false. intros k q Hk Hcode Horg.
    destruct (Hfree k q Hk Horg Hcode). }
  assert (productsRouter.update_checks user upd1 db = (productsRouter.Done p1, db)) as C1.
  { apply (update_checks_pass user upd1 pid1 p1 Hp1 Ho1 db Hf1).
    rewrite Hc1, (otruthy_code c Hcne). apply Hunused. }
  assert (productsRouter.update_checks user upd2 db = (productsRouter.Done p2, db)) as C2.
  { apply (update_checks_pass user upd2 pid2 p2 Hp2 Ho2 db Hf2).
    rewrite Hc2, (otruthy_code c Hcne). apply Hunused. }
  rewrite C1. cbn [snd]. rewrite C2. cbn [snd].
  destruct (update_writes_run render now1 userId user upd1 pid1 Hp1 p1 db)
    as (e1 & a1 & W1 & _).
  rewrite W1. cbn [fst snd].
  match type of W1 with _ = (_, ?x) => set (d1 := x) in * end.
  destruct (update_writes_run render now2 userId user upd2 pid2 Hp2 p2 d1)
    as (e2 & a2 & W2 & _).
  rewrite W2. cbn [fst snd].
  assert (products d1 !! pid1 = Some (productsRouter.apply_update upd1 now1 p1)) as H11.
  { unfold d1. cbn [products add_product_log add_user_log set_products].
    apply update_owned_lookup; assumption. }
  assert (products d1 !! pid2 = Some p2) as H12.
  { unfold d1. cbn [products add_product_log add_user_log set_products].
    rewrite lookup_alter_ne by exact Hne. exact Hf2. }
  assert (products (add_product_log e2 (add_user_log a2
            (set_products (alter (productsRouter.update_owned
                                    (productsRouter.cu_organizationId user) upd2 now2)
                             pid2) d1))) !! pid1
          = Some (productsRouter.apply_update upd1 now1 p1)) as H21.
  { cbn [products add_product_log add_user_log set_products].
    rewrite lookup_alter_ne by congruence. exact H11. }
  assert (products (add_product_log e2 (add_user_log a2
            (set_products (alter (productsRouter.update_owned
                                    (productsRouter.cu_organizationId user) upd2 now2)
                             pid2) d1))) !! pid2
          = Some (productsRouter.apply_update upd2 now2 p2)) as H22.
  { cbn [products add_product_log add_user_log set_products].
    apply update_owned_lookup; assumption. }
  do 4 (split; [reflexivity|]).
  rewrite H21, H22.
  cbn [fmap option_fmap option_map productsRouter.apply_update p_productCode
       p_organizationId].
  rewrite Hc1, Hc2. cbn [default from_option id].
  split; [reflexivity|]. split; [reflexivity|].
  split; [rewrite Ho1, Ho2; reflexivity|].
  split.
  { intros Huniq. apply Hne.
    apply (Huniq pid1 pid2 _ _ H21 H22);
      cbn [productsRouter.apply_update p_productCode p_organizationId];
      [congruence | rewrite Hc1, Hc2; reflexivity]. }
  assert (productsRouter.update render ctx now1 upd1 db = (productsRouter.Done tt, d1))
    as A1.
  { rewrite (update_phases render now1 userId user upd1 ctx db Hu Hc).
    unfold mbind, productsRouter.R_bind. rewrite C1. exact W1. }
  rewrite A1. cbn [fst snd]. split; [reflexivity|].
  rewrite (update_phases render now2 userId user upd2 ctx d1 Hu Hc).
  unfold mbind, productsRouter.R_bind.
  rewrite (update_checks_code_in_use user upd2 pid2 p2 Hp2 Ho2 d1 c H12);
    [reflexivity | rewrite Hc2; apply otruthy_code, Hcne |].
  apply code_in_use_true.
  exists pid1, (productsRouter.apply_update upd1 now1 p1).
  split; [exact H11|].
  cbn [productsRouter.apply_update p_productCode p_organizationId].
  rewrite Hc1. cbn [default from_option id].
  repeat split; [exact Ho1 | congruence].
Qed.

Lemma update_code_check_is_not_atomic_witness :
  let zinc_id := "507f1f77bcf86cd799439016" in
  let zinc := mkProduct Samples.org_id "ZINC" "Zinc 15" (num 250) 10 true 0 in
  let db := set_products (insert zinc_id zinc) (Samples.shop 5 (num 100) true) in
  let user := productsRouter.mkContextUser "Nok" Samples.org_id in
  let upd1 := productsRouter.mkProductUpdate Samples.product_id (Some "MULTI") None None
                None None in
  let upd2 := productsRouter.mkProductUpdate zinc_id (Some "MULTI") None None None None in
  let checked1 := productsRouter.update_checks user upd1 db in
  let checked2 := productsRouter.update_checks user upd2 checked1.2 in
  let written1 := productsRouter.update_writes (λ _, "") 1 Samples.user_id user upd1
                    (Samples.vitamin 5 true) checked2.2 in
  let written2 := productsRouter.update_writes (λ _, "") 2 Samples.user_id user upd2 zinc
                    written1.2 in
  p_productCode <$> products written2.2 !! Samples.product_id = Some "MULTI"
  ∧ p_productCode <$> products written2.2 !! zinc_id = Some "MULTI"
  ∧ ¬ productsRouter.codes_unique (products written2.2).
Proof.
  cbv zeta.
  destruct (update_code_check_is_not_atomic (λ _, "")
              (productsRouter.mkContext (Some Samples.user_id)
                 (Some (productsRouter.mkContextUser "Nok" Samples.org_id)))
              1 2 Samples.user_id (productsRouter.mkContextUser "Nok" Samples.org_id)
              (productsRouter.mkProductUpdate Samples.product_id (Some "MULTI") None None
                 None None)
              (productsRouter.mkProductUpdate "507f1f77bcf86cd799439016" (Some "MULTI")
                 None None None None)
              (set_products
                 (insert "507f1f77bcf86cd799439016"
                    (mkProduct Samples.org_id "ZINC" "Zinc 15" (num 250) 10 true 0))
                 (Samples.shop 5 (num 100) true))
              Samples.product_id "507f1f77bcf86cd799439016"
              (Samples.vitamin 5 true)
              (mkProduct Samples.org_id "ZINC" "Zinc 15" (num 250) 10 true 0) "MULTI"
              eq_refl eq_refl eq_refl eq_refl)
    as (_ & _ & _ & _ & _ & H1 & H2 & _ & Hdup & _);
    [ discriminate | reflexivity | reflexivity | reflexivity | reflexivity | discriminate
    | reflexivity | reflexivity | | ].
  - intros k q. unfold Samples.shop. cbn [products set_products].
    intros [[<- <-]|[_ [<- <-]%lookup_singleton_Some]]%lookup_insert_Some _;
      discriminate.
  - split; [exact H1|]. split; [exact H2 | exact Hdup].
Defined.



Section ProductStock.

Import productsRouter.

Variables (ctx : Context) (now : Time) (userId : string) (user : ContextUser).
Variables (id : string) (db : Db) (pid : ObjectId) (p : Product).

Hypothesis signed_in : otruthy (ctx_userId ctx) = Some userId.
Hypothesis has_user : ctx_user ctx = Some user.
Hypothesis id_ok : parse_ObjectId id = Some pid.
Hypothesis product_found : products db !! pid = Some p.
Hypothesis same_org : p_organizationId p = cu_organizationId user.

Lemma addStock_run qty :
  addStock ctx now id qty db
  = (Done tt,
     add_user_log (mkUserLog userId (Some (cu_name user)) "add stock"
                     (ostr_or (Some id) "") (cu_organizationId user) now)
       (set_products (alter (inc_stock qty now) pid) db)).
Proof using signed_in has_user id_ok product_found same_org.
  unfold addStock. run_products. rewrite signed_in, has_user, id_ok.
  cbv beta iota. rewrite product_found, bool_decide_eq_true_2 by exact same_org.
  reflexivity.
Qed.

Lemma delete_run :
  delete ctx now id db
  = (Done tt,
     add_user_log (mkUserLog userId (Some (cu_name user)) "delete product"
                     (ostr_or (Some id) "") (cu_organizationId user) now)
       (set_products (base.delete pid) db)).
Proof using signed_in has_user id_ok product_found same_org.
  unfold delete. run_products. rewrite signed_in, has_user, id_ok.
  cbv beta iota. rewrite product_found, bool_decide_eq_true_2 by exact same_org.
  reflexivity.
Qed.

End ProductStock.

(** X27. [addStock] by a signed-in caller on a product of the caller's
    organization raises the stock by exactly the quantity and touches no
    other product. It records the activity in the user log only: the product
    log gets no entry for it. *)
Theorem addStock_adds_and_skips_the_product_log
    (ctx : productsRouter.Context) (now : Time) (userId : string)
    (user : productsRouter.ContextUser) (id : string) (qty : Z) (db : Db)
    (pid : ObjectId) (p : Product) :
  otruthy (productsRouter.ctx_userId ctx) = Some userId →
  productsRouter.ctx_user ctx = Some user →
  parse_ObjectId id = Some pid →
  products db !! pid = Some p →
  p_organizationId p = productsRouter.cu_organizationId user →
  ∃ d,
    productsRouter.addStock ctx now id qty db = (productsRouter.Done tt, d)
    ∧ stockQuantity <$> products d !! pid = Some (stockQuantity p + qty)%Z
    ∧ (∀ k, k ≠ pid → products d !! k = products db !! k)
    ∧ product_logs d = product_logs db
    ∧ length (user_logs d) = S (length (user_logs db)).
Proof.
  intros Hu Hc Hp Hf Ho.
  rewrite (addStock_run ctx now userId user id db pid p Hu Hc Hp Hf Ho).
  eexists. split; [reflexivity|].
  cbn [products product_logs user_logs add_user_log set_products].
  rewrite lookup_alter_eq, Hf, length_app. cbn [length].
  repeat split; try reflexivity; [|lia].
  intros k Hk. apply lookup_alter_ne. congruence.
Qed.

Lemma addStock_adds_and_skips_the_product_log_witness :
  ∃ d,
    productsRouter.addStock
      (productsRouter.mkContext (Some Samples.user_id)
         (Some (productsRouter.mkContextUser "Nok" Samples.org_id)))
      1 Samples.product_id 7 (Samples.shop 5 (num 100) true)
    = (productsRouter.Done tt, d)
    ∧ stockQuantity <$> products d !! Samples.product_id = Some (5 + 7)%Z
    ∧ product_logs d = [].
Proof.
  destruct (addStock_adds_and_skips_the_product_log
              (productsRouter.mkContext (Some Samples.user_id)
                 (Some (productsRouter.mkContextUser "Nok" Samples.org_id)))
              1 Samples.user_id (productsRouter.mkContextUser "Nok" Samples.org_id)
              Samples.product_id 7%Z (Samples.shop 5 (num 100) true)
              Samples.product_id (Samples.vitamin 5 true)
              eq_refl eq_refl eq_refl eq_refl eq_refl)
    as (d & Hrun & Hs & _ & Hl & _).
  exists d. split; [exact Hrun|]. split; [exact Hs | exact Hl].
Defined.

(** X28. [delete] removes a product without a look at the orders that
    reserved it. When such an order is cancelled afterwards, there is no
    stock to restore and no product changes, yet the organization still pays
    10 per unit and the order becomes cancelled. *)
Theorem cancellation_after_delete
    (ctx : productsRouter.Context) (now1 now2 : Time) (userId : string)
    (user : productsRouter.ContextUser) (id orderId pidStr : string) (db : Db)
    (pid oid orgId : ObjectId) (p : Product) (order : Order) (org : Organization) :
  otruthy (productsRouter.ctx_userId ctx) = Some userId →
  productsRouter.ctx_user ctx = Some user →
  parse_ObjectId id = Some pid →
  products db !! pid = Some p →
  p_organizationId p = productsRouter.cu_organizationId user →
  parse_ObjectId orderId = Some oid →
  orders db !! oid = Some order →
  status order ≠ cancelled →
  productId order = Some pidStr →
  parse_ObjectId pidStr = Some pid →
  parse_ObjectId (organizationId order) = Some orgId →
  organizations db !! orgId = Some org →
  let d1 := (productsRouter.delete ctx now1 id db).2 in
  let d2 := (ordersRouter.updateStatus now2 orderId cancelled d1).2 in
  (productsRouter.delete ctx now1 id db).1 = productsRouter.Done tt
  ∧ products d1 = base.delete pid (products db)
  ∧ products d2 = products d1
  ∧ credits <$> organizations d2 !! orgId
    = Some (credits org - num (10 * quantity order))%num
  ∧ status <$> orders d2 !! oid = Some cancelled.
Proof.
  intros Hu Hc Hp Hf Ho Hoid Hord Hs Hprod Hpid Horg Hg. cbv zeta.
  rewrite (delete_run ctx now1 userId user id db pid p Hu Hc Hp Hf Ho).
  cbn [fst snd].
  match goal with |- context [ordersRouter.updateStatus _ _ _ ?x] => set (d1 := x) end.
  assert (orders d1 !! oid = Some order) as Hord1 by exact Hord.
  assert (products d1 !! pid = None) as Hgone.
  { unfold d1. cbn [products add_user_log set_products]. apply lookup_delete_eq. }
  destruct (updateStatus_cancel_bare_run now2 orderId d1 oid orgId order
              Hoid Hord1 Hs Horg) as (rest & K & ->).
  { right. exists pidStr, pid. repeat split; assumption. }
  rewrite !K by reflexivity.
  cbn [products organizations orders set_orders set_organizations].
  unfold d1. cbn [products organizations orders add_user_log set_products].
  rewrite !lookup_alter_eq, Hg, Hord.
  cbn [fmap option_fmap option_map inc_credits credits].
  rewrite num_add_opp, (Z.mul_comm (quantity order)).
  repeat split; reflexivity.
Qed.

Lemma cancellation_after_delete_witness :
  let ctx := productsRouter.mkContext (Some Samples.user_id)
               (Some (productsRouter.mkContextUser "Nok" Samples.org_id)) in
  let db := Samples.shop_with (Samples.admin_order 3 pending) 5 (num 100) in
  let d1 := (productsRouter.delete ctx 1 Samples.product_id db).2 in
  let d2 := (ordersRouter.updateStatus 2 Samples.order_id cancelled d1).2 in
  products d2 = products d1
  ∧ credits <$> organizations d2 !! Samples.org_id
    = Some (num 100 - num (10 * 3))%num.
Proof.
  cbv zeta.
  destruct (cancellation_after_delete
              (productsRouter.mkContext (Some Samples.user_id)
                 (Some (productsRouter.mkContextUser "Nok" Samples.org_id)))
              1 2 Samples.user_id (productsRouter.mkContextUser "Nok" Samples.org_id)
              Samples.product_id Samples.order_id Samples.product_id
              (Samples.shop_with (Samples.admin_order 3 pending) 5 (num 100))
              Samples.product_id Samples.order_id Samples.org_id
              (Samples.vitamin 5 true) (Samples.admin_order 3 pending)
              (Samples.acme (num 100)))
    as (_ & _ & H2 & H3 & _);
    [ reflexivity | reflexivity | reflexivity | reflexivity | reflexivity | reflexivity
    | reflexivity | discriminate | reflexivity | reflexivity | reflexivity | reflexivity
    | ].
  split; [exact H2 | exact H3].
Defined.

(** ** The confirmation dialog of the shipping page *)

Lemma find_by_id_unique (os : list (ObjectId * Order)) id o :
  NoDup os.*1 → (id, o) ∈ os →
  List.find (λ io, bool_decide (io.1 = id)) os = Some (id, o).
Proof.
  induction os as [|[i x] os IH]; intros Hnd Hin.
  - apply elem_of_nil in Hin. destruct Hin.
  - cbn [fmap list_fmap fst] in Hnd. apply NoDup_cons in Hnd as [Hfresh Hnd].
    cbn [List.find fst]. apply elem_of_cons in Hin as [Heq|Hin].
    + injection Heq as <- <-. rewrite bool_decide_eq_true_2; reflexivity.
    + destruct (decide (i = id)) as [->|Hne].
      * exfalso. apply Hfresh. apply (list_elem_of_fmap_2 fst _ _ Hin).
      * rewrite bool_decide_eq_false_2 by exact Hne. apply IH; assumption.
Qed.

Lemma confirmShippingCost_Mutate st input :
  ShippingFlow.confirmShippingCost st = ShippingFlow.Mutate input →
  ∃ id orgStr balance o,
    otruthy (ShippingFlow.confirmingOrderId st) = Some id
    ∧ ShippingFlow.page_organization st = Some (orgStr, balance)
    ∧ List.find (λ io, bool_decide (io.1 = id)) (ShippingFlow.page_orders st)
      = Some (id, o)
    ∧ num_ltb balance (ShippingPage.getTotalCost (ShippingFlow.rates st) o) = false
    ∧ input = ShippingPage.confirm_input (ShippingFlow.rates st) id orgStr o.
Proof.
  unfold ShippingFlow.confirmShippingCost.
  destruct (otruthy _) as [id|]; [|discriminate].
  destruct (ShippingFlow.page_organization st) as [[orgStr balance]|]; [|discriminate].
  destruct (List.find _ _) as [[i o]|] eqn:Hfind; [|discriminate].
  destruct (num_ltb _ _) eqn:Hlt; [discriminate|].
  intros [= <-]. exists id, orgStr, balance, o.
  pose proof (List.find_some _ _ Hfind) as [_ Hid].
  apply bool_decide_eq_true_1 in Hid. cbn [fst] in Hid. subst i.
  repeat split; assumption || reflexivity.
Qed.

(** X29. The dialog is opened from the table of pending and processing
    orders only. For an order of that table (ids distinct, as [list] returns
    them) the request [confirmShippingCost] sends names that order and
    carries a cancel fee of [0] whatever the cancel rate is; the seven costs
    it carries add up, as the resolver adds them, to [getTotalCost] of the
    page's copy of the order, which is then the sum of the three
    per-unit costs, the [0], the COD fee on the order total, the box and the
    delivery fee, every operation on doubles. *)
Theorem confirmShippingCost_sends_no_cancel_fee
    (st : ShippingFlow.PageState) (id : string) (o : Order)
    (input : ordersRouter.ShippingCostInput) :
  NoDup (ShippingFlow.page_orders st).*1 →
  (id, o) ∈ ShippingFlow.pendingOrders (ShippingFlow.page_orders st) →
  ShippingFlow.confirmingOrderId st = Some id →
  ShippingFlow.confirmShippingCost st = ShippingFlow.Mutate input →
  ordersRouter.si_id input = id
  ∧ ordersRouter.si_cancelOrderCost input = Some (num 0)
  ∧ sum_costs (ordersRouter.input_costs input)
    = ShippingPage.getTotalCost (ShippingFlow.rates st) o
  ∧ ShippingPage.getTotalCost (ShippingFlow.rates st) o
    = (ShippingPage.pickPack (ShippingFlow.rates st) * num (quantity o)
       + ShippingPage.bubble (ShippingFlow.rates st) * num (quantity o)
       + ShippingPage.paperInside (ShippingFlow.rates st) * num (quantity o)
       + num 0
       + price o * num (quantity o)
         * (ShippingPage.codPercent (ShippingFlow.rates st) / num 100)
       + ShippingPage.box (ShippingFlow.rates st)
       + ShippingPage.deliveryFee (ShippingFlow.rates st))%num.
Proof.
  intros Hnd Hin Hconf Hrun.
  apply list_elem_of_filter in Hin as [Hstatus Hin]. cbn [snd] in Hstatus.
  apply confirmShippingCost_Mutate in Hrun
    as (id' & orgStr & balance & o' & Hid & _ & Hfind & _ & ->).
  apply otruthy_Some in Hid. rewrite Hconf in Hid. injection Hid as <-.
  rewrite (find_by_id_unique _ _ _ Hnd Hin) in Hfind. injection Hfind as <-.
  assert (bool_decide (status o = cancelled) = false) as Hnot.
  { apply bool_decide_eq_false_2. destruct Hstatus as [-> | ->]; discriminate. }
  split; [reflexivity|].
  split.
  { unfold ShippingPage.confirm_input, ShippingPage.calculateOrderCosts.
    cbn [ordersRouter.si_cancelOrderCost c_cancelOrderCost]. rewrite Hnot. reflexivity. }
  split.
  { unfold sum_costs, ordersRouter.input_costs, ShippingPage.confirm_input,
      ShippingPage.getTotalCost.
    cbn [ordersRouter.si_pickPackCost ordersRouter.si_bubbleCost
         ordersRouter.si_paperInsideCost ordersRouter.si_cancelOrderCost
         ordersRouter.si_codCost ordersRouter.si_boxCost ordersRouter.si_deliveryFeeCost
         nullish c_pickPackCost c_bubbleCost c_paperInsideCost c_cancelOrderCost
         c_codCost c_boxCost c_deliveryFeeCost].
    reflexivity. }
  unfold ShippingPage.getTotalCost, ShippingPage.calculateOrderCosts.
  cbn [c_pickPackCost c_bubbleCost c_paperInsideCost c_cancelOrderCost c_codCost
       c_boxCost c_deliveryFeeCost].
  rewrite Hnot. reflexivity.
Qed.

Lemma confirmShippingCost_sends_no_cancel_fee_witness :
  ordersRouter.si_cancelOrderCost Samples.scenario_input = Some (num 0)
  ∧ sum_costs (ordersRouter.input_costs Samples.scenario_input)
    = ShippingPage.getTotalCost ShippingPage.default_rates
        (Samples.admin_order 2 pending).
Proof.
  destruct (confirmShippingCost_sends_no_cancel_fee
              (ShippingFlow.mkPageState
                 [(Samples.order_id, Samples.admin_order 2 pending)]
                 (Some (Samples.org_id, num 1000)) (Some Samples.order_id)
                 ShippingPage.default_rates)
              Samples.order_id (Samples.admin_order 2 pending)
              Samples.scenario_input)
    as (_ & Hfee & Hsum & _).
  - cbn. apply NoDup_singleton.
  - unfold ShippingFlow.pendingOrders. cbn [ShippingFlow.page_orders].
    apply list_elem_of_filter. split; [left; reflexivity | left].
  - reflexivity.
  - evaluate.
  - split; [exact Hfee | exact Hsum].
Defined.

(** X30. When [confirmShippingCost] sends a request with finite costs and the
    balance the page holds is a number and the stored credits of the
    organization, [updateShippingCost] accepts the request and deducts the
    total the page computed from its own copy of the order, also where the
    stored order has changed since the page loaded it. The resolver reads a
    balance of [-0] as [0]. *)
Theorem confirmed_cost_is_accepted_and_charged
    (st : ShippingFlow.PageState) (input : ordersRouter.ShippingCostInput)
    (now : Time) (db : Db) (orgStr : string) (balance : number)
    (oid orgId : ObjectId) (order : Order) (org : Organization) :
  ShippingFlow.confirmShippingCost st = ShippingFlow.Mutate input →
  ShippingFlow.page_organization st = Some (orgStr, balance) →
  ordersRouter.costs_are_finite input = true →
  is_number balance = true →
  parse_ObjectId (ordersRouter.si_id input) = Some oid →
  orders db !! oid = Some order →
  parse_ObjectId orgStr = Some orgId →
  organizations db !! orgId = Some org →
  credits org = balance →
  ∃ o,
    (ordersRouter.si_id input, o) ∈ ShippingFlow.page_orders st
    ∧ ordersRouter.updateShippingCost now input db
      = (Returned (ordersRouter.mkShippingCostResult
                     (ShippingPage.getTotalCost (ShippingFlow.rates st) o)
                     (num_or balance (num 0)
                      - ShippingPage.getTotalCost (ShippingFlow.rates st) o)%num),
         after_deduction now input oid orgId order org db)
    ∧ credits <$> organizations (ordersRouter.updateShippingCost now input db).2 !! orgId
      = Some (num_or balance (num 0)
              - ShippingPage.getTotalCost (ShippingFlow.rates st) o)%num
    ∧ (falsy balance = false → num_or balance (num 0) = balance).
Proof.
  intros Hrun Horg Hok%finite_costs_are_numbers Hnum Hoid Hord Hpo Hg Hbal.
  apply confirmShippingCost_Mutate in Hrun
    as (id & orgStr' & balance' & o & _ & Horg' & Hfind & Hge & ->).
  rewrite Horg in Horg'. injection Horg' as <- <-.
  exists o.
  split.
  { apply List.find_some in Hfind as [Hin _]. apply list_elem_of_In. exact Hin. }
  assert (sum_costs (ordersRouter.input_costs
                       (ShippingPage.confirm_input (ShippingFlow.rates st) id orgStr o))
          = ShippingPage.getTotalCost (ShippingFlow.rates st) o) as Hsum.
  { unfold sum_costs, ordersRouter.input_costs, ShippingPage.confirm_input,
      ShippingPage.getTotalCost.
    cbn [ordersRouter.si_pickPackCost ordersRouter.si_bubbleCost
         ordersRouter.si_paperInsideCost ordersRouter.si_cancelOrderCost
         ordersRouter.si_codCost ordersRouter.si_boxCost ordersRouter.si_deliveryFeeCost
         nullish c_pickPackCost c_bubbleCost c_paperInsideCost c_cancelOrderCost
         c_codCost c_boxCost c_deliveryFeeCost].
    reflexivity. }
  assert (num_ltb (num_or (credits org) (num 0))
            (sum_costs (ordersRouter.input_costs
               (ShippingPage.confirm_input (ShippingFlow.rates st) id orgStr o)))
          = false) as Hge'.
  { rewrite Hsum, Hbal, (num_or_zero_ltb _ _ Hnum). exact Hge. }
  pose proof (updateShippingCost_accepts now _ db oid orgId order org
                Hok Hoid Hord Hpo Hg Hge') as Hacc.
  rewrite Hsum, Hbal in Hacc.
  split; [exact Hacc|].
  split; [|apply num_or_truthy].
  rewrite Hacc. cbn [snd]. unfold after_deduction. cbn [organizations].
  rewrite lookup_alter_eq, Hg, Hsum, Hbal. reflexivity.
Qed.

Lemma confirmed_cost_is_accepted_and_charged_witness :
  ∃ o,
    (Samples.order_id, o)
      ∈ [(Samples.order_id, Samples.admin_order 2 pending)]
    ∧ credits <$> organizations
        (ordersRouter.updateShippingCost 1 Samples.scenario_input
           (Samples.shop_with (Samples.admin_order 2 cancelled) 5 (num 1000))).2
        !! Samples.org_id
      = Some (num 1000 - ShippingPage.getTotalCost ShippingPage.default_rates o)%num.
Proof.
  destruct (confirmed_cost_is_accepted_and_charged
              (ShippingFlow.mkPageState
                 [(Samples.order_id, Samples.admin_order 2 pending)]
                 (Some (Samples.org_id, num 1000)) (Some Samples.order_id)
                 ShippingPage.default_rates)
              Samples.scenario_input 1
              (Samples.shop_with (Samples.admin_order 2 cancelled) 5 (num 1000))
              Samples.org_id (num 1000) Samples.order_id Samples.org_id
              (Samples.admin_order 2 cancelled) (Samples.acme (num 1000)))
    as (o & Hin & _ & Hcredits & Hread);
    [ evaluate | reflexivity | reflexivity | reflexivity | reflexivity | reflexivity
    | reflexivity | reflexivity | reflexivity | ].
  exists o. split; [exact Hin|].
  rewrite Hcredits, (Hread eq_refl). reflexivity.
Defined.
